(** * Traffic-pattern inference engine: CBS / TAS estimators

    Shallow embedding of the capture and analysis code of
    [src/server/cbs-estimator.c], [src/server/tas-estimator.c] and
    [src/server/tsn-verify.c], and of the test frames of the latter.

    C integers are modelled as [Z] with the wrap-around of their width
    written out; [double] values are IEEE 754 binary64 primitive floats;
    arrays with a fill counter are lists together with the counter. *)

From Stdlib Require Import ZArith List Lia Bool Floats Ascii String Permutation
  Sorted.
Import ListNotations.
Set Warnings "-inexact-float,-abstract-large-number".
Open Scope Z_scope.

(** ** Machine arithmetic *)

Module C.

Definition u8 (x : Z) : Z := x mod 2 ^ 8.
Definition u16 (x : Z) : Z := x mod 2 ^ 16.
Definition u32 (x : Z) : Z := x mod 2 ^ 32.
Definition u64 (x : Z) : Z := x mod 2 ^ 64.

(** Conversion of an integer to [double] (round to nearest, ties to even). *)
Definition double_of_Z (z : Z) : float :=
  SF2Prim (binary_normalize prec emax z 0 false).

(** The cast [(int)x] / [(uint64_t)x] of a finite [double]: truncation
    toward zero. *)
Definition Z_of_double (f : float) : Z :=
  match Prim2SF f with
  | S754_finite s m e =>
      let mag := if 0 <=? e then Z.pos m * 2 ^ e else Z.pos m / 2 ^ (- e) in
      if s then - mag else mag
  | _ => 0
  end.

(** [a[i]++] on an array of counters. *)
Fixpoint bump (i : nat) (a : list Z) : list Z :=
  match a, i with
  | [], _ => []
  | x :: r, O => (x + 1) :: r
  | x :: r, S k => x :: bump k r
  end.

(** [a[i] = x]; a write past the end is not modelled (left unchanged). *)
Fixpoint set_nth {A} (i : nat) (x : A) (a : list A) : list A :=
  match a, i with
  | [], _ => []
  | _ :: r, O => x :: r
  | y :: r, S k => y :: set_nth k x r
  end.

End C.

(** ** cbs-estimator.c *)

Module Cbs.

Definition MAX_TC : Z := 8.
Definition MAX_PACKETS : Z := 100000.
Definition MAX_BURSTS : Z := 10000.
Definition BURST_GAP_THRESHOLD_US : Z := 500.

Record packet_t := mk_packet { ts_ns : Z; len : Z; tc : Z }.

Record burst_t := mk_burst {
  start_ns : Z;
  end_ns : Z;
  bytes : Z;
  bpackets : Z            (* field [packets] of [burst_t] *)
}.

(** [packets] holds the slots [packets[0 .. packet_count-1]] written so
    far, [bursts] the slots [bursts[0 .. burst_count-1]]. *)
Record tc_analysis_t := mk_tc {
  packets : list packet_t;
  packet_count : Z;
  bursts : list burst_t;
  burst_count : Z;
  total_bytes : Z;
  first_ts : Z;
  last_ts : Z;
  measured_bps : float;
  estimated_idle_slope : float;
  burst_ratio : float;
  is_shaped : bool;
  avg_burst_duration_us : float;
  avg_gap_duration_us : float;
  max_burst_bytes : float
}.

(** [memset(tc_data, 0, sizeof(tc_data))] *)
Definition tc_zero : tc_analysis_t :=
  mk_tc [] 0 [] 0 0 0 0 0%float 0%float 0%float false 0%float 0%float 0%float.

(** Header fields of a captured frame that the handler reads. *)
Record pcap_pkthdr := mk_hdr {
  tv_sec : Z;
  tv_usec : Z;
  caplen : Z;
  hdr_len : Z              (* [hdr->len], a 32-bit unsigned *)
}.

(** The critical section of [packet_handler]: append one observation to
    the store of its class. *)
Definition store_append (s : tc_analysis_t) (ts hlen pcp : Z) : tc_analysis_t :=
  if packet_count s <? MAX_PACKETS then
    mk_tc (packets s ++ [mk_packet ts (C.u16 hlen) (C.u8 pcp)])
          (packet_count s + 1)
          (bursts s) (burst_count s)
          (C.u64 (total_bytes s + hlen))
          (if first_ts s =? 0 then ts else first_ts s)
          ts
          (measured_bps s) (estimated_idle_slope s) (burst_ratio s)
          (is_shaped s) (avg_burst_duration_us s) (avg_gap_duration_us s)
          (max_burst_bytes s)
  else s.

Definition update_tc (tc_data : list tc_analysis_t) (pcp : Z)
    (f : tc_analysis_t -> tc_analysis_t) : list tc_analysis_t :=
  match nth_error tc_data (Z.to_nat pcp) with
  | Some s => C.set_nth (Z.to_nat pcp) (f s) tc_data
  | None => tc_data
  end.

Definition packet_handler (target_vlan : Z) (tc_data : list tc_analysis_t)
    (hdr : pcap_pkthdr) (pkt : list Z) : list tc_analysis_t :=
  if caplen hdr <? 18 then tc_data else
  let ethertype := C.u16 (Z.lor (Z.shiftl (nth 12 pkt 0) 8) (nth 13 pkt 0)) in
  if negb (ethertype =? 0x8100) then tc_data else
  let tci := C.u16 (Z.lor (Z.shiftl (nth 14 pkt 0) 8) (nth 15 pkt 0)) in
  let pcp := Z.land (Z.shiftr tci 13) 0x07 in
  let vid := Z.land tci 0x0FFF in
  if (0 <? target_vlan) && negb (vid =? target_vlan) then tc_data else
  let ts := C.u64 (C.u64 (tv_sec hdr * 1000000000) + C.u64 (tv_usec hdr * 1000)) in
  update_tc tc_data pcp (fun s => store_append s ts (hdr_len hdr) pcp).

(** *** Burst segmentation *)

Definition stored (tc : tc_analysis_t) : list packet_t :=
  firstn (Z.to_nat (packet_count tc)) (packets tc).

Definition burst_open (p : packet_t) : burst_t :=
  mk_burst (ts_ns p) 0 (len p) 1.

Definition burst_extend (b : burst_t) (p : packet_t) : burst_t :=
  mk_burst (start_ns b) (end_ns b) (C.u32 (bytes b + len p)) (C.u32 (bpackets b + 1)).

Definition burst_close (b : burst_t) (ts : Z) : burst_t :=
  mk_burst (start_ns b) ts (bytes b) (bpackets b).

(** The [for] loop of [detect_bursts]: [prev] is [packets[i-1]], [b] the
    burst being filled ([bursts[burst_count-1]]), [n] is [burst_count];
    the result lists the bursts from [b] on, in array order. *)
Fixpoint burst_loop (gap_threshold : Z) (prev : packet_t) (b : burst_t) (n : Z)
    (rest : list packet_t) : list burst_t :=
  match rest with
  | [] => [burst_close b (ts_ns prev)]
  | p :: rest' =>
      let gap := C.u64 (ts_ns p - ts_ns prev) in
      if (gap >? gap_threshold) && (n <? MAX_BURSTS) then
        burst_close b (ts_ns prev)
          :: burst_loop gap_threshold p (burst_open p) (n + 1) rest'
      else
        burst_loop gap_threshold p (burst_extend b p) n rest'
  end.

Definition detect_bursts (tc : tc_analysis_t) : tc_analysis_t :=
  if packet_count tc <? 2 then tc else
  match stored tc with
  | [] => tc
  | p0 :: rest =>
      let gap_threshold := BURST_GAP_THRESHOLD_US * 1000 in
      let bs := burst_loop gap_threshold p0 (burst_open p0) 1 rest in
      mk_tc (packets tc) (packet_count tc)
            bs (Z.of_nat (List.length bs))
            (total_bytes tc) (first_ts tc) (last_ts tc)
            (measured_bps tc) (estimated_idle_slope tc) (burst_ratio tc)
            (is_shaped tc) (avg_burst_duration_us tc) (avg_gap_duration_us tc)
            (max_burst_bytes tc)
  end.

(** *** CBS estimation *)

(** The loop of [analyze_cbs] over [bursts[0 .. burst_count-1]], carrying
    [total_burst_time], [total_gap_time] and [max_burst]. *)
Fixpoint burst_stats (bs : list burst_t) (acc : float * float * float)
    : float * float * float :=
  match bs with
  | [] => acc
  | b :: rest =>
      let '(total_burst_time, total_gap_time, max_burst) := acc in
      let burst_dur := (C.double_of_Z (C.u64 (end_ns b - start_ns b)) / 1e3)%float in
      let total_burst_time := (total_burst_time + burst_dur)%float in
      let max_burst :=
        if (max_burst <? C.double_of_Z (bytes b))%float
        then C.double_of_Z (bytes b) else max_burst in
      let total_gap_time :=
        match rest with
        | [] => total_gap_time
        | b' :: _ =>
            (total_gap_time
             + C.double_of_Z (C.u64 (start_ns b' - end_ns b)) / 1e3)%float
        end in
      burst_stats rest (total_burst_time, total_gap_time, max_burst)
  end.

Definition total_duration_s (tc : tc_analysis_t) : float :=
  (C.double_of_Z (C.u64 (last_ts tc - first_ts tc)) / 1e9)%float.

Definition analyze_cbs (tc : tc_analysis_t) : tc_analysis_t :=
  if (packet_count tc <? 10) || (burst_count tc <? 1) then tc else
  let total_duration_s := total_duration_s tc in
  if (total_duration_s <=? 0)%float then tc else
  let measured_bps :=
    (C.double_of_Z (total_bytes tc) * 8.0 / total_duration_s)%float in
  let '(total_burst_time, total_gap_time, max_burst) :=
    burst_stats (firstn (Z.to_nat (burst_count tc)) (bursts tc))
                (0%float, 0%float, 0%float) in
  let max_burst_bytes := max_burst in
  let avg_burst_duration_us :=
    if 0 <? burst_count tc
    then (total_burst_time / C.double_of_Z (burst_count tc))%float
    else 0%float in
  let avg_gap_duration_us :=
    if 1 <? burst_count tc
    then (total_gap_time / C.double_of_Z (burst_count tc - 1))%float
    else 0%float in
  let total_time_us := (total_duration_s * 1e6)%float in
  let burst_ratio := (total_burst_time / total_time_us)%float in
  let has_gaps := (100 <? avg_gap_duration_us)%float in
  let regular_bursts := 3 <? burst_count tc in
  let is_shaped := has_gaps && regular_bursts && (burst_ratio <? 0.85)%float in
  let estimated_idle_slope := measured_bps in
  mk_tc (packets tc) (packet_count tc) (bursts tc) (burst_count tc)
        (total_bytes tc) (first_ts tc) (last_ts tc)
        measured_bps estimated_idle_slope burst_ratio is_shaped
        avg_burst_duration_us avg_gap_duration_us max_burst_bytes.

(** *** Report

    [print_results_json] is modelled by the values it formats: one entry
    of the ["tc"] object and one of the ["cbs_config"] array per class
    that is printed. *)

Record tc_report := mk_tc_report {
  r_tc : Z;
  r_packets : Z;
  r_bytes : Z;
  r_measured_kbps : float;
  r_bursts : Z;
  r_avg_gap_us : float;
  r_burst_ratio : float;
  r_is_shaped : bool;
  r_estimated_idle_slope_bps : float
}.

Record cbs_config := mk_cbs_config {
  c_tc : Z;
  idle_slope_bps : float;
  send_slope_bps : float;
  hi_credit_bytes : float;
  lo_credit_bytes : float;
  confidence : string
}.

Definition report_tc (i : Z) (tc : tc_analysis_t) : tc_report :=
  mk_tc_report i (packet_count tc) (total_bytes tc)
    (measured_bps tc / 1000.0)%float (burst_count tc)
    (avg_gap_duration_us tc) (burst_ratio tc) (is_shaped tc)
    (estimated_idle_slope tc).

Definition config_tc (link_speed_bps : float) (i : Z) (tc : tc_analysis_t)
    : cbs_config :=
  let idle_slope := estimated_idle_slope tc in
  let send_slope := (- (link_speed_bps - idle_slope))%float in
  let hi_credit := (max_burst_bytes tc * 1.5)%float in
  let lo_credit := (- hi_credit)%float in
  mk_cbs_config i idle_slope send_slope hi_credit lo_credit
    (if is_shaped tc then "high" else "low")%string.

(** [for (i = 0; i < MAX_TC; i++) { if (packet_count < 10) continue; ... }] *)
Fixpoint for_printed {A} (i : Z) (tc_data : list tc_analysis_t)
    (f : Z -> tc_analysis_t -> A) : list A :=
  match tc_data with
  | [] => []
  | tc :: rest =>
      if packet_count tc <? 10 then for_printed (i + 1) rest f
      else f i tc :: for_printed (i + 1) rest f
  end.

Definition print_results_json (link_speed_bps : float)
    (tc_data : list tc_analysis_t) : list tc_report * list cbs_config :=
  (for_printed 0 tc_data report_tc,
   for_printed 0 tc_data (config_tc link_speed_bps)).

(** The analysis pass of [main]. *)
Definition analyze_all (tc_data : list tc_analysis_t) : list tc_analysis_t :=
  map (fun tc => if 0 <? packet_count tc
                 then analyze_cbs (detect_bursts tc) else tc) tc_data.

End Cbs.

(** ** tsn-verify.c *)

Module Verify.

Definition MAX_PACKETS : Z := 100000.
Definition MAX_BURSTS : Z := 5000.

(** Same loop as [Cbs.burst_loop], except that the capacity test sits in
    the loop condition: [i < packet_count && burst_count < MAX_BURSTS]. *)
Fixpoint burst_loop (gap_threshold : Z) (prev : Cbs.packet_t) (b : Cbs.burst_t)
    (n : Z) (last : Z) (rest : list Cbs.packet_t) : list Cbs.burst_t :=
  match rest with
  | [] => [Cbs.burst_close b last]
  | p :: rest' =>
      if negb (n <? MAX_BURSTS) then [Cbs.burst_close b last] else
      let gap := C.u64 (Cbs.ts_ns p - Cbs.ts_ns prev) in
      if gap >? gap_threshold then
        Cbs.burst_close b (Cbs.ts_ns prev)
          :: burst_loop gap_threshold p (Cbs.burst_open p) (n + 1) last rest'
      else
        burst_loop gap_threshold p (Cbs.burst_extend b p) n last rest'
  end.

(** [detect_bursts] on the stored packets; the final
    [b->end_ns = packets[packet_count - 1].ts_ns] uses the last packet. *)
Definition detect_bursts (pkts : list Cbs.packet_t) : list Cbs.burst_t :=
  if Z.of_nat (List.length pkts) <? 2 then [] else
  match pkts with
  | [] => []
  | p0 :: rest =>
      burst_loop 500000 p0 (Cbs.burst_open p0) 1
        (Cbs.ts_ns (List.last pkts p0)) rest
  end.

(** The presence threshold of [analyze_tas]. *)
Definition tas_threshold (packet_count n_bins : Z) : Z :=
  let mean := (C.double_of_Z packet_count / C.double_of_Z n_bins)%float in
  let threshold := C.Z_of_double (mean * 0.3)%float in
  if threshold <? 1 then 1 else threshold.

(** *** Test frames *)

(** [unsigned char mac[6]] *)
Record mac_t := mk_mac { m0 : Z; m1 : Z; m2 : Z; m3 : Z; m4 : Z; m5 : Z }.

Definition mac_bytes (m : mac_t) : list Z :=
  [m0 m; m1 m; m2 m; m3 m; m4 m; m5 m].

(** The value read through an [unsigned short *] at two consecutive bytes:
    it depends on the byte order of the host. *)
Definition host_u16 (little_endian : bool) (b0 b1 : Z) : Z :=
  if little_endian then Z.lor b0 (Z.shiftl b1 8) else Z.lor (Z.shiftl b0 8) b1.

(** The first [n] 16-bit words read at [&frame[ip_start]]. *)
Fixpoint host_words (little_endian : bool) (n : nat) (bytes : list Z) : list Z :=
  match n, bytes with
  | S k, b0 :: b1 :: rest =>
      host_u16 little_endian b0 b1 :: host_words little_endian k rest
  | _, _ => []
  end.

(** The eight bytes of a [uint64_t] as [memcpy] finds them in memory. *)
Definition host_bytes64 (little_endian : bool) (x : Z) : list Z :=
  let low_first :=
    map (fun k => Z.land (Z.shiftr x (8 * k)) 0xFF) [0; 1; 2; 3; 4; 5; 6; 7] in
  if little_endian then low_first else rev low_first.

(** The IP header of [build_frame], with [c0], [c1] in the checksum field. *)
Definition ip_header (pcp c0 c1 : Z) : list Z :=
  let ip_len := 20 + 8 + 18 in
  [0x45; C.u8 (Z.shiftl pcp 5);
   Z.land (Z.shiftr ip_len 8) 0xFF; Z.land ip_len 0xFF;
   0; 0; 0; 0;
   64; 17; c0; c1;
   192; 168; 100; 1;
   192; 168; 100; 2].

(** The two bytes stored at [ip_start + 10] and [ip_start + 11].  The sum
    stays far below 2^32, so the width of [unsigned long] does not matter,
    and only the low 16 bits of [~sum] are used. *)
Definition checksum_bytes (little_endian : bool) (hdr : list Z) : Z * Z :=
  let sum := fold_left Z.add (host_words little_endian 10 hdr) 0 in
  let sum := Z.shiftr sum 16 + Z.land sum 0xFFFF in
  let sum := sum + Z.shiftr sum 16 in
  (Z.land (Z.shiftr (Z.lnot sum) 8) 0xFF, Z.land (Z.lnot sum) 0xFF).

(** [build_frame]: the bytes written to [frame] and the returned length.
    [ts] is the value of [get_time_ns()]; [pcp] and [vlan_id] are C [int]s. *)
Definition build_frame (little_endian : bool) (dst src : mac_t)
    (vlan_id pcp ts : Z) : list Z * Z :=
  let tci :=
    C.u16 (Z.lor (Z.shiftl (Z.land pcp 0x7) 13) (Z.land vlan_id 0xFFF)) in
  let '(c0, c1) := checksum_bytes little_endian (ip_header pcp 0 0) in
  let sport := 10000 + pcp in
  let dport := 20000 + pcp in
  let udp_len := 8 + 18 in
  let frame :=
    mac_bytes dst ++ mac_bytes src
    ++ [0x81; 0x00; Z.land (Z.shiftr tci 8) 0xFF; Z.land tci 0xFF; 0x08; 0x00]
    ++ ip_header pcp c0 c1
    ++ [Z.land (Z.shiftr sport 8) 0xFF; Z.land sport 0xFF;
        Z.land (Z.shiftr dport 8) 0xFF; Z.land dport 0xFF;
        Z.land (Z.shiftr udp_len 8) 0xFF; Z.land udp_len 0xFF; 0; 0]
    ++ host_bytes64 little_endian ts
    ++ [C.u8 pcp]
    ++ map C.u8 [0; 1; 2; 3; 4; 5; 6; 7; 8] in
  (* while (offset < 60) frame[offset++] = 0; *)
  let frame := frame ++ repeat 0 (60 - List.length frame)%nat in
  (frame, Z.of_nat (List.length frame)).

(** *** Gate window of a class *)

(** The fields of [tc_data_t] that [detect_cycle] and [analyze_tas] read
    and write; [histogram] holds the bins [histogram[0 .. histogram_size-1]]
    (the rest of the array stays zero). *)
Record tc_data_t := mk_tc {
  packets : list Cbs.packet_t;
  packet_count : Z;
  first_ts : Z;
  histogram : list Z;
  histogram_size : Z;
  window_start_us : float;
  window_duration_us : float
}.

(** [if (bin < n_bins) tc->histogram[bin]++] for every stored packet;
    [bin_size] is not zero. *)
Definition fill_bins (tc : tc_data_t) (cycle_ns bin_size n_bins : Z) : list Z :=
  fold_left
    (fun bins p =>
       let bin := (C.u64 (Cbs.ts_ns p - first_ts tc) mod cycle_ns) / bin_size in
       if bin <? n_bins then C.bump (Z.to_nat bin) bins else bins)
    (firstn (Z.to_nat (packet_count tc)) (packets tc))
    (repeat 0 (Z.to_nat n_bins)).

(** The search for the window: [acc] is [(start, end)], [i] the index of
    the head of [bins]. *)
Fixpoint find_window (threshold i : Z) (bins : list Z) (acc : Z * Z) : Z * Z :=
  match bins with
  | [] => acc
  | h :: rest =>
      find_window threshold (i + 1) rest
        (if threshold <=? h
         then ((if fst acc <? 0 then i else fst acc), i)
         else acc)
  end.

(** [analyze_tas].  With ten packets or more and a cycle below 100 ns,
    [bin_size] is 0 and the first packet divides by zero: [None]. *)
Definition analyze_tas (tc : tc_data_t) (cycle_ns tc_idx : Z)
    : option tc_data_t :=
  if (packet_count tc <? 10) || (cycle_ns =? 0) then Some tc else
  let n_bins := 100 in
  let bin_size := cycle_ns / n_bins in
  if bin_size =? 0 then None else
  let hist := fill_bins tc cycle_ns bin_size n_bins in
  let threshold := tas_threshold (packet_count tc) n_bins in
  let '(start, end_) := find_window threshold 0 hist (-1, -1) in
  let us := (C.double_of_Z bin_size / 1000.0)%float in
  Some (if 0 <=? start then
          mk_tc (packets tc) (packet_count tc) (first_ts tc) hist n_bins
                (C.double_of_Z start * us)%float
                (C.double_of_Z (end_ - start + 1) * us)%float
        else
          mk_tc (packets tc) (packet_count tc) (first_ts tc) hist n_bins
                (window_start_us tc) (window_duration_us tc)).

(** *** Cycle detection *)

Definition candidates : list Z :=
  [1000000; 2000000; 5000000; 10000000;
   20000000; 50000000; 100000000; 200000000].

(** The score of one class for one candidate cycle. *)
Definition class_score (tc : tc_data_t) (cycle : Z) : float :=
  let bin_size := cycle / 50 in
  let bins := fill_bins tc cycle bin_size 50 in
  let mean := (C.double_of_Z (packet_count tc) / C.double_of_Z 50)%float in
  let var :=
    fold_left (fun v b => let d := (C.double_of_Z b - mean)%float in
                          (v + d * d)%float) bins 0%float in
  (var / (mean * mean + 0.001))%float.

(** The loop over the classes for one candidate: [(score, tc_count)]. *)
Fixpoint score_classes (cycle : Z) (tc_data : list tc_data_t)
    (acc : float * Z) : float * Z :=
  match tc_data with
  | [] => acc
  | tc :: rest =>
      if packet_count tc <? 50 then score_classes cycle rest acc
      else score_classes cycle rest
             ((fst acc + class_score tc cycle)%float, snd acc + 1)
  end.

(** One candidate: [best] is [(best_score, best)]. *)
Definition try_candidate (tc_data : list tc_data_t) (best : float * Z)
    (cycle : Z) : float * Z :=
  let '(score, tc_count) := score_classes cycle tc_data (0%float, 0) in
  if (0 <? tc_count)
     && (fst best <? score / C.double_of_Z tc_count)%float
  then ((score / C.double_of_Z tc_count)%float, cycle)
  else best.

Definition detect_cycle (expected_cycle_ms : float)
    (tc_data : list tc_data_t) : Z :=
  if (0 <? expected_cycle_ms)%float
  then C.u64 (C.Z_of_double (expected_cycle_ms * 1e6)%float)
  else snd (fold_left (try_candidate tc_data) candidates (0%float, 0)).

End Verify.

(** * tsn-verify.c: the CBS estimate *)

Module VerifyCbs.

(** The fields of [tc_data_t] that [analyze_cbs] and [print_cbs_results]
    read and write; [bursts] holds the slots [bursts[0 .. burst_count-1]]. *)
Record tc_data_t := mk_tc {
  packet_count : Z;
  bursts : list Cbs.burst_t;
  burst_count : Z;
  tx_count : Z;
  total_bytes : Z;
  first_ts : Z;
  last_ts : Z;
  measured_bps : float;
  estimated_idle_slope : float;
  burst_ratio : float;
  is_shaped : bool
}.

Definition duration_s (tc : tc_data_t) : float :=
  (C.double_of_Z (C.u64 (last_ts tc - first_ts tc)) / 1e9)%float.

(** [total_burst] after the loop over [bursts[0 .. burst_count-1]]. *)
Definition total_burst (tc : tc_data_t) : float :=
  fold_left
    (fun acc b =>
       (acc + C.double_of_Z (C.u64 (Cbs.end_ns b - Cbs.start_ns b)) / 1e3)%float)
    (firstn (Z.to_nat (burst_count tc)) (bursts tc)) 0%float.

Definition analyze_cbs (tc : tc_data_t) : tc_data_t :=
  if packet_count tc <? 10 then tc else
  let duration_s := duration_s tc in
  if (duration_s <=? 0)%float then tc else
  let measured_bps :=
    (C.double_of_Z (total_bytes tc) * 8.0 / duration_s)%float in
  let total_burst := total_burst tc in
  let total_time := (duration_s * 1e6)%float in
  let burst_ratio := (total_burst / total_time)%float in
  let is_shaped := (burst_ratio <? 0.85)%float && (3 <? burst_count tc) in
  let estimated_idle_slope := measured_bps in
  mk_tc (packet_count tc) (bursts tc) (burst_count tc) (tx_count tc)
        (total_bytes tc) (first_ts tc) (last_ts tc)
        measured_bps estimated_idle_slope burst_ratio is_shaped.

(** The values [print_cbs_results] formats for one class of the ["tc"]
    object. *)
Record tc_report := mk_tc_report {
  r_tc : Z;
  r_tx : Z;
  r_rx : Z;
  r_kbps : float;
  r_shaped : bool;
  r_idle_slope_kbps : float;
  r_bw_pct : float
}.

Definition report_tc (link_bps : float) (t : Z) (tc : tc_data_t) : tc_report :=
  mk_tc_report t (tx_count tc) (packet_count tc)
    (measured_bps tc / 1000)%float (is_shaped tc)
    (estimated_idle_slope tc / 1000)%float
    (estimated_idle_slope tc / link_bps * 100)%float.

End VerifyCbs.

(** ** tas-estimator.c *)

Module Tas.

Definition MAX_TC : Z := 8.
Definition MAX_PACKETS : Z := 200000.
Definition MAX_GCL_ENTRIES : Z := 64.
Definition HISTOGRAM_BINS : Z := 2000.
Definition MAX_WINDOWS : Z := 16.     (* [gate_window_t windows[16]] *)

Record packet_t := mk_packet { ts_ns : Z; len : Z }.

Record gcl_entry_t := mk_gcl { gate_states : Z; time_ns : Z }.

Record gate_window_t := mk_window {
  start_offset_ns : Z;
  duration_ns : Z;
  tc : Z
}.

(** The interval statistics ([avg_interval_us], [stddev_interval_us]) are
    only printed and are left out. *)
Record tc_data_t := mk_tc {
  packets : list packet_t;
  packet_count : Z;
  first_ts : Z;
  last_ts : Z;
  histogram : list Z;
  histogram_size : Z;
  windows : list gate_window_t;
  window_count : Z
}.

Definition tc_zero : tc_data_t :=
  mk_tc [] 0 0 0 (repeat 0 (Z.to_nat HISTOGRAM_BINS)) 0 [] 0.

Definition stored (tc : tc_data_t) : list packet_t :=
  firstn (Z.to_nat (packet_count tc)) (packets tc).

(** *** Cycle detection *)

Definition candidate_cycles : list Z :=
  [100000; 500000; 1000000; 2000000; 5000000; 10000000; 20000000;
   50000000; 100000000; 200000000; 500000000].

(** [bins[(offset / bin_size) % n_bins]++] for every stored packet. *)
Definition phase_bins (tc : tc_data_t) (cycle bin_size n_bins : Z) : list Z :=
  fold_left
    (fun bins p =>
       let offset := C.u64 (ts_ns p - first_ts tc) mod cycle in
       let bin := (offset / bin_size) mod n_bins in
       C.bump (Z.to_nat bin) bins)
    (stored tc) (repeat 0 (Z.to_nat n_bins)).

Definition class_score (tc : tc_data_t) (cycle : Z) : float :=
  let n_bins := 100 in
  let bin_size := cycle / n_bins in
  let bins := phase_bins tc cycle bin_size n_bins in
  let mean := (C.double_of_Z (packet_count tc) / C.double_of_Z n_bins)%float in
  let variance :=
    fold_left (fun v b => let diff := (C.double_of_Z b - mean)%float in
                          (v + diff * diff)%float) bins 0%float in
  let variance := (variance / C.double_of_Z n_bins)%float in
  (variance / (mean * mean + 0.001))%float.

(** The loop over the classes for one candidate: [(total_score, tc_count)]. *)
Fixpoint score_classes (cycle : Z) (tc_data : list tc_data_t)
    (acc : float * Z) : float * Z :=
  match tc_data with
  | [] => acc
  | tc :: rest =>
      if packet_count tc <? 100 then score_classes cycle rest acc
      else
        let '(total_score, tc_count) := acc in
        score_classes cycle rest
          ((total_score + class_score tc cycle)%float, tc_count + 1)
  end.

(** The score of a candidate, when some class has enough data. *)
Definition candidate_score (cycle : Z) (tc_data : list tc_data_t)
    : option float :=
  let '(total_score, tc_count) := score_classes cycle tc_data (0%float, 0) in
  if 0 <? tc_count then Some (total_score / C.double_of_Z tc_count)%float
  else None.

Definition try_candidate (tc_data : list tc_data_t) (best : float * Z)
    (cycle : Z) : float * Z :=
  match candidate_score cycle tc_data with
  | Some total_score =>
      if (fst best <? total_score)%float then (total_score, cycle) else best
  | None => best
  end.

Definition detect_cycle_time (expected_cycle_ms : float)
    (tc_data : list tc_data_t) : Z :=
  let '(_, best_cycle) :=
    fold_left (try_candidate tc_data) candidate_cycles (0%float, 0) in
  if (0 <? expected_cycle_ms)%float
  then C.u64 (C.Z_of_double (expected_cycle_ms * 1e6)%float)
  else best_cycle.

(** *** Phase histogram and gate windows *)

Definition build_histogram (tc : tc_data_t) (cycle_ns : Z) : tc_data_t :=
  if (packet_count tc <? 10) || (cycle_ns =? 0) then tc else
  let n_bins := HISTOGRAM_BINS in
  let bin_size := cycle_ns / n_bins in
  let bin_size := if bin_size =? 0 then 1 else bin_size in
  let histogram_size := if n_bins <? HISTOGRAM_BINS then n_bins else HISTOGRAM_BINS in
  mk_tc (packets tc) (packet_count tc) (first_ts tc) (last_ts tc)
        (phase_bins tc cycle_ns bin_size histogram_size) histogram_size
        (windows tc) (window_count tc).

(** [threshold] of [detect_windows]. *)
Definition window_threshold (packet_count histogram_size : Z) : Z :=
  let mean :=
    (C.double_of_Z packet_count * 2.0 / C.double_of_Z histogram_size)%float in
  let threshold := C.Z_of_double (mean * 0.3)%float in
  if threshold <? 1 then 1 else threshold.

Record scan_state := mk_scan {
  in_window : bool;
  window_start : Z;
  ws : list gate_window_t        (* [windows[0 .. window_count-1]] *)
}.

(** One iteration of the scan, at index [i] with value [bin_val]. *)
Definition scan_step (threshold bin_size tc_idx : Z) (st : scan_state)
    (i bin_val : Z) : scan_state :=
  let has_traffic := threshold <=? bin_val in
  if has_traffic && negb (in_window st) then mk_scan true i (ws st)
  else if negb has_traffic && in_window st then
    mk_scan false (window_start st)
      (if Z.of_nat (List.length (ws st)) <? MAX_WINDOWS then
         ws st ++ [mk_window (C.u64 (window_start st * bin_size))
                             (C.u64 ((i - window_start st) * bin_size))
                             tc_idx]
       else ws st)
  else st.

Fixpoint scan_bins (threshold bin_size tc_idx : Z) (st : scan_state) (i : Z)
    (bins : list Z) : scan_state :=
  match bins with
  | [] => st
  | bin_val :: rest =>
      scan_bins threshold bin_size tc_idx
        (scan_step threshold bin_size tc_idx st i bin_val) (i + 1) rest
  end.

(** The wrap-around step after the scan. *)
Definition merge_wrap (threshold cycle_ns : Z) (hist : list Z)
    (st : scan_state) : list gate_window_t * Z :=
  let window_count := Z.of_nat (List.length (ws st)) in
  if in_window st && (0 <? window_count) && (threshold <=? nth 0 hist 0) then
    let last := nth (Z.to_nat (window_count - 1)) (ws st) (mk_window 0 0 0) in
    let first := nth 0 (ws st) (mk_window 0 0 0) in
    let d := C.u64 (duration_ns last + duration_ns first) in
    let d := if cycle_ns <? d then cycle_ns else d in
    (C.set_nth 0 (mk_window (start_offset_ns last) d (tc first)) (ws st),
     window_count - 1)
  else (ws st, window_count).

Definition detect_windows (tc : tc_data_t) (cycle_ns tc_idx : Z) : tc_data_t :=
  if (histogram_size tc =? 0) || (packet_count tc <? 10) then tc else
  let threshold := window_threshold (packet_count tc) (histogram_size tc) in
  let bin_size := cycle_ns / histogram_size tc in
  (* [bin_val = (i < histogram_size) ? histogram[i] : 0] for
     [i = 0 .. histogram_size] *)
  let bins := firstn (Z.to_nat (histogram_size tc)) (histogram tc) ++ [0] in
  let st := scan_bins threshold bin_size tc_idx (mk_scan false 0 []) 0 bins in
  let '(windows, window_count) :=
    merge_wrap threshold cycle_ns (histogram tc) st in
  mk_tc (packets tc) (packet_count tc) (first_ts tc) (last_ts tc)
        (histogram tc) (histogram_size tc) windows window_count.

(** *** Gate control list *)

Record event_t := mk_event { time : Z; ev_tc : Z; is_start : bool }.

Definition active_windows (tc : tc_data_t) : list gate_window_t :=
  firstn (Z.to_nat (window_count tc)) (windows tc).

(** The two events of one window of class [t]. *)
Definition window_events (cycle_ns t : Z) (win : gate_window_t)
    : list event_t :=
  [ mk_event (start_offset_ns win) t true;
    mk_event (C.u64 (start_offset_ns win + duration_ns win) mod cycle_ns)
             t false ].

(** [for (t = ...; t < MAX_TC; t++) for (w = 0; w < window_count; w++)] *)
Fixpoint for_windows {A} (t : Z) (tc_data : list tc_data_t)
    (f : Z -> gate_window_t -> list A) : list A :=
  match tc_data with
  | [] => []
  | tc :: rest =>
      flat_map (f t) (active_windows tc) ++ for_windows (t + 1) rest f
  end.

Definition collect_events (cycle_ns : Z) (tc_data : list tc_data_t)
    : list event_t :=
  for_windows 0 tc_data (window_events cycle_ns).

(** The inner loop of the sort for a fixed [i]: [x] is [events[i]], the
    list is [events[i+1 ..]]; an element earlier than [x] is exchanged
    with it. *)
Fixpoint sort_pass (x : event_t) (rest : list event_t)
    : event_t * list event_t :=
  match rest with
  | [] => (x, [])
  | y :: ys =>
      if time y <? time x then
        let '(m, r) := sort_pass y ys in (m, x :: r)
      else
        let '(m, r) := sort_pass x ys in (m, y :: r)
  end.

(** The outer loop, [fuel] iterations of [i]. *)
Fixpoint sort_from (fuel : nat) (events : list event_t) : list event_t :=
  match fuel, events with
  | S k, x :: rest => let '(m, r) := sort_pass x rest in m :: sort_from k r
  | _, _ => events
  end.

(** [for (i = 0; i < n_events - 1; i++)] *)
Definition sort_events (events : list event_t) : list event_t :=
  sort_from (List.length events - 1) events.

Definition gate_bit (t : Z) : Z := Z.shiftl 1 t.

Definition set_gate (gates t : Z) : Z := C.u8 (Z.lor gates (gate_bit t)).

Definition clear_gate (gates t : Z) : Z :=
  C.u8 (Z.land gates (Z.lnot (gate_bit t))).

Definition apply_event (gates : Z) (ev : event_t) : Z :=
  if is_start ev then set_gate gates (ev_tc ev) else clear_gate gates (ev_tc ev).

(** Gates open at time zero. *)
Definition initial_gates (cycle_ns : Z) (tc_data : list tc_data_t) : Z :=
  fold_left set_gate
    (for_windows 0 tc_data
       (fun t win =>
          if (start_offset_ns win =? 0)
             || (cycle_ns <? C.u64 (start_offset_ns win + duration_ns win))
          then [t] else []))
    0.

Record sweep_state := mk_sweep {
  current_gates : Z;
  last_time : Z;
  gcl : list gcl_entry_t     (* [estimated_gcl[0 .. estimated_gcl_size-1]] *)
}.

Definition gcl_size (st : sweep_state) : Z := Z.of_nat (List.length (gcl st)).

Definition emit (st : sweep_state) (t : Z) : sweep_state :=
  mk_sweep (current_gates st) t
    (gcl st ++ [mk_gcl (current_gates st) (C.u32 (t - last_time st))]).

(** The sweep over the sorted events; [prev] is the time of [events[e-1]]. *)
Fixpoint sweep (prev : option Z) (events : list event_t) (st : sweep_state)
    : sweep_state :=
  match events with
  | [] => st
  | ev :: rest =>
      if negb (gcl_size st <? MAX_GCL_ENTRIES) then st else
      let same := match prev with Some t => time ev =? t | None => false end in
      let st1 :=
        if same then st
        else if last_time st <? time ev then emit st (time ev) else st in
      sweep (Some (time ev)) rest
        (mk_sweep (apply_event (current_gates st1) ev) (last_time st1) (gcl st1))
  end.

(** Final entry to complete the cycle. *)
Definition complete_cycle (cycle_ns : Z) (st : sweep_state) : list gcl_entry_t :=
  if (last_time st <? cycle_ns) && (gcl_size st <? MAX_GCL_ENTRIES)
  then gcl (emit st cycle_ns) else gcl st.

(** The in-place merge: [merged_rev] is [estimated_gcl[0 .. merged-1]],
    most recent entry first. *)
Fixpoint merge_loop (merged_rev : list gcl_entry_t) (entries : list gcl_entry_t)
    : list gcl_entry_t :=
  match entries with
  | [] => rev merged_rev
  | e :: rest =>
      match merged_rev with
      | m :: before =>
          if gate_states m =? gate_states e then
            merge_loop
              (mk_gcl (gate_states m) (C.u32 (time_ns m + time_ns e)) :: before)
              rest
          else merge_loop (e :: merged_rev) rest
      | [] => merge_loop [e] rest
      end
  end.

Definition build_gcl (cycle_ns : Z) (tc_data : list tc_data_t)
    : list gcl_entry_t :=
  let events := sort_events (collect_events cycle_ns tc_data) in
  let current_gates := initial_gates cycle_ns tc_data in
  let st := sweep None events (mk_sweep current_gates 0 []) in
  merge_loop [] (complete_cycle cycle_ns st).

(** *** The analysis pass of [main] *)

Inductive outcome :=
| Failed (exit_code : Z)                 (* "Could not detect cycle time" *)
| Estimated (cycle_ns : Z) (tc_data : list tc_data_t) (gcl : list gcl_entry_t).

Fixpoint analyze_classes (cycle_ns t : Z) (tc_data : list tc_data_t)
    : list tc_data_t :=
  match tc_data with
  | [] => []
  | tc :: rest =>
      detect_windows (build_histogram tc cycle_ns) cycle_ns t
        :: analyze_classes cycle_ns (t + 1) rest
  end.

Definition main_analysis (expected_cycle_ms : float)
    (tc_data : list tc_data_t) : outcome :=
  let estimated_cycle_ns := detect_cycle_time expected_cycle_ms tc_data in
  if estimated_cycle_ns =? 0 then Failed 1 else
  let tc_data := analyze_classes estimated_cycle_ns 0 tc_data in
  Estimated estimated_cycle_ns tc_data (build_gcl estimated_cycle_ns tc_data).

(** *** Capture *)

(** The critical section of [packet_handler]. *)
Definition store_append (s : tc_data_t) (ts hlen : Z) : tc_data_t :=
  if packet_count s <? MAX_PACKETS then
    mk_tc (packets s ++ [mk_packet ts (C.u16 hlen)])
          (packet_count s + 1)
          (if first_ts s =? 0 then ts else first_ts s)
          ts
          (histogram s) (histogram_size s) (windows s) (window_count s)
  else s.

Definition packet_handler (target_vlan : Z) (tc_data : list tc_data_t)
    (hdr : Cbs.pcap_pkthdr) (pkt : list Z) : list tc_data_t :=
  if Cbs.caplen hdr <? 18 then tc_data else
  let ethertype := C.u16 (Z.lor (Z.shiftl (nth 12 pkt 0) 8) (nth 13 pkt 0)) in
  if negb (ethertype =? 0x8100) then tc_data else
  let tci := C.u16 (Z.lor (Z.shiftl (nth 14 pkt 0) 8) (nth 15 pkt 0)) in
  let pcp := Z.land (Z.shiftr tci 13) 0x07 in
  let vid := Z.land tci 0x0FFF in
  if (0 <? target_vlan) && negb (vid =? target_vlan) then tc_data else
  let ts := C.u64 (C.u64 (Cbs.tv_sec hdr * 1000000000)
                   + C.u64 (Cbs.tv_usec hdr * 1000)) in
  match nth_error tc_data (Z.to_nat pcp) with
  | Some s =>
      C.set_nth (Z.to_nat pcp) (store_append s ts (Cbs.hdr_len hdr)) tc_data
  | None => tc_data
  end.

(** *** Report *)

(** [gates[7-b] = (e->gate_states & (1 << b)) ? '1' : '0'] *)
Definition gate_char (gate_states b : Z) : ascii :=
  if Z.land gate_states (Z.shiftl 1 b) =? 0 then "0"%char else "1"%char.

(** The string printed as ["gate_states"] for an entry. *)
Definition gates (e : gcl_entry_t) : string :=
  string_of_list_ascii
    (map (gate_char (gate_states e)) [7; 6; 5; 4; 3; 2; 1; 0]).

End Tas.

(** * Specification vocabulary *)

Module Spec.

(** An observation as delivered by the capture: timestamp and length. *)
Definition observation : Type := Z * Z.

Definition valid_observation (o : observation) : Prop :=
  0 < fst o < 2 ^ 64 /\ 0 <= snd o < 2 ^ 16.

(** Appending a sequence of observations of class [pcp] to a store. *)
Definition capture (pcp : Z) (obs : list observation) (s : Cbs.tc_analysis_t)
    : Cbs.tc_analysis_t :=
  fold_left (fun s o => Cbs.store_append s (fst o) (snd o) pcp) obs s.

Definition sum_len (ps : list Cbs.packet_t) : Z :=
  fold_right (fun p a => Cbs.len p + a) 0 ps.

Definition first_stored_ts (ps : list Cbs.packet_t) : Z :=
  match ps with [] => 0 | p :: _ => Cbs.ts_ns p end.

Definition last_stored_ts (ps : list Cbs.packet_t) : Z :=
  match ps with
  | [] => 0
  | p :: _ => Cbs.ts_ns (List.last ps p)
  end.

(** The aggregates of a store agree with the packets it holds. *)
Definition aggregates_ok (s : Cbs.tc_analysis_t) : Prop :=
  Cbs.packet_count s = Z.of_nat (List.length (Cbs.packets s))
  /\ Cbs.total_bytes s = sum_len (Cbs.packets s)
  /\ Cbs.first_ts s = first_stored_ts (Cbs.packets s)
  /\ Cbs.last_ts s = last_stored_ts (Cbs.packets s).

(** Timestamps never decrease along the sequence. *)
Fixpoint time_ordered (ps : list Cbs.packet_t) : Prop :=
  match ps with
  | p :: (q :: _) as rest => Cbs.ts_ns p <= Cbs.ts_ns q /\ time_ordered rest
  | _ => True
  end.

(** Each burst is an interval, and each ends before the next starts. *)
Fixpoint bursts_ordered (bs : list Cbs.burst_t) : Prop :=
  match bs with
  | [] => True
  | b :: rest =>
      Cbs.start_ns b <= Cbs.end_ns b
      /\ match rest with
         | [] => True
         | b' :: _ => Cbs.end_ns b < Cbs.start_ns b'
         end
      /\ bursts_ordered rest
  end.

(** Number of observations accounted for by a burst list. *)
Definition covered (bs : list Cbs.burst_t) : Z :=
  fold_right (fun b a => Cbs.bpackets b + a) 0 bs.

(** What the segmenter is run on: a store as left by the capture, whose
    timestamps are in range and in time order. *)
Definition segmenter_input (tc : Cbs.tc_analysis_t) : Prop :=
  Cbs.packet_count tc = Z.of_nat (List.length (Cbs.packets tc))
  /\ Cbs.packet_count tc <= Cbs.MAX_PACKETS
  /\ Cbs.bursts tc = [] /\ Cbs.burst_count tc = 0
  /\ Forall (fun p => 0 <= Cbs.ts_ns p < 2 ^ 64) (Cbs.packets tc)
  /\ time_ordered (Cbs.packets tc).

(** Observations [d] apart in time from [t0] on, one per length in
    [lens]. *)
Fixpoint uniform (t0 d : Z) (lens : list Z) : list observation :=
  match lens with
  | [] => []
  | l :: rest => (t0, l) :: uniform (t0 + d) d rest
  end.

(** Sum of the durations of a gate control list. *)
Definition sum_time (g : list Tas.gcl_entry_t) : Z :=
  fold_right (fun e a => Tas.time_ns e + a) 0 g.

(** No entry has the gate mask of its successor. *)
Fixpoint no_adjacent_equal (g : list Tas.gcl_entry_t) : Prop :=
  match g with
  | e :: (e' :: _) as rest =>
      Tas.gate_states e <> Tas.gate_states e' /\ no_adjacent_equal rest
  | _ => True
  end.

(** A window lies within one cycle. *)
Definition window_in_cycle (cycle_ns : Z) (w : Tas.gate_window_t) : Prop :=
  0 <= Tas.start_offset_ns w < cycle_ns
  /\ 0 <= Tas.duration_ns w <= cycle_ns.

Definition windows_in_cycle (cycle_ns : Z) (tc_data : list Tas.tc_data_t)
    : Prop :=
  Forall (fun tc => Forall (window_in_cycle cycle_ns) (Tas.active_windows tc))
         tc_data.

Definition window_in_cycleb (cycle_ns : Z) (w : Tas.gate_window_t) : bool :=
  (0 <=? Tas.start_offset_ns w) && (Tas.start_offset_ns w <? cycle_ns)
  && (0 <=? Tas.duration_ns w) && (Tas.duration_ns w <=? cycle_ns).

Definition windows_in_cycleb (cycle_ns : Z) (tc_data : list Tas.tc_data_t)
    : bool :=
  forallb (fun tc => forallb (window_in_cycleb cycle_ns) (Tas.active_windows tc))
          tc_data.

(** The distinct times after [t] among the events. *)
Definition later (t : Z) (evs : list Tas.event_t) : list Z :=
  nodup Z.eq_dec (filter (fun x => t <? x) (map Tas.time evs)).

(** Number of distinct window boundaries (starts and ends) inside the
    cycle, the offset 0 not counted. *)
Definition boundary_count (cycle_ns : Z) (tc_data : list Tas.tc_data_t) : Z :=
  Z.of_nat (List.length (later 0 (Tas.collect_events cycle_ns tc_data))).

(** Number of windows over all classes. *)
Definition total_windows (tc_data : list Tas.tc_data_t) : Z :=
  fold_right (fun tc a => Z.of_nat (List.length (Tas.active_windows tc)) + a)
             0 tc_data.

(** Every event is no later than the events after it. *)
Fixpoint time_sorted (evs : list Tas.event_t) : Prop :=
  match evs with
  | [] => True
  | e :: rest =>
      Forall (fun y => Tas.time e <= Tas.time y) rest /\ time_sorted rest
  end.

(** The packet stored for an observation of class [pcp]. *)
Definition stored_packet (pcp : Z) (o : observation) : Cbs.packet_t :=
  Cbs.mk_packet (fst o) (C.u16 (snd o)) (C.u8 pcp).

(** No two consecutive packets are more than [thr] apart. *)
Fixpoint gaps_within (thr : Z) (ps : list Cbs.packet_t) : Prop :=
  match ps with
  | p :: (q :: _) as rest =>
      C.u64 (Cbs.ts_ns q - Cbs.ts_ns p) <= thr /\ gaps_within thr rest
  | _ => True
  end.

(** The burst ratio computed by [analyze_cbs] for a single burst that
    spans the whole observed duration of [dur_ns] nanoseconds. *)
Definition whole_span_ratio (dur_ns : Z) : float :=
  ((0 + C.double_of_Z dur_ns / 1e3) / (C.double_of_Z dur_ns / 1e9 * 1e6))%float.

(** For a spacing of [k] microseconds between 1000 packets: the observed
    duration is positive and the ratio is 1 within one part in a million. *)
Definition spacing_ok (k : Z) : bool :=
  let dur_ns := 999 * (k * 1000) in
  negb (C.double_of_Z dur_ns / 1e9 <=? 0)%float
  && (0.999999 <=? whole_span_ratio dur_ns)%float
  && (whole_span_ratio dur_ns <=? 1.000001)%float.

(** Two classes agree unless both are below the 100-packet minimum. *)
Definition same_or_small (a b : Tas.tc_data_t) : Prop :=
  (Tas.packet_count a < 100 /\ Tas.packet_count b < 100) \/ a = b.

(** Invariant of a store filled by the capture. *)
Definition store_inv (s : Cbs.tc_analysis_t) : Prop :=
  aggregates_ok s
  /\ Forall (fun p => Cbs.ts_ns p <> 0) (Cbs.packets s)
  /\ 0 <= Cbs.total_bytes s <= Cbs.packet_count s * 2 ^ 16
  /\ Cbs.packet_count s <= Cbs.MAX_PACKETS.

(** Windows in increasing order, each ending at least [gap] before the
    next one starts. *)
Fixpoint windows_separated (gap : Z) (ws : list Tas.gate_window_t) : Prop :=
  match ws with
  | [] => True
  | w :: rest =>
      Forall (fun w' => Tas.start_offset_ns w + Tas.duration_ns w + gap
                        <= Tas.start_offset_ns w') rest
      /\ windows_separated gap rest
  end.

(** A window of class [tc_idx], aligned to bins of [bin_size], at least one
    bin long, that ends at least one bin before [limit]. *)
Definition window_before (bin_size tc_idx limit : Z) (w : Tas.gate_window_t)
    : Prop :=
  Tas.tc w = tc_idx
  /\ 0 <= Tas.start_offset_ns w
  /\ (bin_size | Tas.start_offset_ns w)
  /\ (bin_size | Tas.duration_ns w)
  /\ bin_size <= Tas.duration_ns w
  /\ Tas.start_offset_ns w + Tas.duration_ns w + bin_size <= limit.

(** Invariant of the window scan before it reads bin [i]. *)
Definition scan_inv (bin_size tc_idx : Z) (st : Tas.scan_state) (i : Z) : Prop :=
  (Tas.in_window st = true -> 0 <= Tas.window_start st < i)
  /\ Forall (window_before bin_size tc_idx
              ((if Tas.in_window st then Tas.window_start st else i) * bin_size))
            (Tas.ws st)
  /\ windows_separated bin_size (Tas.ws st)
  /\ (List.length (Tas.ws st) <= 16)%nat.

(** Sum of the counters of a histogram. *)
Definition sum_bins (bins : list Z) : Z := fold_right Z.add 0 bins.

(** The fields of an entry fit an 8-bit mask and a 32-bit duration. *)
Definition entry_fits (e : Tas.gcl_entry_t) : Prop :=
  0 <= Tas.gate_states e < 2 ^ 8 /\ 0 <= Tas.time_ns e < 2 ^ 32.

(** Number of consecutive pairs of packets more than [thr] apart, the
    difference taken as the code takes it, in 64 bits unsigned. *)
Fixpoint large_gaps (thr : Z) (ps : list Cbs.packet_t) : Z :=
  match ps with
  | p :: (q :: _) as rest =>
      (if C.u64 (Cbs.ts_ns q - Cbs.ts_ns p) >? thr then 1 else 0)
      + large_gaps thr rest
  | _ => 0
  end.

(** Bytes accounted for by a burst list. *)
Definition sum_bytes (bs : list Cbs.burst_t) : Z :=
  fold_right (fun b a => Cbs.bytes b + a) 0 bs.

(** Each burst starts more than [thr] after the one before it ends. *)
Fixpoint bursts_apart (thr : Z) (bs : list Cbs.burst_t) : Prop :=
  match bs with
  | b :: (b' :: _) as rest =>
      thr < C.u64 (Cbs.start_ns b' - Cbs.end_ns b) /\ bursts_apart thr rest
  | _ => True
  end.

(** The number an 8-character gate string denotes, read as binary. *)
Definition binary_value (s : string) : Z :=
  fold_left (fun v c => 2 * v + (if Ascii.eqb c "1" then 1 else 0))
            (list_ascii_of_string s) 0.

(** A byte. *)
Definition byte_ok (b : Z) : Prop := 0 <= b < 256.

Definition mac_ok (m : Verify.mac_t) : Prop :=
  Forall byte_ok (Verify.mac_bytes m).

(** The receiver's check of an IPv4 header (RFC 1071): the 16-bit words in
    network byte order, checksum field included, add up to 0xFFFF in one's
    complement. *)
Definition ip_checksum_ok (hdr : list Z) : bool :=
  let sum := fold_left Z.add (Verify.host_words false 10 hdr) 0 in
  let sum := Z.shiftr sum 16 + Z.land sum 0xFFFF in
  let sum := sum + Z.shiftr sum 16 in
  Z.land sum 0xFFFF =? 0xFFFF.

(** The IP header of a frame: the 20 bytes after Ethernet and VLAN tag. *)
Definition ip_header_of (frame : list Z) : list Z := firstn 20 (skipn 18 frame).

(** The state the capture of tas-estimator.c leaves for a class. *)
Definition tas_capture (obs : list observation) (s : Tas.tc_data_t)
    : Tas.tc_data_t :=
  fold_left (fun s o => Tas.store_append s (fst o) (snd o)) obs s.







End Spec.

(** * Concrete inputs *)

Module Ex.

(** A class of tas-estimator.c as the capture leaves it. *)
Definition tas_stored (pkts : list Tas.packet_t) : Tas.tc_data_t :=
  Tas.mk_tc pkts (Z.of_nat (List.length pkts))
    (match pkts with [] => 0 | p :: _ => Tas.ts_ns p end)
    (match pkts with [] => 0 | p :: _ => Tas.ts_ns (List.last pkts p) end)
    (repeat 0 (Z.to_nat Tas.HISTOGRAM_BINS)) 0 [] 0.

(** A class holding the given windows. *)
Definition with_windows (ws : list Tas.gate_window_t) : Tas.tc_data_t :=
  Tas.mk_tc [] 0 0 0 [] 0 ws (Z.of_nat (List.length ws)).

Definition no_windows : list Tas.tc_data_t := repeat Tas.tc_zero 8.

(** Sixteen windows of 1 us for class [t], one every 4 us from [off] us. *)
Definition comb (off t : Z) : list Tas.gate_window_t :=
  map (fun k => Tas.mk_window ((4 * Z.of_nat k + off) * 1000) 1000 t)
      (seq 0 16).

(** Two classes with sixteen windows each, in a 100 us cycle. *)
Definition two_combs : list Tas.tc_data_t :=
  [with_windows (comb 1 0); with_windows (comb 3 1);
   Tas.tc_zero; Tas.tc_zero; Tas.tc_zero; Tas.tc_zero; Tas.tc_zero; Tas.tc_zero].

(** Scenario 4: class 0 open during [0, 3 ms), class 1 during [3 ms, 10 ms). *)
Definition scenario4 : list Tas.tc_data_t :=
  [with_windows [Tas.mk_window 0 3000000 0];
   with_windows [Tas.mk_window 3000000 7000000 1];
   Tas.tc_zero; Tas.tc_zero; Tas.tc_zero; Tas.tc_zero; Tas.tc_zero; Tas.tc_zero].

(** Ten packets of a gate that is open from 4 us before to 5 us after each
    boundary of a 10 ms cycle. *)
Definition wrap_pkts : list Tas.packet_t :=
  map (fun k => Tas.mk_packet
                  (1000000000 + Z.of_nat k * 5000000
                   + (if Nat.even k then 0 else 4996000)) 100)
      (seq 0 10).

(** 10000 packets over 996 cycles of 10 ms: in every cycle one packet in
    each of the first 10 bins (of 5 us), and in the first two cycles also
    one in each of the next 20 bins. *)
Definition skewed_pkts : list Tas.packet_t :=
  flat_map
    (fun r => map (fun b => Tas.mk_packet
                              (1000000000 + Z.of_nat r * 10000000
                               + Z.of_nat b * 5000) 100)
                  (seq 0 (if (r <? 2)%nat then 30 else 10)))
    (seq 0 996).


End Ex.

(** * Properties *)

(** ** The sample store *)

Section SampleStore.

Variable pcp : Z.

Lemma store_inv_zero : Spec.store_inv Cbs.tc_zero.
Proof.
  unfold Spec.store_inv, Spec.aggregates_ok; cbn.
  repeat split; try constructor; try lia; discriminate.
Qed.

Lemma sum_len_app ps p :
  Spec.sum_len (ps ++ [p]) = Spec.sum_len ps + Cbs.len p.
Proof.
  induction ps as [|q ps IH]; cbn; [lia|].
  unfold Spec.sum_len in IH; rewrite IH; lia.
Qed.

Lemma first_stored_app ps p :
  Spec.first_stored_ts (ps ++ [p])
  = match ps with [] => Cbs.ts_ns p | q :: _ => Cbs.ts_ns q end.
Proof. destruct ps; reflexivity. Qed.

Lemma last_stored_app ps p :
  Spec.last_stored_ts (ps ++ [p]) = Cbs.ts_ns p.
Proof.
  unfold Spec.last_stored_ts.
  destruct (ps ++ [p]) as [|q r] eqn:E.
  - destruct ps; discriminate.
  - rewrite <- E, last_last; reflexivity.
Qed.

Lemma store_append_full s ts hlen :
  Cbs.packet_count s = Cbs.MAX_PACKETS ->
  Cbs.store_append s ts hlen pcp = s.
Proof.
  intros H; unfold Cbs.store_append.
  rewrite H, Z.ltb_irrefl; reflexivity.
Qed.

Lemma store_append_stored s o :
  Spec.store_inv s -> Spec.valid_observation o ->
  Cbs.packet_count s < Cbs.MAX_PACKETS ->
  let s' := Cbs.store_append s (fst o) (snd o) pcp in
  Cbs.packets s' = Cbs.packets s ++ [Cbs.mk_packet (fst o) (snd o) (C.u8 pcp)]
  /\ Spec.store_inv s'.
Proof.
  intros (Hagg & Hnz & Hbytes & Hcap) (Hts & Hlen) Hlt.
  destruct Hagg as (Hcnt & Htot & Hfirst & Hlast).
  unfold Cbs.store_append.
  destruct (Z.ltb_spec (Cbs.packet_count s) Cbs.MAX_PACKETS) as [_|]; [|lia].
  assert (Hu16 : C.u16 (snd o) = snd o)
    by (unfold C.u16; apply Z.mod_small; lia).
  assert (Hu64 : C.u64 (Cbs.total_bytes s + snd o) = Cbs.total_bytes s + snd o).
  { unfold C.u64; apply Z.mod_small. unfold Cbs.MAX_PACKETS in *.
    assert (0 <= Cbs.packet_count s) by lia. nia. }
  cbn [Cbs.packets Cbs.packet_count Cbs.total_bytes Cbs.first_ts Cbs.last_ts].
  rewrite Hu16, Hu64.
  split; [reflexivity|].
  unfold Spec.store_inv, Spec.aggregates_ok.
  cbn [Cbs.packets Cbs.packet_count Cbs.total_bytes Cbs.first_ts Cbs.last_ts].
  rewrite sum_len_app, first_stored_app, last_stored_app, length_app.
  cbn [Cbs.len Cbs.ts_ns List.length].
  repeat split; try lia.
  - rewrite Hfirst. destruct (Cbs.packets s) as [|q r] eqn:E; cbn.
    + reflexivity.
    + inversion Hnz as [|? ? Hq _]; subst.
      destruct (Z.eqb_spec (Cbs.ts_ns q) 0); [contradiction|reflexivity].
  - apply Forall_app; split; [assumption|].
    constructor; [cbn; lia|constructor].
Qed.

Lemma store_append_inv s o :
  Spec.store_inv s -> Spec.valid_observation o ->
  Spec.store_inv (Cbs.store_append s (fst o) (snd o) pcp).
Proof.
  intros Hs Ho.
  destruct (Z.lt_ge_cases (Cbs.packet_count s) Cbs.MAX_PACKETS) as [Hlt|Hge].
  - apply store_append_stored; assumption.
  - rewrite store_append_full; [assumption|].
    destruct Hs as (_ & _ & _ & ?); lia.
Qed.

Lemma capture_inv obs : forall s,
  Spec.store_inv s -> Forall Spec.valid_observation obs ->
  Spec.store_inv (Spec.capture pcp obs s).
Proof.
  induction obs as [|o obs IH]; intros s Hs Hobs; [exact Hs|].
  inversion Hobs; subst. cbn.
  apply IH; [apply store_append_inv|]; assumption.
Qed.

(** C10 (as amended). Appending to a per-class store is all-or-nothing:
    after any sequence of observations with nonzero timestamps and lengths
    below 2^16 (the width of the stored length), one more append either
    stores the observation, and then the byte total, the first and the last
    timestamp are those of the stored packets, or, the store being full,
    leaves every field as it was. *)
Theorem store_append_all_or_nothing (obs : list Spec.observation)
    (o : Spec.observation) :
  Forall Spec.valid_observation (obs ++ [o]) ->
  let s := Spec.capture pcp obs Cbs.tc_zero in
  let s' := Cbs.store_append s (fst o) (snd o) pcp in
  Spec.aggregates_ok s /\ Spec.aggregates_ok s'
  /\ ((Cbs.packet_count s < Cbs.MAX_PACKETS
       /\ Cbs.packets s'
          = Cbs.packets s ++ [Cbs.mk_packet (fst o) (snd o) (C.u8 pcp)]
       /\ Cbs.packet_count s' = Cbs.packet_count s + 1
       /\ Cbs.total_bytes s' = Cbs.total_bytes s + snd o
       /\ Cbs.last_ts s' = fst o)
      \/ (Cbs.packet_count s = Cbs.MAX_PACKETS /\ s' = s)).
Proof.
  intros Hall s s'.
  apply Forall_app in Hall as [Hobs Ho].
  inversion Ho as [|? ? Hvo _]; subst.
  assert (Hs : Spec.store_inv s) by (apply capture_inv; [apply store_inv_zero|assumption]).
  assert (Hs' : Spec.store_inv s') by (apply store_append_inv; assumption).
  split; [apply Hs|]. split; [apply Hs'|].
  destruct (Z.lt_ge_cases (Cbs.packet_count s) Cbs.MAX_PACKETS) as [Hlt|Hge].
  - left. destruct (store_append_stored s o Hs Hvo Hlt) as [Hp _].
    fold s' in Hp.
    destruct Hs as ((Hc & Ht & _) & _), Hs' as ((Hc' & Ht' & _ & Hl') & _).
    repeat split; try assumption.
    + rewrite Hc', Hp, length_app, Hc; cbn; lia.
    + rewrite Ht', Hp, sum_len_app, Ht; reflexivity.
    + rewrite Hl', Hp, last_stored_app; reflexivity.
  - right. assert (Cbs.packet_count s = Cbs.MAX_PACKETS)
      by (destruct Hs as (_ & _ & _ & ?); lia).
    split; [assumption|]. apply store_append_full; assumption.
Qed.

Lemma set_nth_same {A} (x : A) : forall l i y,
  nth_error l i = Some y -> nth_error (C.set_nth i x l) i = Some x.
Proof.
  induction l as [|a l IH]; intros [|i] y H; try discriminate; cbn in *;
    [reflexivity|eauto].
Qed.

Lemma set_nth_other {A} (x : A) : forall l i j,
  i <> j -> nth_error (C.set_nth i x l) j = nth_error l j.
Proof.
  induction l as [|a l IH]; intros [|i] [|j] H; cbn; try reflexivity;
    [contradiction|apply IH; congruence].
Qed.

(** [packet_handler] on a VLAN-tagged frame that passes the filter appends
    to the store of the frame's priority, and to no other. *)
Lemma packet_handler_appends target_vlan tc_data hdr pkt s :
  18 <= Cbs.caplen hdr ->
  C.u16 (Z.lor (Z.shiftl (nth 12 pkt 0) 8) (nth 13 pkt 0)) = 0x8100 ->
  let tci := C.u16 (Z.lor (Z.shiftl (nth 14 pkt 0) 8) (nth 15 pkt 0)) in
  target_vlan <= 0 \/ Z.land tci 0x0FFF = target_vlan ->
  Z.land (Z.shiftr tci 13) 0x07 = pcp ->
  nth_error tc_data (Z.to_nat pcp) = Some s ->
  let ts := C.u64 (C.u64 (Cbs.tv_sec hdr * 1000000000)
                   + C.u64 (Cbs.tv_usec hdr * 1000)) in
  let tc_data' := Cbs.packet_handler target_vlan tc_data hdr pkt in
  nth_error tc_data' (Z.to_nat pcp)
  = Some (Cbs.store_append s ts (Cbs.hdr_len hdr) pcp)
  /\ forall j, j <> Z.to_nat pcp -> nth_error tc_data' j = nth_error tc_data j.
Proof.
  intros Hcap Heth tci Hvid Hpcp Hs ts tc_data'.
  subst tc_data'. unfold Cbs.packet_handler.
  destruct (Z.ltb_spec (Cbs.caplen hdr) 18) as [|_]; [lia|].
  rewrite Heth. cbn [Z.eqb Pos.eqb negb]. fold tci. rewrite Hpcp.
  assert (Hf : (0 <? target_vlan) && negb (Z.land tci 4095 =? target_vlan)
               = false).
  { destruct Hvid as [Hv|Hv].
    - destruct (Z.ltb_spec 0 target_vlan); [lia|reflexivity].
    - rewrite Hv, Z.eqb_refl. apply andb_false_r. }
  rewrite Hf. fold ts. unfold Cbs.update_tc. rewrite Hs.
  split; [eapply set_nth_same; exact Hs|].
  intros j Hj. apply set_nth_other. congruence.
Qed.

End SampleStore.

(** Two observations of class 3: the second append keeps the aggregates. *)
Lemma store_append_all_or_nothing_witness :
  Forall Spec.valid_observation ([(1000, 64)] ++ [(2000, 128)])
  /\ Spec.aggregates_ok
       (Cbs.store_append (Spec.capture 3 [(1000, 64)] Cbs.tc_zero) 2000 128 3).
Proof.
  assert (H : Forall Spec.valid_observation ([(1000, 64)] ++ [(2000, 128)]))
    by (repeat constructor; cbn; lia).
  split; [exact H|].
  exact (proj1 (proj2 (store_append_all_or_nothing 3 [(1000, 64)] (2000, 128) H))).
Defined.

(** C10, counterexample to the claim as stated. The frame length of the
    capture header has 32 bits, the stored length 16: of a frame of 70000
    bytes the store keeps the length 4464, yet adds 70000 to the byte
    total, which is then not the sum of the stored lengths. *)
Lemma store_append_long_frame :
  let s' := Cbs.store_append (Spec.capture 3 [] Cbs.tc_zero) 1000 70000 3 in
  Cbs.packets s' = [Cbs.mk_packet 1000 4464 3]
  /\ Cbs.packet_count s' = 1
  /\ Cbs.total_bytes s' = 70000
  /\ Spec.sum_len (Cbs.packets s') = 4464
  /\ ~ Spec.aggregates_ok s'.
Proof.
  cbn zeta. repeat split; try reflexivity.
  intros (_ & H & _). vm_compute in H. discriminate.
Qed.

(** ** The burst segmenter *)

Section BurstSegmenter.

Lemma u64_small x : 0 <= x < 2 ^ 64 -> C.u64 x = x.
Proof. intros; unfold C.u64; apply Z.mod_small; assumption. Qed.

Lemma u32_small x : 0 <= x < 2 ^ 32 -> C.u32 x = x.
Proof. intros; unfold C.u32; apply Z.mod_small; assumption. Qed.

Lemma time_ordered_tail p rest :
  Spec.time_ordered (p :: rest) -> Spec.time_ordered rest.
Proof. destruct rest; cbn; tauto. Qed.

(** The loop keeps the bursts in order and counts every packet once. *)
Lemma burst_loop_spec thr : 0 <= thr ->
  forall rest prev b n,
  Forall (fun p => 0 <= Cbs.ts_ns p < 2 ^ 64) (prev :: rest) ->
  Spec.time_ordered (prev :: rest) ->
  Cbs.start_ns b <= Cbs.ts_ns prev ->
  0 <= Cbs.bpackets b ->
  Cbs.bpackets b + Z.of_nat (List.length rest) < 2 ^ 32 ->
  Spec.bursts_ordered (Cbs.burst_loop thr prev b n rest)
  /\ Spec.covered (Cbs.burst_loop thr prev b n rest)
     = Cbs.bpackets b + Z.of_nat (List.length rest)
  /\ exists b0 r, Cbs.burst_loop thr prev b n rest = b0 :: r
                  /\ Cbs.start_ns b0 = Cbs.start_ns b.
Proof.
  intros Hthr.
  induction rest as [|p rest IH]; intros prev b n Hrange Hord Hstart Hb Hlen.
  - cbn. repeat split; try lia. eexists _, _; split; reflexivity.
  - cbn [Cbs.burst_loop].
    inversion Hrange as [|? ? Hprev Hrest]; subst.
    inversion Hrest as [|? ? Hp _]; subst.
    destruct Hord as [Hle Hord].
    rewrite u64_small by lia.
    cbn [List.length] in Hlen |- *. rewrite Nat2Z.inj_succ in Hlen |- *.
    destruct ((Cbs.ts_ns p - Cbs.ts_ns prev >? thr) && (n <? Cbs.MAX_BURSTS))
      eqn:Hnew.
    + apply andb_true_iff in Hnew as [Hgap _].
      apply Z.gtb_lt in Hgap.
      assert (H1 : Cbs.start_ns (Cbs.burst_open p) <= Cbs.ts_ns p) by (cbn; lia).
      assert (H2 : 0 <= Cbs.bpackets (Cbs.burst_open p)) by (cbn; lia).
      assert (H3 : Cbs.bpackets (Cbs.burst_open p) + Z.of_nat (List.length rest)
                   < 2 ^ 32) by (cbn [Cbs.burst_open Cbs.bpackets]; lia).
      destruct (IH p (Cbs.burst_open p) (n + 1) Hrest Hord H1 H2 H3)
        as (Ho & Hc & b0 & r & E & E0).
      rewrite E in Ho, Hc |- *. cbn in E0.
      split; [|split].
      * change (Cbs.start_ns b <= Cbs.ts_ns prev
                /\ Cbs.ts_ns prev < Cbs.start_ns b0
                /\ Spec.bursts_ordered (b0 :: r)).
        split; [lia|]. split; [cbn in E0; lia | exact Ho].
      * change (Spec.covered (Cbs.burst_close b (Cbs.ts_ns prev) :: b0 :: r))
          with (Cbs.bpackets b + Spec.covered (b0 :: r)).
        rewrite Hc. cbn [Cbs.burst_open Cbs.bpackets]. lia.
      * eexists _, _; split; reflexivity.
    + assert (Hext : Cbs.bpackets (Cbs.burst_extend b p) = Cbs.bpackets b + 1)
        by (cbn; apply u32_small; lia).
      assert (H1 : Cbs.start_ns (Cbs.burst_extend b p) <= Cbs.ts_ns p)
        by (cbn; lia).
      assert (H2 : 0 <= Cbs.bpackets (Cbs.burst_extend b p)) by lia.
      assert (H3 : Cbs.bpackets (Cbs.burst_extend b p)
                   + Z.of_nat (List.length rest) < 2 ^ 32) by lia.
      destruct (IH p (Cbs.burst_extend b p) n Hrest Hord H1 H2 H3)
        as (Ho & Hc & b0 & r & E & E0).
      split; [exact Ho|]. split.
      * rewrite Hc, Hext. lia.
      * exists b0, r; split; [exact E|exact E0].
Qed.

(** C2 (as amended). On a store whose timestamps are in time order,
    [detect_bursts] of cbs-estimator.c yields bursts that are intervals in
    increasing order, none overlapping the next, whose packet counts add up
    to the number of observations; with fewer than two observations the
    burst list stays empty. *)
Theorem detect_bursts_ordered_cover (tc : Cbs.tc_analysis_t) :
  Spec.segmenter_input tc ->
  let tc' := Cbs.detect_bursts tc in
  (2 <= Cbs.packet_count tc ->
     Spec.bursts_ordered (Cbs.bursts tc')
     /\ Spec.covered (Cbs.bursts tc') = Cbs.packet_count tc
     /\ Cbs.burst_count tc' = Z.of_nat (List.length (Cbs.bursts tc'))
     /\ 1 <= Cbs.burst_count tc')
  /\ (Cbs.packet_count tc < 2 ->
        Cbs.bursts tc' = [] /\ Cbs.burst_count tc' = 0).
Proof.
  intros (Hcnt & Hcap & Hb & Hbc & Hrange & Hord) tc'.
  subst tc'; unfold Cbs.detect_bursts.
  assert (Hst : Cbs.stored tc = Cbs.packets tc).
  { unfold Cbs.stored. rewrite Hcnt, Nat2Z.id. apply firstn_all. }
  rewrite Hst.
  destruct (Z.ltb_spec (Cbs.packet_count tc) 2) as [Hlt|Hge].
  - split; [lia|]. intros _; split; assumption.
  - split; [|lia]. intros _.
    destruct (Cbs.packets tc) as [|p0 rest] eqn:E; [cbn in Hcnt; lia|].
    cbn [List.length] in Hcnt. rewrite Nat2Z.inj_succ in Hcnt.
    assert (H0 : 0 <= Cbs.BURST_GAP_THRESHOLD_US * 1000) by (cbv; discriminate).
    assert (H1 : Cbs.start_ns (Cbs.burst_open p0) <= Cbs.ts_ns p0) by (cbn; lia).
    assert (H2 : 0 <= Cbs.bpackets (Cbs.burst_open p0)) by (cbn; lia).
    assert (H3 : Cbs.bpackets (Cbs.burst_open p0) + Z.of_nat (List.length rest)
                 < 2 ^ 32)
      by (cbn [Cbs.burst_open Cbs.bpackets]; unfold Cbs.MAX_PACKETS in Hcap; lia).
    destruct (burst_loop_spec _ H0 rest p0 (Cbs.burst_open p0) 1 Hrange Hord
                H1 H2 H3) as (Ho & Hc & b0 & r & Eb & _).
    cbn [Cbs.bursts Cbs.burst_count].
    repeat split; try assumption.
    + rewrite Hc; cbn [Cbs.burst_open Cbs.bpackets]; lia.
    + rewrite Eb; cbn [List.length]; lia.
Qed.

End BurstSegmenter.

(** Three observations in time order, the last one 898 us after the
    second: every one is counted. *)
Lemma detect_bursts_ordered_cover_witness :
  let tc := Spec.capture 0 [(1000, 64); (2000, 64); (900000, 64)] Cbs.tc_zero in
  Spec.segmenter_input tc
  /\ Spec.covered (Cbs.bursts (Cbs.detect_bursts tc)) = 3.
Proof.
  assert (H : Spec.segmenter_input
                (Spec.capture 0 [(1000, 64); (2000, 64); (900000, 64)] Cbs.tc_zero)).
  { unfold Spec.segmenter_input; cbn.
    repeat split; try reflexivity; try discriminate; try lia.
    repeat constructor; cbn; lia. }
  split; [exact H|].
  assert (H2 : 2 <= Cbs.packet_count
                 (Spec.capture 0 [(1000, 64); (2000, 64); (900000, 64)] Cbs.tc_zero))
    by (cbn; lia).
  exact (proj1 (proj2 (proj1 (detect_bursts_ordered_cover _ H) H2))).
Defined.

(** C2, counterexample to the claim as stated. A timestamp that goes back
    (500 ns after 1000 ns) gives an unsigned gap above the threshold, so a
    second burst is opened that starts before the first one ends. *)
Lemma detect_bursts_unordered_input :
  let tc := Spec.capture 0 [(1000, 64); (500, 64)] Cbs.tc_zero in
  2 <= Cbs.packet_count tc
  /\ Cbs.bursts (Cbs.detect_bursts tc)
     = [Cbs.mk_burst 1000 1000 64 1; Cbs.mk_burst 500 500 64 1]
  /\ ~ Spec.bursts_ordered (Cbs.bursts (Cbs.detect_bursts tc)).
Proof.
  cbn zeta. split; [cbn; lia|]. split; [reflexivity|].
  change (~ (1000 <= 1000 /\ 1000 < 500 /\ 500 <= 500 /\ True /\ True)). lia.
Qed.

(** The copy of the segmenter in tsn-verify.c leaves the loop when the
    burst array is full: of 5002 packets 1 ms apart only 5000 are counted. *)
Lemma verify_detect_bursts_stops_counting :
  let pkts := map (fun o => Cbs.mk_packet (fst o) (snd o) 0)
                  (Spec.uniform 1000000000 1000000 (repeat 64 5002)) in
  Spec.time_ordered pkts
  /\ List.length pkts = 5002%nat
  /\ Spec.covered (Verify.detect_bursts pkts) = 5000
  /\ Spec.covered
       (Cbs.bursts (Cbs.detect_bursts
          (Cbs.mk_tc pkts 5002 [] 0 0 0 0 0 0 0 false 0 0 0))) = 5002.
Proof.
  cbn zeta. split; [|vm_compute; repeat split; reflexivity].
  assert (H : forall lens t0, Spec.time_ordered
            (map (fun o => Cbs.mk_packet (fst o) (snd o) 0)
                 (Spec.uniform t0 1000000 lens))).
  { induction lens as [|l [|l' r] IH]; intros t0; try exact I.
    split; [cbn; lia|]. apply (IH (t0 + 1000000)). }
  apply H.
Qed.

(** ** The gate control list *)

Section GateControlList.

Lemma windows_in_cycleb_ok cycle_ns tc_data :
  Spec.windows_in_cycleb cycle_ns tc_data = true ->
  Spec.windows_in_cycle cycle_ns tc_data.
Proof.
  unfold Spec.windows_in_cycleb, Spec.windows_in_cycle.
  rewrite forallb_forall, Forall_forall. intros H tc Hin.
  specialize (H tc Hin). rewrite forallb_forall in H.
  apply Forall_forall. intros w Hw. specialize (H w Hw).
  unfold Spec.window_in_cycleb in H. unfold Spec.window_in_cycle. lia.
Qed.

Lemma sum_time_app g h :
  Spec.sum_time (g ++ h) = Spec.sum_time g + Spec.sum_time h.
Proof.
  induction g as [|e g IH]; [reflexivity|].
  unfold Spec.sum_time in *. cbn [app fold_right]. rewrite IH. lia.
Qed.

Lemma sum_time_rev g : Spec.sum_time (rev g) = Spec.sum_time g.
Proof.
  induction g as [|e g IH]; [reflexivity|].
  cbn [rev]. rewrite sum_time_app, IH. unfold Spec.sum_time. cbn [fold_right]. lia.
Qed.

Lemma sum_time_nonneg g :
  Forall (fun e => 0 <= Tas.time_ns e) g -> 0 <= Spec.sum_time g.
Proof.
  induction 1 as [|e g He _ IH]; unfold Spec.sum_time in *; cbn [fold_right]; lia.
Qed.

(** *** Run-length merge *)

Lemma no_adjacent_snoc g x y :
  Spec.no_adjacent_equal (g ++ [x]) ->
  Tas.gate_states x <> Tas.gate_states y ->
  Spec.no_adjacent_equal (g ++ [x; y]).
Proof.
  induction g as [|a g IH]; intros Hg Hxy.
  - cbn; tauto.
  - destruct g as [|b g].
    + cbn in *. tauto.
    + cbn [app] in *. destruct Hg as [Hab Hg].
      split; [exact Hab|]. apply IH; assumption.
Qed.

Lemma no_adjacent_rev g :
  Spec.no_adjacent_equal g -> Spec.no_adjacent_equal (rev g).
Proof.
  induction g as [|a g IH]; intros Hg; [exact I|].
  destruct g as [|b g]; [exact I|].
  destruct Hg as [Hab Hg].
  specialize (IH Hg). cbn [rev] in IH |- *.
  rewrite <- app_assoc. cbn [app].
  apply no_adjacent_snoc; [exact IH|congruence].
Qed.

Lemma merge_loop_no_adjacent entries : forall merged_rev,
  Spec.no_adjacent_equal merged_rev ->
  Spec.no_adjacent_equal (Tas.merge_loop merged_rev entries).
Proof.
  induction entries as [|e rest IH]; intros acc Hacc.
  - apply no_adjacent_rev; assumption.
  - cbn [Tas.merge_loop]. destruct acc as [|m before].
    + apply IH; exact I.
    + destruct (Z.eqb_spec (Tas.gate_states m) (Tas.gate_states e)) as [Heq|Hne].
      * apply IH. destruct before as [|b before]; [exact I|].
        destruct Hacc as [Hmb Hb]. split; [exact Hmb|exact Hb].
      * apply IH. split; [congruence|exact Hacc].
Qed.

Lemma merge_loop_sum entries : forall merged_rev,
  Forall (fun e => 0 <= Tas.time_ns e) merged_rev ->
  Forall (fun e => 0 <= Tas.time_ns e) entries ->
  Spec.sum_time merged_rev + Spec.sum_time entries < 2 ^ 32 ->
  Spec.sum_time (Tas.merge_loop merged_rev entries)
  = Spec.sum_time merged_rev + Spec.sum_time entries.
Proof.
  induction entries as [|e rest IH]; intros acc Hacc Hent Hlt.
  - cbn [Tas.merge_loop]. rewrite sum_time_rev. cbn. lia.
  - inversion Hent as [|? ? He Hrest]; subst.
    pose proof (sum_time_nonneg _ Hrest) as Hr0.
    change (Spec.sum_time (e :: rest)) with (Tas.time_ns e + Spec.sum_time rest)
      in Hlt |- *.
    cbn [Tas.merge_loop]. destruct acc as [|m before].
    + rewrite IH; [cbn; lia| repeat constructor; assumption |assumption|].
      cbn in Hlt |- *. lia.
    + inversion Hacc as [|? ? Hm Hbefore]; subst.
      pose proof (sum_time_nonneg _ Hbefore) as Hb0.
      change (Spec.sum_time (m :: before))
        with (Tas.time_ns m + Spec.sum_time before) in Hlt |- *.
      destruct (Tas.gate_states m =? Tas.gate_states e).
      * assert (Hu : C.u32 (Tas.time_ns m + Tas.time_ns e)
                     = Tas.time_ns m + Tas.time_ns e)
          by (apply u32_small; lia).
        rewrite IH.
        -- cbn [Spec.sum_time fold_right Tas.time_ns]. rewrite Hu.
           fold (Spec.sum_time before). lia.
        -- constructor; [cbn; rewrite Hu; lia|assumption].
        -- assumption.
        -- cbn [Spec.sum_time fold_right Tas.time_ns]. rewrite Hu.
           fold (Spec.sum_time before). lia.
      * rewrite IH.
        -- cbn [Spec.sum_time fold_right]. fold (Spec.sum_time before). lia.
        -- constructor; assumption.
        -- assumption.
        -- cbn [Spec.sum_time fold_right]. fold (Spec.sum_time before). lia.
Qed.

(** *** Sorting the events *)

Lemma sort_pass_spec rest : forall x m r,
  Tas.sort_pass x rest = (m, r) ->
  Permutation (m :: r) (x :: rest)
  /\ Tas.time m <= Tas.time x
  /\ Forall (fun y => Tas.time m <= Tas.time y) r.
Proof.
  induction rest as [|y ys IH]; intros x m r H; cbn in H.
  - inversion H; subst. repeat split; auto; lia.
  - destruct (Z.ltb_spec (Tas.time y) (Tas.time x)) as [Hlt|Hge].
    + destruct (Tas.sort_pass y ys) as [m' r'] eqn:E.
      inversion H; subst.
      destruct (IH _ _ _ E) as (Hp & Hle & Hall).
      repeat split.
      * apply Permutation_trans with (x :: m :: r');
          [apply perm_swap | apply perm_skip; exact Hp].
      * lia.
      * constructor; [lia|assumption].
    + destruct (Tas.sort_pass x ys) as [m' r'] eqn:E.
      inversion H; subst.
      destruct (IH _ _ _ E) as (Hp & Hle & Hall).
      repeat split.
      * apply Permutation_trans with (y :: m :: r'); [apply perm_swap|].
        apply Permutation_trans with (y :: x :: ys);
          [apply perm_skip; exact Hp | apply perm_swap].
      * lia.
      * constructor; [lia|assumption].
Qed.

Lemma sort_from_spec fuel : forall events,
  (List.length events <= S fuel)%nat ->
  Permutation (Tas.sort_from fuel events) events
  /\ Spec.time_sorted (Tas.sort_from fuel events).
Proof.
  induction fuel as [|k IH]; intros events Hlen.
  - destruct events as [|x [|y r]]; cbn in *; try lia;
      (split; [reflexivity|repeat constructor]).
  - destruct events as [|x rest]; [cbn; split; [reflexivity|exact I]|].
    cbn [Tas.sort_from].
    destruct (Tas.sort_pass x rest) as [m r] eqn:E.
    destruct (sort_pass_spec _ _ _ _ E) as (Hp & _ & Hall).
    pose proof (Permutation_length Hp) as Hl. cbn in Hl, Hlen.
    destruct (IH r ltac:(lia)) as [Hpr Hsr].
    split.
    + rewrite <- Hp. apply perm_skip; assumption.
    + split; [|assumption].
      eapply Permutation_Forall; [symmetry; exact Hpr|assumption].
Qed.

Lemma sort_events_spec events :
  Permutation (Tas.sort_events events) events
  /\ Spec.time_sorted (Tas.sort_events events).
Proof. apply sort_from_spec; lia. Qed.

(** *** The events of the windows *)

Lemma for_windows_Forall {A} (P : A -> Prop) (Q : Tas.gate_window_t -> Prop)
    (f : Z -> Tas.gate_window_t -> list A) :
  (forall t w, Q w -> Forall P (f t w)) ->
  forall tc_data t,
  Forall (fun tc => Forall Q (Tas.active_windows tc)) tc_data ->
  Forall P (Tas.for_windows t tc_data f).
Proof.
  intros Hf. induction tc_data as [|tc rest IH]; intros t Hall; [constructor|].
  inversion Hall as [|? ? Htc Hrest]; subst.
  cbn [Tas.for_windows]. apply Forall_app; split; [|apply IH; assumption].
  apply Forall_flat_map. eapply Forall_impl; [|exact Htc].
  intros w Hw; apply Hf; exact Hw.
Qed.

Lemma collect_events_length cycle_ns : forall tc_data t,
  Z.of_nat (List.length (Tas.for_windows t tc_data (Tas.window_events cycle_ns)))
  = 2 * Spec.total_windows tc_data.
Proof.
  induction tc_data as [|tc rest IH]; intros t; [reflexivity|].
  cbn [Tas.for_windows Spec.total_windows fold_right].
  fold (Spec.total_windows rest).
  rewrite length_app, Nat2Z.inj_add, IH.
  assert (H : forall ws,
    Z.of_nat (List.length (flat_map (Tas.window_events cycle_ns t) ws))
    = 2 * Z.of_nat (List.length ws)).
  { induction ws as [|w ws IHw]; [reflexivity|].
    cbn [flat_map Tas.window_events app List.length].
    rewrite !Nat2Z.inj_succ, IHw. lia. }
  rewrite H. lia.
Qed.

Lemma collect_events_in_cycle cycle_ns tc_data :
  0 < cycle_ns ->
  Spec.windows_in_cycle cycle_ns tc_data ->
  Forall (fun ev => 0 <= Tas.time ev < cycle_ns)
         (Tas.collect_events cycle_ns tc_data).
Proof.
  intros Hc Hw. unfold Tas.collect_events.
  apply for_windows_Forall with (Q := Spec.window_in_cycle cycle_ns);
    [|exact Hw].
  intros t w [Hs _]. unfold Tas.window_events.
  repeat constructor; cbn [Tas.time]; try lia;
    apply Z.mod_pos_bound; assumption.
Qed.

(** *** The sweep *)

Lemma in_later t evs x :
  In x (Spec.later t evs) <-> In x (map Tas.time evs) /\ t < x.
Proof.
  unfold Spec.later. rewrite nodup_In, filter_In, Z.ltb_lt. reflexivity.
Qed.

Lemma later_length_incl t t' evs evs' :
  (forall x, In x (Spec.later t evs) -> In x (Spec.later t' evs')) ->
  (List.length (Spec.later t evs) <= List.length (Spec.later t' evs'))%nat.
Proof.
  intros H. apply NoDup_incl_length; [apply NoDup_nodup|exact H].
Qed.

Lemma later_cons_skip t ev rest :
  (List.length (Spec.later t rest) <= List.length (Spec.later t (ev :: rest)))%nat.
Proof.
  apply later_length_incl. intros x. rewrite !in_later. cbn [map In]. tauto.
Qed.

Lemma later_cons_emit t ev rest :
  t < Tas.time ev ->
  (S (List.length (Spec.later (Tas.time ev) rest))
   <= List.length (Spec.later t (ev :: rest)))%nat.
Proof.
  intros Hlt.
  change (S (List.length (Spec.later (Tas.time ev) rest)))
    with (List.length (Tas.time ev :: Spec.later (Tas.time ev) rest)).
  apply NoDup_incl_length.
  - constructor; [|apply NoDup_nodup]. rewrite in_later. lia.
  - intros x [<-|Hx].
    + apply in_later. cbn [map In]. split; [left; reflexivity|exact Hlt].
    + apply in_later in Hx as [Hin Hx]. apply in_later. cbn [map In].
      split; [right; exact Hin|lia].
Qed.

Lemma later_permutation t evs evs' :
  Permutation evs evs' ->
  List.length (Spec.later t evs) = List.length (Spec.later t evs').
Proof.
  intros Hp. apply Nat.le_antisymm; apply later_length_incl;
    intros x; rewrite !in_later; intros [Hin Hx]; (split; [|exact Hx]).
  - eapply Permutation_in; [apply Permutation_map; exact Hp|exact Hin].
  - eapply Permutation_in;
      [apply Permutation_map; symmetry; exact Hp|exact Hin].
Qed.

Lemma later_length t evs :
  (List.length (Spec.later t evs) <= List.length evs)%nat.
Proof.
  unfold Spec.later.
  apply Nat.le_trans with (List.length (filter (fun x => t <? x) (map Tas.time evs))).
  - apply NoDup_incl_length; [apply NoDup_nodup|].
    intros x Hx. apply nodup_In in Hx. exact Hx.
  - rewrite <- (length_map Tas.time evs). apply filter_length_le.
Qed.

Lemma sweep_spec cycle_ns : cycle_ns <= 2 ^ 32 ->
  forall events prev st,
  Forall (fun ev => Tas.last_time st <= Tas.time ev < cycle_ns) events ->
  Spec.time_sorted events ->
  0 <= Tas.last_time st < cycle_ns ->
  Spec.sum_time (Tas.gcl st) = Tas.last_time st ->
  Forall (fun e => 0 <= Tas.time_ns e) (Tas.gcl st) ->
  (List.length (Tas.gcl st)
   + List.length (Spec.later (Tas.last_time st) events) <= 63)%nat ->
  Spec.sum_time (Tas.gcl (Tas.sweep prev events st))
  = Tas.last_time (Tas.sweep prev events st)
  /\ 0 <= Tas.last_time (Tas.sweep prev events st) < cycle_ns
  /\ Forall (fun e => 0 <= Tas.time_ns e) (Tas.gcl (Tas.sweep prev events st))
  /\ (List.length (Tas.gcl (Tas.sweep prev events st)) <= 63)%nat.
Proof.
  intros Hc.
  induction events as [|ev rest IH];
    intros prev st Hrange Hsorted Hlast Hsum Hnn Hlen.
  - cbn [Tas.sweep]. repeat split; try assumption; try lia.
  - cbn [Tas.sweep].
    inversion Hrange as [|? ? Hev Hrest]; subst.
    destruct Hsorted as [Hle Hsorted].
    pose proof (later_cons_skip (Tas.last_time st) ev rest) as Hskip.
    assert (Hguard : (Tas.gcl_size st <? Tas.MAX_GCL_ENTRIES) = true).
    { apply Z.ltb_lt. unfold Tas.gcl_size, Tas.MAX_GCL_ENTRIES. lia. }
    rewrite Hguard. cbn [negb].
    set (same := match prev with
                 | Some t => Tas.time ev =? t
                 | None => false
                 end).
    assert (Hrest' : forall l, l = Tas.last_time st \/ l = Tas.time ev ->
              Forall (fun ev' => l <= Tas.time ev' < cycle_ns) rest).
    { intros l Hl. rewrite Forall_forall in Hrest, Hle |- *.
      intros ev' Hin. specialize (Hrest _ Hin). specialize (Hle _ Hin).
      destruct Hl; subst l; lia. }
    assert (Hkeep :
      let st2 := Tas.mk_sweep (Tas.apply_event (Tas.current_gates st) ev)
                   (Tas.last_time st) (Tas.gcl st) in
      Spec.sum_time (Tas.gcl (Tas.sweep (Some (Tas.time ev)) rest st2))
      = Tas.last_time (Tas.sweep (Some (Tas.time ev)) rest st2)
      /\ 0 <= Tas.last_time (Tas.sweep (Some (Tas.time ev)) rest st2) < cycle_ns
      /\ Forall (fun e => 0 <= Tas.time_ns e)
                (Tas.gcl (Tas.sweep (Some (Tas.time ev)) rest st2))
      /\ (List.length (Tas.gcl (Tas.sweep (Some (Tas.time ev)) rest st2))
          <= 63)%nat).
    { cbn zeta. apply IH; cbn [Tas.last_time Tas.gcl]; try assumption; lia. }
    destruct same; [exact Hkeep|].
    destruct (Z.ltb_spec (Tas.last_time st) (Tas.time ev)) as [Hlt|Hge];
      [|exact Hkeep].
    assert (Hu : C.u32 (Tas.time ev - Tas.last_time st)
                 = Tas.time ev - Tas.last_time st) by (apply u32_small; lia).
    apply IH; cbn [Tas.emit Tas.last_time Tas.gcl Tas.current_gates].
    + apply Hrest'; right; reflexivity.
    + assumption.
    + lia.
    + rewrite sum_time_app. unfold Spec.sum_time at 2.
      cbn [fold_right Tas.time_ns]. rewrite Hu. lia.
    + apply Forall_app; split; [assumption|].
      repeat constructor. cbn [Tas.time_ns]. rewrite Hu. lia.
    + rewrite length_app. cbn [List.length].
      pose proof (later_cons_emit (Tas.last_time st) ev rest Hlt). lia.
Qed.

(** At most 31 windows have at most 62 boundaries. *)
Lemma few_windows_few_boundaries cycle_ns tc_data :
  Spec.total_windows tc_data <= 31 ->
  Spec.boundary_count cycle_ns tc_data <= 63.
Proof.
  intros H. unfold Spec.boundary_count.
  pose proof (later_length 0 (Tas.collect_events cycle_ns tc_data)) as Hl.
  pose proof (collect_events_length cycle_ns tc_data 0) as Hc.
  fold (Tas.collect_events cycle_ns tc_data) in Hc. lia.
Qed.

(** C1 (as amended). The list built by [build_gcl] never has two adjacent
    entries with the same gate mask; and when the cycle length fits the
    32-bit duration field and the windows, each lying within the cycle,
    have at most 63 distinct boundaries after offset 0 (so that the sweep
    leaves room in the 64-entry list for the entry that completes the
    cycle), the durations add up to the cycle length. *)
Theorem build_gcl_cycle (cycle_ns : Z) (tc_data : list Tas.tc_data_t) :
  Spec.no_adjacent_equal (Tas.build_gcl cycle_ns tc_data)
  /\ (0 < cycle_ns < 2 ^ 32 ->
      Spec.windows_in_cycle cycle_ns tc_data ->
      Spec.boundary_count cycle_ns tc_data <= 63 ->
      Spec.sum_time (Tas.build_gcl cycle_ns tc_data) = cycle_ns).
Proof.
  unfold Tas.build_gcl. split.
  - apply merge_loop_no_adjacent; exact I.
  - intros Hc Hw Hn.
    set (events := Tas.sort_events (Tas.collect_events cycle_ns tc_data)).
    destruct (sort_events_spec (Tas.collect_events cycle_ns tc_data))
      as [Hperm Hsorted]. fold events in Hperm, Hsorted.
    assert (Hrange : Forall (fun ev => 0 <= Tas.time ev < cycle_ns) events).
    { eapply Permutation_Forall; [symmetry; exact Hperm|].
      apply collect_events_in_cycle; [lia|assumption]. }
    assert (Hlen : (List.length (Spec.later 0 events) <= 63)%nat).
    { rewrite (later_permutation 0 _ _ Hperm).
      unfold Spec.boundary_count in Hn. lia. }
    set (st0 := Tas.mk_sweep (Tas.initial_gates cycle_ns tc_data) 0 []).
    destruct (sweep_spec cycle_ns ltac:(lia) events None st0)
      as (Hsum & Hlast & Hnn & Hsize);
      try (cbn [st0 Tas.last_time Tas.gcl List.length]; first
             [assumption | lia | constructor | reflexivity]).
    set (st := Tas.sweep None events st0) in *.
    assert (Hu : C.u32 (cycle_ns - Tas.last_time st)
                 = cycle_ns - Tas.last_time st) by (apply u32_small; lia).
    assert (Hcomplete : Tas.complete_cycle cycle_ns st
              = Tas.gcl st ++ [Tas.mk_gcl (Tas.current_gates st)
                                          (cycle_ns - Tas.last_time st)]).
    { unfold Tas.complete_cycle.
      destruct (Z.ltb_spec (Tas.last_time st) cycle_ns); [|lia].
      destruct (Z.ltb_spec (Tas.gcl_size st) Tas.MAX_GCL_ENTRIES) as [_|Hge].
      - cbn [andb Tas.emit Tas.gcl]. rewrite Hu. reflexivity.
      - unfold Tas.gcl_size, Tas.MAX_GCL_ENTRIES in Hge. lia. }
    rewrite Hcomplete.
    assert (Htot : Spec.sum_time
              (Tas.gcl st ++ [Tas.mk_gcl (Tas.current_gates st)
                                         (cycle_ns - Tas.last_time st)])
            = cycle_ns).
    { rewrite sum_time_app, Hsum. unfold Spec.sum_time.
      cbn [fold_right Tas.time_ns]. lia. }
    rewrite merge_loop_sum.
    + rewrite Htot. reflexivity.
    + constructor.
    + apply Forall_app; split; [assumption|].
      repeat constructor. cbn [Tas.time_ns]. lia.
    + rewrite Htot. cbn. lia.
Qed.

End GateControlList.

(** The two windows of scenario 4 in a 10 ms cycle. *)
Lemma build_gcl_cycle_witness :
  0 < 10000000 < 2 ^ 32
  /\ Spec.windows_in_cycle 10000000 Ex.scenario4
  /\ Spec.boundary_count 10000000 Ex.scenario4 <= 63
  /\ Spec.sum_time (Tas.build_gcl 10000000 Ex.scenario4) = 10000000.
Proof.
  assert (H1 : 0 < 10000000 < 2 ^ 32) by lia.
  assert (H2 : Spec.windows_in_cycle 10000000 Ex.scenario4)
    by (apply windows_in_cycleb_ok; vm_compute; reflexivity).
  assert (H3 : Spec.boundary_count 10000000 Ex.scenario4 <= 63)
    by (vm_compute; discriminate).
  split; [exact H1|]. split; [exact H2|]. split; [exact H3|].
  exact (proj2 (build_gcl_cycle 10000000 Ex.scenario4) H1 H2 H3).
Defined.

(** C1, counterexamples to the claim as stated. With a cycle of 2^32 ns
    the single entry has duration 0 in the 32-bit field; and with 32
    windows (two classes of sixteen) the 64 entries written by the sweep
    fill the list, so the entry that completes the cycle is not added. *)
Lemma build_gcl_sum_not_cycle :
  (Spec.windows_in_cycle (2 ^ 32) Ex.no_windows
   /\ Tas.build_gcl (2 ^ 32) Ex.no_windows = [Tas.mk_gcl 0 0]
   /\ Spec.sum_time (Tas.build_gcl (2 ^ 32) Ex.no_windows) <> 2 ^ 32)
  /\ (Spec.windows_in_cycle 100000 Ex.two_combs
      /\ Spec.total_windows Ex.two_combs = 32
      /\ Spec.boundary_count 100000 Ex.two_combs = 64
      /\ List.length (Tas.build_gcl 100000 Ex.two_combs) = 64%nat
      /\ Spec.sum_time (Tas.build_gcl 100000 Ex.two_combs) = 64000
      /\ Spec.sum_time (Tas.build_gcl 100000 Ex.two_combs) <> 100000).
Proof.
  split.
  - split; [apply windows_in_cycleb_ok; vm_compute; reflexivity|].
    split; [vm_compute; reflexivity|]. vm_compute; discriminate.
  - split; [apply windows_in_cycleb_ok; vm_compute; reflexivity|].
    repeat split; try (vm_compute; reflexivity). vm_compute; discriminate.
Qed.

(** ** Scenario 4 *)

Section Scenario4.

Lemma active_with_windows ws : Tas.active_windows (Ex.with_windows ws) = ws.
Proof.
  unfold Tas.active_windows, Ex.with_windows; cbn [Tas.window_count Tas.windows].
  rewrite Nat2Z.id. apply firstn_all.
Qed.

Lemma for_windows_active {A} (f : Z -> Tas.gate_window_t -> list A) :
  forall tc_data t,
  Tas.for_windows t tc_data f
  = Tas.for_windows t (map Ex.with_windows (map Tas.active_windows tc_data)) f.
Proof.
  induction tc_data as [|tc rest IH]; intros t; [reflexivity|].
  cbn [map Tas.for_windows]. rewrite active_with_windows, <- IH. reflexivity.
Qed.

Lemma build_gcl_active cycle_ns tc_data :
  Tas.build_gcl cycle_ns tc_data
  = Tas.build_gcl cycle_ns
      (map Ex.with_windows (map Tas.active_windows tc_data)).
Proof.
  unfold Tas.build_gcl, Tas.collect_events, Tas.initial_gates.
  rewrite <- !for_windows_active. reflexivity.
Qed.

(** C7. Scenario 4: class 0 open during [0, 3 ms) and class 1 during
    [3 ms, 10 ms) of a 10 ms cycle, no other windows: the list is exactly
    mask 0b01 for 3 ms, then mask 0b10 for 7 ms. *)
Theorem scenario4_gcl (tc_data : list Tas.tc_data_t) (a b : Z) :
  map Tas.active_windows tc_data
  = [[Tas.mk_window 0 3000000 a]; [Tas.mk_window 3000000 7000000 b];
     []; []; []; []; []; []] ->
  Tas.build_gcl 10000000 tc_data
  = [Tas.mk_gcl 1 3000000; Tas.mk_gcl 2 7000000].
Proof.
  intros H. rewrite build_gcl_active, H. vm_compute. reflexivity.
Qed.

End Scenario4.

(** Scenario 4 on classes that hold nothing but the two windows. *)
Lemma scenario4_gcl_witness :
  Tas.build_gcl 10000000 Ex.scenario4
  = [Tas.mk_gcl 1 3000000; Tas.mk_gcl 2 7000000].
Proof. exact (scenario4_gcl Ex.scenario4 0 1 eq_refl). Defined.

(** ** The window detector *)

Section WindowDetector.

Lemma window_threshold_pos n h : 1 <= Tas.window_threshold n h.
Proof.
  unfold Tas.window_threshold.
  destruct (Z.ltb_spec (C.Z_of_double
    (C.double_of_Z n * 2.0 / C.double_of_Z h * 0.3)%float) 1); lia.
Qed.

(** The scan is never inside a window once it has read the closing
    zero after the last bin. *)
Lemma scan_bins_closes threshold bin_size tc_idx : 1 <= threshold ->
  forall bins st i,
  Tas.in_window
    (Tas.scan_bins threshold bin_size tc_idx st i (bins ++ [0])) = false.
Proof.
  intros Hthr. induction bins as [|v bins IH]; intros st i.
  - cbn [app Tas.scan_bins]. unfold Tas.scan_step.
    destruct (Z.leb_spec threshold 0) as [|_]; [lia|].
    cbn [andb negb]. destruct (Tas.in_window st) eqn:E; [reflexivity|exact E].
  - cbn [app Tas.scan_bins]. apply IH.
Qed.

(** Hence the wrap-around step never merges anything: the windows are
    those written by the scan. *)
Lemma detect_windows_scan_only tc cycle_ns tc_idx :
  Tas.histogram_size tc <> 0 -> 10 <= Tas.packet_count tc ->
  let st :=
    Tas.scan_bins (Tas.window_threshold (Tas.packet_count tc) (Tas.histogram_size tc))
      (cycle_ns / Tas.histogram_size tc) tc_idx (Tas.mk_scan false 0 []) 0
      (firstn (Z.to_nat (Tas.histogram_size tc)) (Tas.histogram tc) ++ [0]) in
  Tas.windows (Tas.detect_windows tc cycle_ns tc_idx) = Tas.ws st
  /\ Tas.window_count (Tas.detect_windows tc cycle_ns tc_idx)
     = Z.of_nat (List.length (Tas.ws st)).
Proof.
  intros Hh Hp st. unfold Tas.detect_windows.
  destruct (Z.eqb_spec (Tas.histogram_size tc) 0) as [|_]; [contradiction|].
  destruct (Z.ltb_spec (Tas.packet_count tc) 10) as [|_]; [lia|].
  cbn [orb]. fold st. unfold Tas.merge_wrap.
  assert (E : Tas.in_window st = false)
    by (apply scan_bins_closes, window_threshold_pos).
  rewrite E. cbn [andb Tas.windows Tas.window_count]. split; reflexivity.
Qed.

(** C4, the code at a wrapping window. Ten packets of a gate open across
    the cycle boundary: the first and the last bin are both above the
    threshold, and two windows are reported, one at each end of the
    cycle. *)
Theorem detect_windows_wrap_reported_twice :
  let tc := Tas.build_histogram (Ex.tas_stored Ex.wrap_pkts) 10000000 in
  let tc' := Tas.detect_windows tc 10000000 0 in
  Tas.packet_count tc = 10
  /\ Tas.window_threshold (Tas.packet_count tc) (Tas.histogram_size tc) = 1
  /\ nth 0 (Tas.histogram tc) 0 = 5
  /\ nth 1999 (Tas.histogram tc) 0 = 5
  /\ Tas.window_count tc' = 2
  /\ Tas.active_windows tc'
     = [Tas.mk_window 0 5000 0; Tas.mk_window 9995000 5000 0].
Proof. vm_compute. repeat split; reflexivity. Qed.

(** C3, the code at a class of 10000 packets. The mean occupancy of the
    2000 bins is 5 and 0.3 times it is 1.5, the value [analyze_tas] of
    tsn-verify.c truncates to 1; [detect_windows] uses 3. The twenty bins
    that hold 2 packets each are left out of the window. *)
Theorem window_threshold_uses_twice_the_mean :
  let tc := Tas.build_histogram (Ex.tas_stored Ex.skewed_pkts) 10000000 in
  let tc' := Tas.detect_windows tc 10000000 0 in
  Tas.packet_count tc = 10000
  /\ Tas.histogram_size tc = 2000
  /\ Tas.window_threshold 10000 2000 = 3
  /\ Verify.tas_threshold 10000 2000 = 1
  /\ firstn 31 (Tas.histogram tc) = repeat 996 10 ++ repeat 2 20 ++ [0]
  /\ Tas.active_windows tc' = [Tas.mk_window 0 50000 0].
Proof. vm_compute. repeat split; reflexivity. Qed.

End WindowDetector.

(** ** The CBS estimator *)

Section CbsEstimator.

Lemma capture_cons pcp o obs s :
  Spec.capture pcp (o :: obs) s
  = Spec.capture pcp obs (Cbs.store_append s (fst o) (snd o) pcp).
Proof. reflexivity. Qed.

Lemma capture_fields pcp obs : forall s,
  Cbs.packet_count s + Z.of_nat (List.length obs) <= Cbs.MAX_PACKETS ->
  Cbs.packets (Spec.capture pcp obs s)
  = Cbs.packets s ++ map (Spec.stored_packet pcp) obs
  /\ Cbs.packet_count (Spec.capture pcp obs s)
     = Cbs.packet_count s + Z.of_nat (List.length obs)
  /\ Cbs.bursts (Spec.capture pcp obs s) = Cbs.bursts s
  /\ Cbs.burst_count (Spec.capture pcp obs s) = Cbs.burst_count s.
Proof.
  induction obs as [|o obs IH]; intros s Hlen.
  - cbn. rewrite app_nil_r. repeat split; lia.
  - cbn [List.length] in Hlen. rewrite Nat2Z.inj_succ in Hlen.
    rewrite capture_cons.
    assert (Hs : Cbs.store_append s (fst o) (snd o) pcp
                 = Cbs.mk_tc (Cbs.packets s ++ [Spec.stored_packet pcp o])
                     (Cbs.packet_count s + 1) (Cbs.bursts s) (Cbs.burst_count s)
                     (C.u64 (Cbs.total_bytes s + snd o))
                     (if Cbs.first_ts s =? 0 then fst o else Cbs.first_ts s)
                     (fst o) (Cbs.measured_bps s) (Cbs.estimated_idle_slope s)
                     (Cbs.burst_ratio s) (Cbs.is_shaped s)
                     (Cbs.avg_burst_duration_us s) (Cbs.avg_gap_duration_us s)
                     (Cbs.max_burst_bytes s)).
    { unfold Cbs.store_append.
      destruct (Z.ltb_spec (Cbs.packet_count s) Cbs.MAX_PACKETS);
        [reflexivity|exfalso; lia]. }
    rewrite Hs.
    match goal with
    | |- context [Spec.capture pcp obs ?s1] =>
        destruct (IH s1) as (Hp & Hc & Hb & Hbc); [cbn [Cbs.packet_count]; lia|]
    end.
    rewrite Hp, Hc, Hb, Hbc.
    cbn [Cbs.packets Cbs.packet_count Cbs.bursts Cbs.burst_count map List.length].
    rewrite <- app_assoc, Nat2Z.inj_succ. repeat split; lia.
Qed.

(** The capture of observations in time order leaves a store that the
    segmenter accepts. *)
Lemma capture_segmenter_input pcp obs :
  Forall Spec.valid_observation obs ->
  Z.of_nat (List.length obs) <= Cbs.MAX_PACKETS ->
  Spec.time_ordered (map (Spec.stored_packet pcp) obs) ->
  Spec.segmenter_input (Spec.capture pcp obs Cbs.tc_zero).
Proof.
  intros Hv Hlen Hord.
  destruct (capture_fields pcp obs Cbs.tc_zero) as (Hp & Hc & Hb & Hbc);
    [exact Hlen|].
  change (Cbs.packets Cbs.tc_zero) with (@nil Cbs.packet_t) in Hp.
  change (Cbs.packet_count Cbs.tc_zero) with 0 in Hc.
  cbn [app] in Hp. unfold Spec.segmenter_input.
  rewrite Hp, Hc, Hb, Hbc, length_map.
  repeat split; try reflexivity; try lia; try assumption.
  apply Forall_map. eapply Forall_impl; [|exact Hv].
  intros o [Ht _]. cbn. lia.
Qed.

Lemma uniform_length d lens : forall t0,
  List.length (Spec.uniform t0 d lens) = List.length lens.
Proof. induction lens as [|l r IH]; intros t0; cbn; [|rewrite IH]; reflexivity. Qed.

Lemma uniform_valid d lens : forall t0,
  0 < t0 -> 0 <= d ->
  t0 + (Z.of_nat (List.length lens) - 1) * d < 2 ^ 64 ->
  Forall (fun l => 0 <= l < 2 ^ 16) lens ->
  Forall Spec.valid_observation (Spec.uniform t0 d lens).
Proof.
  induction lens as [|l r IH]; intros t0 Ht Hd Hend Hl; [constructor|].
  inversion Hl; subst. cbn [List.length] in Hend.
  rewrite Nat2Z.inj_succ in Hend.
  cbn [Spec.uniform]. constructor.
  - split; cbn; [nia|assumption].
  - apply IH; try assumption; lia.
Qed.

Lemma uniform_last pcp d r : forall t0 l p,
  Cbs.ts_ns (List.last (map (Spec.stored_packet pcp) (Spec.uniform t0 d (l :: r))) p)
  = t0 + Z.of_nat (List.length r) * d.
Proof.
  induction r as [|l' r IH]; intros t0 l p.
  - cbn. lia.
  - change (Cbs.ts_ns (List.last (map (Spec.stored_packet pcp)
                                      (Spec.uniform (t0 + d) d (l' :: r))) p)
            = t0 + Z.of_nat (List.length (l' :: r)) * d).
    rewrite IH. cbn [List.length]. rewrite Nat2Z.inj_succ. lia.
Qed.

Lemma uniform_gaps pcp thr d : 0 <= d <= thr -> d < 2 ^ 64 ->
  forall lens t0,
  Spec.gaps_within thr (map (Spec.stored_packet pcp) (Spec.uniform t0 d lens)).
Proof.
  intros Hd Hlt. induction lens as [|l [|l' r] IH]; intros t0; try exact I.
  split.
  - cbn. replace (t0 + d - t0) with d by lia. rewrite u64_small; lia.
  - apply (IH (t0 + d)).
Qed.

Lemma last_cons {A} (a d : A) l : List.last (a :: l) d = List.last l a.
Proof.
  revert a d. induction l as [|x l IH]; intros a d; [reflexivity|].
  change (List.last (a :: x :: l) d) with (List.last (x :: l) d).
  rewrite (IH x d). symmetry. apply (IH x a).
Qed.

(** Packets that stay within the gap threshold form one burst, from the
    first to the last timestamp. *)
Lemma burst_loop_single thr : forall rest prev b n,
  Spec.gaps_within thr (prev :: rest) ->
  exists by_ pk,
    Cbs.burst_loop thr prev b n rest
    = [Cbs.mk_burst (Cbs.start_ns b) (Cbs.ts_ns (List.last rest prev)) by_ pk].
Proof.
  induction rest as [|p rest IH]; intros prev b n Hg.
  - eexists _, _. reflexivity.
  - destruct Hg as [Hgap Hg]. cbn [Cbs.burst_loop].
    destruct (Z.gtb_spec (C.u64 (Cbs.ts_ns p - Cbs.ts_ns prev)) thr) as [|_];
      [lia|]. cbn [andb].
    destruct (IH p (Cbs.burst_extend b p) n Hg) as (by_ & pk & E).
    exists by_, pk. rewrite E. cbn [Cbs.burst_extend Cbs.start_ns].
    rewrite (last_cons p prev rest). reflexivity.
Qed.

(** The estimate for a store with a single burst. *)
Lemma analyze_cbs_single_burst tc b :
  10 <= Cbs.packet_count tc -> Cbs.burst_count tc = 1 -> Cbs.bursts tc = [b] ->
  (Cbs.total_duration_s tc <=? 0)%float = false ->
  Cbs.burst_count (Cbs.analyze_cbs tc) = 1
  /\ Cbs.burst_ratio (Cbs.analyze_cbs tc)
     = ((0 + C.double_of_Z (C.u64 (Cbs.end_ns b - Cbs.start_ns b)) / 1e3)
        / (Cbs.total_duration_s tc * 1e6))%float
  /\ Cbs.is_shaped (Cbs.analyze_cbs tc) = false.
Proof.
  intros Hp Hc Hb Hd. unfold Cbs.analyze_cbs.
  destruct (Z.ltb_spec (Cbs.packet_count tc) 10) as [|_]; [lia|].
  rewrite Hc, Hb, Hd. cbn. repeat split; reflexivity.
Qed.

Lemma spacing_ok_all k : 1 <= k <= 500 -> Spec.spacing_ok k = true.
Proof.
  intros Hk.
  assert (H : forallb Spec.spacing_ok (map Z.of_nat (seq 1 500)) = true)
    by (vm_compute; reflexivity).
  rewrite forallb_forall in H. apply H.
  apply in_map_iff. exists (Z.to_nat k). split; [lia|].
  apply in_seq. lia.
Qed.

(** The first and the last timestamp after a capture of observations
    with nonzero timestamps, whatever their lengths. *)
Lemma capture_first_last pcp : forall obs o s,
  Cbs.packet_count s + Z.of_nat (List.length (o :: obs)) <= Cbs.MAX_PACKETS ->
  Forall (fun o => fst o <> 0) (o :: obs) ->
  Cbs.first_ts (Spec.capture pcp (o :: obs) s)
  = (if Cbs.first_ts s =? 0 then fst o else Cbs.first_ts s)
  /\ Cbs.last_ts (Spec.capture pcp (o :: obs) s) = fst (List.last obs o).
Proof.
  induction obs as [|o' obs IH]; intros o s Hlen Hnz.
  - cbn [List.length] in Hlen. unfold Spec.capture. cbn [fold_left List.last].
    unfold Cbs.store_append.
    destruct (Z.ltb_spec (Cbs.packet_count s) Cbs.MAX_PACKETS); [|lia].
    split; reflexivity.
  - rewrite capture_cons.
    inversion Hnz as [|? ? Ho Hrest]; subst.
    set (s1 := Cbs.store_append s (fst o) (snd o) pcp).
    assert (H1 : Cbs.packet_count s1 = Cbs.packet_count s + 1
                 /\ Cbs.first_ts s1
                    = (if Cbs.first_ts s =? 0 then fst o else Cbs.first_ts s)).
    { unfold s1, Cbs.store_append. cbn [List.length] in Hlen.
      destruct (Z.ltb_spec (Cbs.packet_count s) Cbs.MAX_PACKETS); [|lia].
      split; reflexivity. }
    destruct H1 as [Hc1 Hf1].
    destruct (IH o' s1) as [Hf Hl]; [|exact Hrest|].
    { rewrite Hc1. cbn [List.length] in Hlen |- *. lia. }
    rewrite Hf, Hl, Hf1. split.
    + destruct (Z.eqb_spec (Cbs.first_ts s) 0) as [E|E].
      * destruct (Z.eqb_spec (fst o) 0); [contradiction|reflexivity].
      * destruct (Z.eqb_spec (Cbs.first_ts s) 0); [contradiction|reflexivity].
    + symmetry. f_equal. apply last_cons.
Qed.

Lemma uniform_nonzero d lens : forall t0, 0 < t0 -> 0 <= d ->
  Forall (fun o => fst o <> 0) (Spec.uniform t0 d lens).
Proof.
  induction lens as [|l r IH]; intros t0 Ht Hd; [constructor|].
  cbn [Spec.uniform]. constructor; [cbn; lia|]. apply IH; lia.
Qed.

Lemma uniform_last_obs d : forall r t l,
  fst (List.last (Spec.uniform (t + d) d r) (t, l)) = t + Z.of_nat (List.length r) * d.
Proof.
  induction r as [|l' r IH]; intros t l.
  - cbn. lia.
  - cbn [Spec.uniform]. rewrite last_cons, IH. cbn [List.length].
    rewrite Nat2Z.inj_succ. lia.
Qed.

(** What [detect_bursts] leaves for 1000 packets [d] apart, [d] within
    the gap threshold. *)
Lemma detect_bursts_uniform pcp t0 d lens :
  List.length lens = 1000%nat ->
  0 < t0 -> t0 + 999 * d < 2 ^ 64 -> 0 <= d <= 500000 ->
  let s := Spec.capture pcp (Spec.uniform t0 d lens) Cbs.tc_zero in
  exists by_ pk,
    Cbs.bursts (Cbs.detect_bursts s) = [Cbs.mk_burst t0 (t0 + 999 * d) by_ pk]
    /\ Cbs.burst_count (Cbs.detect_bursts s) = 1
    /\ Cbs.packet_count (Cbs.detect_bursts s) = 1000
    /\ Cbs.first_ts (Cbs.detect_bursts s) = t0
    /\ Cbs.last_ts (Cbs.detect_bursts s) = t0 + 999 * d.
Proof.
  intros Hlen Ht0 Hend Hd s.
  destruct (capture_fields pcp (Spec.uniform t0 d lens) Cbs.tc_zero)
    as (Hp & Hc & _ & _).
  { rewrite uniform_length, Hlen. vm_compute. discriminate. }
  fold s in Hp, Hc.
  rewrite uniform_length, Hlen in Hc.
  change (Cbs.packet_count Cbs.tc_zero + Z.of_nat 1000) with 1000 in Hc.
  change (Cbs.packets Cbs.tc_zero) with (@nil Cbs.packet_t) in Hp.
  cbn [app] in Hp.
  destruct lens as [|l0 r]; [discriminate|].
  assert (Hr : List.length r = 999%nat) by (cbn in Hlen; lia).
  destruct (capture_first_last pcp (Spec.uniform (t0 + d) d r) (t0, l0)
              Cbs.tc_zero) as [Hfirst Hlast].
  { cbn [List.length]. rewrite uniform_length, Hr. vm_compute. discriminate. }
  { apply (uniform_nonzero d (l0 :: r) t0); lia. }
  change (Spec.capture pcp ((t0, l0) :: Spec.uniform (t0 + d) d r) Cbs.tc_zero)
    with s in Hfirst, Hlast.
  assert (Hfirst' : Cbs.first_ts s = t0) by (rewrite Hfirst; reflexivity).
  assert (Hlast' : Cbs.last_ts s = t0 + 999 * d)
    by (rewrite Hlast, uniform_last_obs, Hr; lia).
  assert (Hstored : Cbs.stored s
            = Spec.stored_packet pcp (t0, l0)
              :: map (Spec.stored_packet pcp) (Spec.uniform (t0 + d) d r)).
  { unfold Cbs.stored. rewrite Hc, Hp. apply firstn_all2.
    cbn [List.length]. rewrite length_map, uniform_length, Hr. lia. }
  unfold Cbs.detect_bursts. rewrite Hc, Hstored. cbn [Z.ltb Z.compare Pos.compare
    Pos.compare_cont].
  destruct (burst_loop_single (Cbs.BURST_GAP_THRESHOLD_US * 1000)
              (map (Spec.stored_packet pcp) (Spec.uniform (t0 + d) d r))
              (Spec.stored_packet pcp (t0, l0))
              (Cbs.burst_open (Spec.stored_packet pcp (t0, l0))) 1)
    as (by_ & pk & E).
  { apply (uniform_gaps pcp (Cbs.BURST_GAP_THRESHOLD_US * 1000) d
             ltac:(unfold Cbs.BURST_GAP_THRESHOLD_US; lia) ltac:(lia)
             (l0 :: r) t0). }
  exists by_, pk. cbv zeta. rewrite E.
  cbn [Cbs.bursts Cbs.burst_count Cbs.packet_count Cbs.first_ts Cbs.last_ts
       List.length Cbs.burst_open Cbs.start_ns Spec.stored_packet Cbs.ts_ns fst].
  repeat split; try assumption; try reflexivity.
  f_equal. f_equal.
  rewrite <- (last_cons (Spec.stored_packet pcp (t0, l0))
                        (Spec.stored_packet pcp (t0, l0))).
  change (Spec.stored_packet pcp (t0, l0)
          :: map (Spec.stored_packet pcp) (Spec.uniform (t0 + d) d r))
    with (map (Spec.stored_packet pcp) (Spec.uniform t0 d (l0 :: r))).
  rewrite uniform_last, Hr. lia.
Qed.

(** C5 (as amended). 1000 observations of any lengths, the first at a
    nonzero time [t0], at a uniform spacing of [k] microseconds, [k] from 1
    to the 500 us gap threshold, the timestamps fitting 64 bits: one burst,
    a burst ratio of 1 within one part in a million, and not shaped. *)
Theorem uniform_spacing_single_burst (pcp t0 k : Z) (lens : list Z) :
  List.length lens = 1000%nat ->
  0 < t0 -> t0 + 999 * (k * 1000) < 2 ^ 64 ->
  1 <= k <= 500 ->
  let tc := Cbs.analyze_cbs (Cbs.detect_bursts
              (Spec.capture pcp (Spec.uniform t0 (k * 1000) lens) Cbs.tc_zero)) in
  Cbs.burst_count tc = 1
  /\ (0.999999 <=? Cbs.burst_ratio tc)%float = true
  /\ (Cbs.burst_ratio tc <=? 1.000001)%float = true
  /\ Cbs.is_shaped tc = false.
Proof.
  intros Hlen Ht0 Hend Hk tc.
  destruct (detect_bursts_uniform pcp t0 (k * 1000) lens Hlen Ht0 Hend
              ltac:(lia)) as (by_ & pk & Hb & Hbc & Hpc & Hf & Hl).
  pose proof (spacing_ok_all k Hk) as Hok. unfold Spec.spacing_ok in Hok.
  apply andb_true_iff in Hok as [Hok Hhi].
  apply andb_true_iff in Hok as [Hpos Hlo].
  apply negb_true_iff in Hpos.
  set (tc1 := Cbs.detect_bursts
                (Spec.capture pcp (Spec.uniform t0 (k * 1000) lens) Cbs.tc_zero))
    in *.
  assert (Hdur : Cbs.total_duration_s tc1
                 = (C.double_of_Z (999 * (k * 1000)) / 1e9)%float).
  { unfold Cbs.total_duration_s. rewrite Hf, Hl.
    replace (t0 + 999 * (k * 1000) - t0) with (999 * (k * 1000)) by lia.
    rewrite u64_small by lia. reflexivity. }
  destruct (analyze_cbs_single_burst tc1 _ ltac:(lia) Hbc Hb) as (H1 & H2 & H3).
  { rewrite Hdur. exact Hpos. }
  assert (Hratio : Cbs.burst_ratio tc = Spec.whole_span_ratio (999 * (k * 1000))).
  { subst tc. rewrite H2, Hdur. cbn [Cbs.end_ns Cbs.start_ns].
    replace (t0 + 999 * (k * 1000) - t0) with (999 * (k * 1000)) by lia.
    rewrite u64_small by lia. reflexivity. }
  rewrite Hratio. repeat split; assumption.
Qed.






(** A class below the packet minimum, without bursts or without a
    positive observed duration is left as it is by the estimator. *)
Lemma analyze_cbs_insufficient tc :
  Cbs.packet_count tc < 10 \/ Cbs.burst_count tc < 1
  \/ (Cbs.total_duration_s tc <=? 0)%float = true ->
  Cbs.analyze_cbs tc = tc.
Proof.
  intros H. unfold Cbs.analyze_cbs.
  destruct (Z.ltb_spec (Cbs.packet_count tc) 10); [reflexivity|].
  destruct (Z.ltb_spec (Cbs.burst_count tc) 1); [reflexivity|].
  cbn [orb]. destruct H as [H|[H|H]]; try lia. rewrite H. reflexivity.
Qed.

(** Classes below the packet minimum are not printed. *)
Lemma small_classes_not_printed link_speed_bps tc_data :
  Forall (fun tc => Cbs.packet_count tc < 10) tc_data ->
  Cbs.print_results_json link_speed_bps tc_data = ([], []).
Proof.
  intros H. unfold Cbs.print_results_json.
  assert (E : forall A (f : Z -> Cbs.tc_analysis_t -> A) i,
            Cbs.for_printed i tc_data f = []).
  { intros A f. induction H as [|tc rest Htc _ IH]; intros i; [reflexivity|].
    cbn [Cbs.for_printed].
    destruct (Z.ltb_spec (Cbs.packet_count tc) 10); [apply IH|lia]. }
  rewrite !E. reflexivity.
Qed.

(** C9, the code at ten observations that share one timestamp. The
    observed duration is zero, so nothing is estimated; the class has ten
    packets, so it is printed all the same, with zero throughput, zero
    idle slope and confidence "low". *)
Theorem zero_duration_class_is_reported :
  let s := Spec.capture 0 (Spec.uniform 1000000000 0 (repeat 100 10)) Cbs.tc_zero in
  let tc := Cbs.detect_bursts s in
  Cbs.packet_count tc = 10
  /\ Cbs.burst_count tc = 1
  /\ (Cbs.total_duration_s tc <=? 0)%float = true
  /\ Cbs.analyze_cbs tc = tc
  /\ Cbs.print_results_json 100000000 (Cbs.analyze_all [s])
     = ([Cbs.mk_tc_report 0 10 1000 0 1 0 0 false 0],
        [Cbs.mk_cbs_config 0 0 (-100000000) 0 (-0) "low"]).
Proof. vm_compute. repeat split; reflexivity. Qed.

End CbsEstimator.

(** 1000 packets of 100 bytes, 500 us apart. *)
Lemma uniform_spacing_single_burst_witness :
  1 <= 500 <= 500
  /\ Cbs.burst_count
       (Cbs.analyze_cbs (Cbs.detect_bursts
          (Spec.capture 0 (Spec.uniform 1000000000 (500 * 1000) (repeat 100 1000))
                        Cbs.tc_zero))) = 1.
Proof.
  split; [lia|].
  refine (proj1 (uniform_spacing_single_burst 0 1000000000 500 (repeat 100 1000)
                   _ _ _ _)).
  - apply repeat_length.
  - lia.
  - lia.
  - lia.
Defined.

(** C5, why the first timestamp must not be 0: the store reads a first
    timestamp of 0 as not yet set and takes the second packet's, so the
    observed duration is one spacing short and the ratio is 999/998. *)
Lemma uniform_from_zero_ratio :
  let tc := Cbs.analyze_cbs (Cbs.detect_bursts
              (Spec.capture 0 (Spec.uniform 0 (500 * 1000) (repeat 100 1000))
                            Cbs.tc_zero)) in
  Cbs.burst_count tc = 1
  /\ Cbs.first_ts tc = 500000
  /\ (Cbs.burst_ratio tc <=? 1.000001)%float = false
  /\ (1.001 <=? Cbs.burst_ratio tc)%float = true.
Proof. vm_compute. repeat split; reflexivity. Qed.

(** C5, why the spacing must not be 0: the observed duration is then 0,
    nothing is estimated and the burst ratio stays 0. *)
Lemma uniform_zero_spacing :
  let tc := Cbs.analyze_cbs (Cbs.detect_bursts
              (Spec.capture 0 (Spec.uniform 1000000000 0 (repeat 100 1000))
                            Cbs.tc_zero)) in
  Cbs.burst_count tc = 1
  /\ Cbs.burst_ratio tc = 0%float
  /\ (0.999999 <=? Cbs.burst_ratio tc)%float = false.
Proof. vm_compute. repeat split; reflexivity. Qed.

(** C5, counterexample to the claim as stated. At 1 ms spacing every gap
    exceeds the 500 us threshold: each packet is a burst of its own, the
    burst ratio is 0 and the class is marked shaped. *)
Lemma uniform_1ms_is_shaped :
  let tc := Cbs.analyze_cbs (Cbs.detect_bursts
              (Spec.capture 0 (Spec.uniform 1000000000 1000000 (repeat 100 1000))
                            Cbs.tc_zero)) in
  Cbs.packet_count tc = 1000
  /\ Cbs.burst_count tc = 1000
  /\ Cbs.burst_ratio tc = 0%float
  /\ Cbs.is_shaped tc = true.
Proof. vm_compute. repeat split; reflexivity. Qed.



(** ** The cycle detector *)

Section CycleDetector.

Lemma score_classes_same_or_small cycle : forall tc_data tc_data' acc,
  Forall2 Spec.same_or_small tc_data tc_data' ->
  Tas.score_classes cycle tc_data acc = Tas.score_classes cycle tc_data' acc.
Proof.
  intros tc_data tc_data' acc H. revert acc.
  induction H as [|a b l l' Hab _ IH]; intros acc; [reflexivity|].
  cbn [Tas.score_classes]. destruct Hab as [[Ha Hb]|<-].
  - destruct (Z.ltb_spec (Tas.packet_count a) 100) as [_|]; [|lia].
    destruct (Z.ltb_spec (Tas.packet_count b) 100) as [_|]; [|lia].
    apply IH.
  - destruct (Tas.packet_count a <? 100); [apply IH|].
    destruct acc as [total_score tc_count]. apply IH.
Qed.

Lemma score_classes_small cycle : forall tc_data acc,
  Forall (fun tc => Tas.packet_count tc < 100) tc_data ->
  Tas.score_classes cycle tc_data acc = acc.
Proof.
  intros tc_data acc H. revert acc.
  induction H as [|tc rest Htc _ IH]; intros acc; [reflexivity|].
  cbn [Tas.score_classes].
  destruct (Z.ltb_spec (Tas.packet_count tc) 100) as [_|]; [apply IH|lia].
Qed.

Lemma fold_try_candidate_small tc_data :
  Forall (fun tc => Tas.packet_count tc < 100) tc_data ->
  forall cycles best,
  fold_left (Tas.try_candidate tc_data) cycles best = best.
Proof.
  intros H. induction cycles as [|c cycles IH]; intros best; [reflexivity|].
  cbn [fold_left]. rewrite <- (IH best) at 2. f_equal.
  unfold Tas.try_candidate, Tas.candidate_score.
  rewrite score_classes_small by assumption. reflexivity.
Qed.

(** C8. Classes with fewer than 100 observations do not enter the score
    of any candidate, nor the detected cycle; and when there is no
    override and no class has 100 observations, the detector returns 0,
    which [main] turns into a failure instead of going on. *)
Theorem no_cycle_without_data (expected_cycle_ms : float)
    (tc_data : list Tas.tc_data_t) :
  (forall tc_data', Forall2 Spec.same_or_small tc_data tc_data' ->
     (forall cycle, Tas.candidate_score cycle tc_data
                    = Tas.candidate_score cycle tc_data')
     /\ Tas.detect_cycle_time expected_cycle_ms tc_data
        = Tas.detect_cycle_time expected_cycle_ms tc_data')
  /\ ((0 <? expected_cycle_ms)%float = false ->
      Forall (fun tc => Tas.packet_count tc < 100) tc_data ->
      Tas.detect_cycle_time expected_cycle_ms tc_data = 0
      /\ Tas.main_analysis expected_cycle_ms tc_data = Tas.Failed 1).
Proof.
  split.
  - intros tc_data' H.
    assert (Hs : forall cycle, Tas.candidate_score cycle tc_data
                               = Tas.candidate_score cycle tc_data').
    { intros cycle. unfold Tas.candidate_score.
      rewrite (score_classes_same_or_small cycle _ _ _ H). reflexivity. }
    split; [exact Hs|].
    unfold Tas.detect_cycle_time.
    assert (Hf : forall cycles best,
              fold_left (Tas.try_candidate tc_data) cycles best
              = fold_left (Tas.try_candidate tc_data') cycles best).
    { induction cycles as [|c cycles IH]; intros best; [reflexivity|].
      cbn [fold_left]. unfold Tas.try_candidate at 2 4.
      rewrite Hs. apply IH. }
    rewrite Hf. reflexivity.
  - intros Hno Hsmall.
    assert (E : Tas.detect_cycle_time expected_cycle_ms tc_data = 0).
    { unfold Tas.detect_cycle_time.
      rewrite fold_try_candidate_small by assumption. rewrite Hno. reflexivity. }
    split; [exact E|]. unfold Tas.main_analysis. rewrite E. reflexivity.
Qed.

End CycleDetector.

(** One class of ten packets and no override: the analysis fails. *)
Lemma no_cycle_without_data_witness :
  ((0 <? 0)%float = false
   /\ Forall (fun tc => Tas.packet_count tc < 100) [Ex.tas_stored Ex.wrap_pkts])
  /\ Tas.main_analysis 0 [Ex.tas_stored Ex.wrap_pkts] = Tas.Failed 1.
Proof.
  assert (H1 : (0 <? 0)%float = false) by reflexivity.
  assert (H2 : Forall (fun tc => Tas.packet_count tc < 100)
                      [Ex.tas_stored Ex.wrap_pkts])
    by (repeat constructor).
  split; [split; assumption|].
  exact (proj2 (proj2 (no_cycle_without_data 0 [Ex.tas_stored Ex.wrap_pkts])
                  H1 H2)).
Defined.

(** * Further properties of tas-estimator.c *)

Section TasHistogram.

Lemma bump_length : forall a i, List.length (C.bump i a) = List.length a.
Proof.
  induction a as [|x a IH]; intros [|i]; cbn; try reflexivity.
  rewrite IH. reflexivity.
Qed.

Lemma bump_sum : forall a i, (i < List.length a)%nat ->
  Spec.sum_bins (C.bump i a) = Spec.sum_bins a + 1.
Proof.
  unfold Spec.sum_bins.
  induction a as [|x a IH]; intros [|i] H; cbn in H; try lia.
  - cbn [C.bump fold_right]. lia.
  - cbn [C.bump fold_right]. rewrite IH by lia. lia.
Qed.

Lemma sum_bins_repeat n : Spec.sum_bins (repeat 0 n) = 0.
Proof.
  unfold Spec.sum_bins. induction n as [|n IH]; cbn; [reflexivity|].
  rewrite IH. reflexivity.
Qed.

(** Every stored packet is counted in exactly one of the [n_bins] bins. *)
Lemma phase_bins_total tc cycle bin_size n_bins : 0 < n_bins ->
  List.length (Tas.phase_bins tc cycle bin_size n_bins) = Z.to_nat n_bins
  /\ Spec.sum_bins (Tas.phase_bins tc cycle bin_size n_bins)
     = Z.of_nat (List.length (Tas.stored tc)).
Proof.
  intros Hn. unfold Tas.phase_bins.
  assert (H : forall pkts bins, List.length bins = Z.to_nat n_bins ->
    let r := fold_left
      (fun bins p =>
         C.bump (Z.to_nat
                   ((C.u64 (Tas.ts_ns p - Tas.first_ts tc) mod cycle / bin_size)
                    mod n_bins)) bins) pkts bins in
    List.length r = Z.to_nat n_bins
    /\ Spec.sum_bins r = Spec.sum_bins bins + Z.of_nat (List.length pkts)).
  { induction pkts as [|p pkts IH]; intros bins Hl; cbn zeta.
    - cbn [fold_left List.length]. split; [exact Hl|]. cbn [Z.of_nat]. lia.
    - cbn [fold_left List.length].
      match goal with
      | |- context [fold_left _ pkts ?b] =>
          destruct (IH b) as [H1 H2]; [rewrite bump_length; exact Hl|]
      end.
      cbn zeta in H1, H2. split; [exact H1|].
      rewrite H2, bump_sum.
      + rewrite Nat2Z.inj_succ. lia.
      + rewrite Hl.
        pose proof (Z.mod_pos_bound
          (C.u64 (Tas.ts_ns p - Tas.first_ts tc) mod cycle / bin_size)
          n_bins Hn). lia. }
  destruct (H (Tas.stored tc) (repeat 0 (Z.to_nat n_bins))) as [H1 H2];
    [apply repeat_length|].
  cbn zeta in H1, H2. rewrite sum_bins_repeat in H2. split; [exact H1|].
  rewrite H2. lia.
Qed.

(** X1. [build_histogram] on a class with at least 10 packets and a nonzero
    cycle fills 2000 bins whose counts add up to the number of packets:
    no packet is lost or counted twice. *)
Theorem build_histogram_total (tc : Tas.tc_data_t) (cycle_ns : Z) :
  Tas.packet_count tc = Z.of_nat (List.length (Tas.packets tc)) ->
  10 <= Tas.packet_count tc -> cycle_ns <> 0 ->
  let tc' := Tas.build_histogram tc cycle_ns in
  Tas.histogram_size tc' = 2000
  /\ List.length (Tas.histogram tc') = 2000%nat
  /\ Spec.sum_bins (Tas.histogram tc') = Tas.packet_count tc
  /\ Tas.packet_count tc' = Tas.packet_count tc.
Proof.
  intros Hcnt Hp Hc tc'. subst tc'. unfold Tas.build_histogram.
  destruct (Z.ltb_spec (Tas.packet_count tc) 10) as [|_]; [lia|].
  destruct (Z.eqb_spec cycle_ns 0) as [|_]; [contradiction|].
  cbn [orb Tas.histogram_size Tas.histogram Tas.packet_count].
  change (if Tas.HISTOGRAM_BINS <? Tas.HISTOGRAM_BINS
          then Tas.HISTOGRAM_BINS else Tas.HISTOGRAM_BINS) with 2000.
  match goal with
  | |- context [Tas.phase_bins tc cycle_ns ?bs 2000] =>
      destruct (phase_bins_total tc cycle_ns bs 2000 ltac:(lia)) as [H1 H2]
  end.
  rewrite H1, H2. repeat split; try reflexivity.
  unfold Tas.stored. rewrite Hcnt, Nat2Z.id, firstn_all. reflexivity.
Qed.

End TasHistogram.

(** A class of ten packets in a 10 ms cycle. *)
Lemma build_histogram_total_witness :
  let tc := Ex.tas_stored Ex.wrap_pkts in
  (Tas.packet_count tc = Z.of_nat (List.length (Tas.packets tc))
   /\ 10 <= Tas.packet_count tc /\ 10000000 <> 0)
  /\ Spec.sum_bins (Tas.histogram (Tas.build_histogram tc 10000000))
     = Tas.packet_count tc.
Proof.
  cbv zeta.
  assert (H1 : Tas.packet_count (Ex.tas_stored Ex.wrap_pkts)
               = Z.of_nat (List.length (Tas.packets (Ex.tas_stored Ex.wrap_pkts))))
    by reflexivity.
  assert (H2 : 10 <= Tas.packet_count (Ex.tas_stored Ex.wrap_pkts))
    by (vm_compute; discriminate).
  assert (H3 : 10000000 <> 0) by discriminate.
  split; [repeat split; assumption|].
  exact (proj1 (proj2 (proj2
           (build_histogram_total (Ex.tas_stored Ex.wrap_pkts) 10000000 H1 H2 H3)))).
Defined.

Section TasWindows.

Lemma windows_separated_snoc gap ws w :
  Spec.windows_separated gap ws ->
  Forall (fun x => Tas.start_offset_ns x + Tas.duration_ns x + gap
                   <= Tas.start_offset_ns w) ws ->
  Spec.windows_separated gap (ws ++ [w]).
Proof.
  induction ws as [|x ws IH]; intros Hs Hall.
  - cbn. split; [constructor|exact I].
  - destruct Hs as [Hx Hs]. inversion Hall as [|? ? Hxw Hall']; subst.
    cbn [app Spec.windows_separated]. split.
    + apply Forall_app. split; [exact Hx|]. constructor; [exact Hxw|constructor].
    + apply IH; assumption.
Qed.

Lemma window_before_mono bin_size tc_idx l l' w :
  l <= l' -> Spec.window_before bin_size tc_idx l w ->
  Spec.window_before bin_size tc_idx l' w.
Proof. unfold Spec.window_before. intuition lia. Qed.

(** One step of the scan keeps the invariant. *)
Lemma scan_step_inv threshold bin_size tc_idx st i v :
  0 <= bin_size -> 0 <= i -> i * bin_size < 2 ^ 64 ->
  Spec.scan_inv bin_size tc_idx st i ->
  Spec.scan_inv bin_size tc_idx
    (Tas.scan_step threshold bin_size tc_idx st i v) (i + 1).
Proof.
  intros Hbs Hi Hmax (Hin & Hall & Hsep & Hlen). unfold Tas.scan_step.
  destruct (threshold <=? v) eqn:Ht; destruct (Tas.in_window st) eqn:Hw;
    cbn [andb negb].
  - (* inside a window, traffic goes on *)
    unfold Spec.scan_inv. rewrite Hw. specialize (Hin eq_refl).
    repeat split; try assumption; try lia.
  - (* a window opens at [i] *)
    unfold Spec.scan_inv. cbn [Tas.in_window Tas.window_start Tas.ws].
    repeat split; try assumption; try lia.
  - (* the window closes at [i] *)
    specialize (Hin eq_refl).
    assert (Hs : C.u64 (Tas.window_start st * bin_size)
                 = Tas.window_start st * bin_size) by (apply u64_small; nia).
    assert (Hd : C.u64 ((i - Tas.window_start st) * bin_size)
                 = (i - Tas.window_start st) * bin_size)
      by (apply u64_small; nia).
    unfold Spec.scan_inv. cbn [Tas.in_window Tas.window_start Tas.ws].
    split; [discriminate|].
    assert (Hold : Forall (Spec.window_before bin_size tc_idx ((i + 1) * bin_size))
                          (Tas.ws st)).
    { eapply Forall_impl; [|exact Hall]. intros w.
      apply window_before_mono. nia. }
    destruct (Z.ltb_spec (Z.of_nat (List.length (Tas.ws st))) Tas.MAX_WINDOWS)
      as [Hroom|Hfull]; [|repeat split; assumption].
    unfold Tas.MAX_WINDOWS in Hroom. rewrite Hs, Hd.
    split; [|split].
    + apply Forall_app. split; [exact Hold|]. constructor; [|constructor].
      unfold Spec.window_before.
      cbn [Tas.tc Tas.start_offset_ns Tas.duration_ns].
      repeat split; try nia.
      * exists (Tas.window_start st). reflexivity.
      * exists (i - Tas.window_start st). reflexivity.
    + apply windows_separated_snoc; [exact Hsep|].
      eapply Forall_impl; [|exact Hall]. intros w (_ & _ & _ & _ & _ & Hw').
      cbn [Tas.start_offset_ns]. exact Hw'.
    + rewrite length_app. cbn [List.length]. lia.
  - (* outside a window, no traffic *)
    unfold Spec.scan_inv. rewrite Hw. split; [discriminate|].
    split; [|split; assumption].
    eapply Forall_impl; [|exact Hall]. intros w.
    apply window_before_mono. nia.
Qed.

Lemma scan_bins_inv threshold bin_size tc_idx n : 0 <= bin_size ->
  (n - 1) * bin_size < 2 ^ 64 ->
  forall bins st i,
  0 <= i -> i + Z.of_nat (List.length bins) <= n ->
  Spec.scan_inv bin_size tc_idx st i ->
  Spec.scan_inv bin_size tc_idx
    (Tas.scan_bins threshold bin_size tc_idx st i bins)
    (i + Z.of_nat (List.length bins)).
Proof.
  intros Hbs Hn. induction bins as [|v bins IH]; intros st i Hi Hlen Hinv.
  - cbn [Tas.scan_bins List.length Z.of_nat]. rewrite Z.add_0_r. exact Hinv.
  - cbn [Tas.scan_bins List.length] in Hlen |- *.
    rewrite Nat2Z.inj_succ in Hlen |- *.
    replace (i + Z.succ (Z.of_nat (List.length bins)))
      with ((i + 1) + Z.of_nat (List.length bins)) by lia.
    apply IH; [lia|lia|].
    apply scan_step_inv; try assumption. nia.
Qed.

(** Shape of the windows found by the scan. *)
Lemma detect_windows_scan_shape (tc : Tas.tc_data_t) (cycle_ns tc_idx : Z) :
  0 < Tas.histogram_size tc -> 10 <= Tas.packet_count tc ->
  0 <= cycle_ns < 2 ^ 64 ->
  let tc' := Tas.detect_windows tc cycle_ns tc_idx in
  let bin_size := cycle_ns / Tas.histogram_size tc in
  Tas.window_count tc' = Z.of_nat (List.length (Tas.windows tc'))
  /\ Tas.window_count tc' <= 16
  /\ Forall (fun w => Tas.tc w = tc_idx
                      /\ 0 <= Tas.start_offset_ns w
                      /\ (bin_size | Tas.start_offset_ns w)
                      /\ (bin_size | Tas.duration_ns w)
                      /\ bin_size <= Tas.duration_ns w
                      /\ Tas.start_offset_ns w + Tas.duration_ns w <= cycle_ns)
            (Tas.windows tc')
  /\ Spec.windows_separated bin_size (Tas.windows tc').
Proof.
  intros Hh Hp Hc tc' bin_size.
  destruct (detect_windows_scan_only tc cycle_ns tc_idx ltac:(lia) Hp)
    as [Hws Hcount].
  fold tc' in Hws, Hcount. fold bin_size in Hws, Hcount.
  set (bins := firstn (Z.to_nat (Tas.histogram_size tc)) (Tas.histogram tc) ++ [0])
    in *.
  set (threshold := Tas.window_threshold (Tas.packet_count tc)
                      (Tas.histogram_size tc)) in *.
  assert (Hbs : 0 <= bin_size) by (apply Z.div_pos; lia).
  assert (Hmul : Tas.histogram_size tc * bin_size <= cycle_ns)
    by (apply Z.mul_div_le; lia).
  assert (Hbl : Z.of_nat (List.length bins) <= Tas.histogram_size tc + 1).
  { unfold bins. rewrite length_app. cbn [List.length].
    pose proof (firstn_le_length (Z.to_nat (Tas.histogram_size tc))
                  (Tas.histogram tc)). lia. }
  assert (Hclosed : Tas.in_window
            (Tas.scan_bins threshold bin_size tc_idx (Tas.mk_scan false 0 []) 0 bins)
            = false)
    by (apply scan_bins_closes, window_threshold_pos).
  pose proof (scan_bins_inv threshold bin_size tc_idx
                (Tas.histogram_size tc + 1) Hbs ltac:(nia) bins
                (Tas.mk_scan false 0 []) 0 ltac:(lia) ltac:(lia)) as Hinv.
  destruct Hinv as (_ & Hall & Hsep & Hlen).
  { unfold Spec.scan_inv. cbn [Tas.in_window Tas.ws List.length].
    repeat split; try constructor; try discriminate; lia. }
  rewrite Hclosed in Hall. rewrite Hws, Hcount.
  repeat split; try assumption; try lia.
  eapply Forall_impl; [|exact Hall].
  intros w (H1 & H2 & H3 & H4 & H5 & H6). repeat split; try assumption. nia.
Qed.

(** X2. The windows [detect_windows] reports for a class: at most 16, each
    tagged with the class, aligned to the bins and at least one bin long,
    lying inside the cycle (start + duration <= cycle, so none wraps), in
    increasing order with at least one bin between two of them. *)
Theorem detect_windows_shape (tc : Tas.tc_data_t) (cycle_ns tc_idx : Z) :
  0 < Tas.histogram_size tc -> 10 <= Tas.packet_count tc ->
  0 <= cycle_ns < 2 ^ 64 ->
  let tc' := Tas.detect_windows tc cycle_ns tc_idx in
  let bin_size := cycle_ns / Tas.histogram_size tc in
  Tas.window_count tc' = Z.of_nat (List.length (Tas.windows tc'))
  /\ Tas.window_count tc' <= 16
  /\ Forall (fun w => Tas.tc w = tc_idx
                      /\ 0 <= Tas.start_offset_ns w
                      /\ (bin_size | Tas.start_offset_ns w)
                      /\ (bin_size | Tas.duration_ns w)
                      /\ bin_size <= Tas.duration_ns w
                      /\ Tas.start_offset_ns w + Tas.duration_ns w <= cycle_ns)
            (Tas.windows tc')
  /\ Spec.windows_separated bin_size (Tas.windows tc').
Proof.
  intros Hh Hp Hc. exact (detect_windows_scan_shape tc cycle_ns tc_idx Hh Hp Hc).
Qed.

End TasWindows.

(** The class of scenario C4: ten packets around the cycle boundary. *)
Lemma detect_windows_shape_witness :
  let tc := Tas.build_histogram (Ex.tas_stored Ex.wrap_pkts) 10000000 in
  (0 < Tas.histogram_size tc /\ 10 <= Tas.packet_count tc
   /\ 0 <= 10000000 < 2 ^ 64)
  /\ Tas.window_count (Tas.detect_windows tc 10000000 0) <= 16.
Proof.
  cbv zeta.
  set (tc := Tas.build_histogram (Ex.tas_stored Ex.wrap_pkts) 10000000).
  assert (H1 : 0 < Tas.histogram_size tc) by (vm_compute; reflexivity).
  assert (H2 : 10 <= Tas.packet_count tc) by (vm_compute; discriminate).
  assert (H3 : 0 <= 10000000 < 2 ^ 64) by lia.
  split; [repeat split; try assumption; lia|].
  exact (proj1 (proj2 (detect_windows_shape tc 10000000 0 H1 H2 H3))).
Defined.

Section TasGcl.

(** X3. The exchange sort of [build_gcl] returns the events it was given,
    each as often as before, in non-decreasing order of time. *)
Theorem sort_events_sorted_permutation (events : list Tas.event_t) :
  Permutation (Tas.sort_events events) events
  /\ Spec.time_sorted (Tas.sort_events events)
  /\ List.length (Tas.sort_events events) = List.length events.
Proof.
  destruct (sort_events_spec events) as [Hp Hs].
  repeat split; [exact Hp|exact Hs|apply Permutation_length; exact Hp].
Qed.

Lemma u8_range x : 0 <= C.u8 x < 2 ^ 8.
Proof. unfold C.u8. apply Z.mod_pos_bound. lia. Qed.

Lemma u32_range x : 0 <= C.u32 x < 2 ^ 32.
Proof. unfold C.u32. apply Z.mod_pos_bound. lia. Qed.

Lemma initial_gates_range cycle_ns tc_data :
  0 <= Tas.initial_gates cycle_ns tc_data < 2 ^ 8.
Proof.
  unfold Tas.initial_gates.
  assert (H : forall l g, 0 <= g < 2 ^ 8 ->
            0 <= fold_left Tas.set_gate l g < 2 ^ 8).
  { induction l as [|t l IH]; intros g Hg; [exact Hg|].
    cbn [fold_left]. apply IH. apply u8_range. }
  apply H. lia.
Qed.

Lemma apply_event_range g ev : 0 <= Tas.apply_event g ev < 2 ^ 8.
Proof. unfold Tas.apply_event. destruct (Tas.is_start ev); apply u8_range. Qed.

Lemma sweep_bounded : forall events prev st,
  (List.length (Tas.gcl st) <= 64)%nat ->
  Forall Spec.entry_fits (Tas.gcl st) ->
  0 <= Tas.current_gates st < 2 ^ 8 ->
  (List.length (Tas.gcl (Tas.sweep prev events st)) <= 64)%nat
  /\ Forall Spec.entry_fits (Tas.gcl (Tas.sweep prev events st))
  /\ 0 <= Tas.current_gates (Tas.sweep prev events st) < 2 ^ 8.
Proof.
  induction events as [|ev rest IH]; intros prev st Hlen Hfit Hg.
  - cbn [Tas.sweep]. repeat split; assumption || lia.
  - cbn [Tas.sweep].
    destruct (Z.ltb_spec (Tas.gcl_size st) Tas.MAX_GCL_ENTRIES) as [Hroom|Hfull];
      cbn [negb]; [|repeat split; assumption || lia].
    unfold Tas.gcl_size, Tas.MAX_GCL_ENTRIES in Hroom.
    assert (Hemit : forall t,
      (List.length (Tas.gcl (Tas.emit st t)) <= 64)%nat
      /\ Forall Spec.entry_fits (Tas.gcl (Tas.emit st t))).
    { intros t. cbn [Tas.emit Tas.gcl]. rewrite length_app. cbn [List.length].
      split; [lia|]. apply Forall_app. split; [exact Hfit|].
      constructor; [|constructor]. split; cbn; [exact Hg|apply u32_range]. }
    destruct (match prev with Some t => Tas.time ev =? t | None => false end);
      [apply IH; cbn [Tas.gcl Tas.current_gates];
       [assumption|assumption|apply apply_event_range]|].
    destruct (Tas.last_time st <? Tas.time ev).
    + destruct (Hemit (Tas.time ev)) as [H1 H2].
      apply IH; cbn [Tas.gcl Tas.current_gates];
        [exact H1|exact H2|apply apply_event_range].
    + apply IH; cbn [Tas.gcl Tas.current_gates];
        [assumption|assumption|apply apply_event_range].
Qed.

Lemma merge_loop_bounded entries : forall merged_rev,
  Forall Spec.entry_fits merged_rev -> Forall Spec.entry_fits entries ->
  (List.length (Tas.merge_loop merged_rev entries)
   <= List.length merged_rev + List.length entries)%nat
  /\ Forall Spec.entry_fits (Tas.merge_loop merged_rev entries).
Proof.
  induction entries as [|e rest IH]; intros acc Hacc Hent.
  - cbn [Tas.merge_loop]. rewrite length_rev. split; [cbn; lia|].
    apply Forall_rev. exact Hacc.
  - inversion Hent as [|? ? He Hrest]; subst. cbn [Tas.merge_loop List.length].
    destruct acc as [|m before].
    + destruct (IH [e]) as [H1 H2]; [repeat constructor; apply He|exact Hrest|].
      cbn [List.length] in H1. split; [lia|exact H2].
    + inversion Hacc as [|? ? Hm Hbefore]; subst.
      destruct (Tas.gate_states m =? Tas.gate_states e).
      * destruct (IH (Tas.mk_gcl (Tas.gate_states m)
                        (C.u32 (Tas.time_ns m + Tas.time_ns e)) :: before))
          as [H1 H2]; [|exact Hrest|].
        { constructor; [|exact Hbefore]. split; cbn; [apply Hm|apply u32_range]. }
        cbn [List.length] in H1 |- *. split; [lia|exact H2].
      * destruct (IH (e :: m :: before)) as [H1 H2];
          [constructor; assumption|exact Hrest|].
        cbn [List.length] in H1 |- *. split; [lia|exact H2].
Qed.

(** The list fits the array and the fields of its entries. *)
Lemma build_gcl_entries_fit (cycle_ns : Z) (tc_data : list Tas.tc_data_t) :
  (List.length (Tas.build_gcl cycle_ns tc_data) <= 64)%nat
  /\ Forall Spec.entry_fits (Tas.build_gcl cycle_ns tc_data).
Proof.
  unfold Tas.build_gcl.
  set (events := Tas.sort_events (Tas.collect_events cycle_ns tc_data)).
  set (st0 := Tas.mk_sweep (Tas.initial_gates cycle_ns tc_data) 0 []).
  destruct (sweep_bounded events None st0) as (Hlen & Hfit & Hg);
    [cbn; lia|constructor|apply initial_gates_range|].
  set (st := Tas.sweep None events st0) in *.
  assert (Hc : (List.length (Tas.complete_cycle cycle_ns st) <= 64)%nat
               /\ Forall Spec.entry_fits (Tas.complete_cycle cycle_ns st)).
  { unfold Tas.complete_cycle.
    destruct (Tas.last_time st <? cycle_ns); cbn [andb];
      [|split; assumption].
    destruct (Z.ltb_spec (Tas.gcl_size st) Tas.MAX_GCL_ENTRIES) as [Hroom|];
      [|split; assumption].
    unfold Tas.gcl_size, Tas.MAX_GCL_ENTRIES in Hroom.
    cbn [Tas.emit Tas.gcl]. rewrite length_app. cbn [List.length].
    split; [lia|]. apply Forall_app. split; [exact Hfit|].
    constructor; [|constructor]. split; cbn; [exact Hg|apply u32_range]. }
  destruct Hc as [Hcl Hcf].
  destruct (merge_loop_bounded (Tas.complete_cycle cycle_ns st) [])
    as [H1 H2]; [constructor|exact Hcf|].
  cbn [List.length] in H1. split; [lia|exact H2].
Qed.

(** X4. Whatever the windows and the cycle, [build_gcl] leaves at most 64
    entries, each with a mask below 256 and a duration below 2^32: the
    list never outgrows [estimated_gcl] nor its fields. *)
Theorem build_gcl_bounded (cycle_ns : Z) (tc_data : list Tas.tc_data_t) :
  (List.length (Tas.build_gcl cycle_ns tc_data) <= 64)%nat
  /\ Forall Spec.entry_fits (Tas.build_gcl cycle_ns tc_data).
Proof. exact (build_gcl_entries_fit cycle_ns tc_data). Qed.

Lemma for_windows_nil {A} (f : Z -> Tas.gate_window_t -> list A) :
  forall tc_data t,
  Forall (fun tc => Tas.active_windows tc = []) tc_data ->
  Tas.for_windows t tc_data f = [].
Proof.
  induction tc_data as [|tc rest IH]; intros t H; [reflexivity|].
  inversion H as [|? ? Htc Hrest]; subst.
  cbn [Tas.for_windows]. rewrite Htc, IH by assumption. reflexivity.
Qed.

(** X5. When no class has a window, [build_gcl] yields a single entry with
    every gate closed for the whole cycle. *)
Theorem build_gcl_no_windows (cycle_ns : Z) (tc_data : list Tas.tc_data_t) :
  Forall (fun tc => Tas.active_windows tc = []) tc_data ->
  0 < cycle_ns < 2 ^ 32 ->
  Tas.build_gcl cycle_ns tc_data = [Tas.mk_gcl 0 cycle_ns].
Proof.
  intros H Hc. unfold Tas.build_gcl, Tas.collect_events, Tas.initial_gates.
  rewrite !for_windows_nil by assumption.
  cbn [Tas.sort_events Tas.sort_from List.length Nat.sub fold_left Tas.sweep].
  unfold Tas.complete_cycle, Tas.gcl_size.
  cbn [Tas.last_time Tas.gcl List.length Z.of_nat].
  destruct (Z.ltb_spec 0 cycle_ns) as [_|]; [|lia].
  cbn [andb Tas.MAX_GCL_ENTRIES Z.ltb Z.compare Tas.emit Tas.gcl
       Tas.current_gates Tas.last_time app Tas.merge_loop rev].
  rewrite Z.sub_0_r, u32_small by lia. reflexivity.
Qed.

End TasGcl.

(** Eight classes as [memset] leaves them, in a 10 ms cycle. *)
Lemma build_gcl_no_windows_witness :
  (Forall (fun tc => Tas.active_windows tc = []) Ex.no_windows
   /\ 0 < 10000000 < 2 ^ 32)
  /\ Tas.build_gcl 10000000 Ex.no_windows = [Tas.mk_gcl 0 10000000].
Proof.
  assert (H1 : Forall (fun tc => Tas.active_windows tc = []) Ex.no_windows)
    by (repeat constructor).
  assert (H2 : 0 < 10000000 < 2 ^ 32) by lia.
  split; [split; assumption|].
  exact (build_gcl_no_windows 10000000 Ex.no_windows H1 H2).
Defined.

Section TasAnalysis.

Lemma fold_try_candidate_in tc_data : forall cycles best,
  snd (fold_left (Tas.try_candidate tc_data) cycles best) = snd best
  \/ In (snd (fold_left (Tas.try_candidate tc_data) cycles best)) cycles.
Proof.
  induction cycles as [|c cycles IH]; intros best; [left; reflexivity|].
  cbn [fold_left].
  destruct (IH (Tas.try_candidate tc_data best c)) as [H|H];
    [|right; right; exact H].
  rewrite H. unfold Tas.try_candidate.
  destruct (Tas.candidate_score c tc_data) as [score|]; [|left; reflexivity].
  destruct (fst best <? score)%float; [right; left|left]; reflexivity.
Qed.

(** X6. Without an override [detect_cycle_time] returns 0 or one of its
    eleven candidates, so at most 500 ms; with an override it returns the
    same value whatever was captured. *)
Theorem detect_cycle_time_result (expected_cycle_ms : float)
    (tc_data : list Tas.tc_data_t) :
  ((0 <? expected_cycle_ms)%float = false ->
     (Tas.detect_cycle_time expected_cycle_ms tc_data = 0
      \/ In (Tas.detect_cycle_time expected_cycle_ms tc_data)
            Tas.candidate_cycles)
     /\ 0 <= Tas.detect_cycle_time expected_cycle_ms tc_data <= 500000000)
  /\ ((0 <? expected_cycle_ms)%float = true ->
      forall tc_data',
      Tas.detect_cycle_time expected_cycle_ms tc_data
      = Tas.detect_cycle_time expected_cycle_ms tc_data')
  /\ 0 <= Tas.detect_cycle_time expected_cycle_ms tc_data < 2 ^ 64.
Proof.
  assert (Hno : (0 <? expected_cycle_ms)%float = false ->
    Tas.detect_cycle_time expected_cycle_ms tc_data = 0
    \/ In (Tas.detect_cycle_time expected_cycle_ms tc_data) Tas.candidate_cycles).
  { intros He. unfold Tas.detect_cycle_time. rewrite He.
    pose proof (fold_try_candidate_in tc_data Tas.candidate_cycles (0%float, 0))
      as H.
    destruct (fold_left (Tas.try_candidate tc_data) Tas.candidate_cycles
                (0%float, 0)) as [s c].
    exact H. }
  assert (Hrange : forall c, c = 0 \/ In c Tas.candidate_cycles ->
            0 <= c <= 500000000).
  { intros c [->|H]; [lia|]. cbn in H.
    repeat (destruct H as [<-|H]; [lia|]). contradiction. }
  split; [|split].
  - intros He. split; [apply Hno; exact He|apply Hrange, Hno; exact He].
  - intros He tc_data'. unfold Tas.detect_cycle_time. rewrite He.
    destruct (fold_left (Tas.try_candidate tc_data) _ _),
             (fold_left (Tas.try_candidate tc_data') _ _). reflexivity.
  - destruct (0 <? expected_cycle_ms)%float eqn:He.
    + unfold Tas.detect_cycle_time. rewrite He.
      destruct (fold_left (Tas.try_candidate tc_data) _ _).
      unfold C.u64. apply Z.mod_pos_bound. lia.
    + pose proof (Hrange _ (Hno eq_refl)). lia.
Qed.

Lemma detect_cycle_time_result_aux expected_cycle_ms tc_data :
  ((0 <? expected_cycle_ms)%float = false ->
   Tas.detect_cycle_time expected_cycle_ms tc_data <= 500000000)
  /\ 0 <= Tas.detect_cycle_time expected_cycle_ms tc_data < 2 ^ 64.
Proof.
  assert (Hno : (0 <? expected_cycle_ms)%float = false ->
    0 <= Tas.detect_cycle_time expected_cycle_ms tc_data <= 500000000).
  { intros He. unfold Tas.detect_cycle_time. rewrite He.
    pose proof (fold_try_candidate_in tc_data Tas.candidate_cycles (0%float, 0))
      as H.
    destruct (fold_left (Tas.try_candidate tc_data) Tas.candidate_cycles
                (0%float, 0)) as [s c].
    cbn [snd] in H. destruct H as [->|H]; [lia|]. cbn in H.
    repeat (destruct H as [<-|H]; [lia|]). contradiction. }
  split; [intros He; apply Hno; exact He|].
  destruct (0 <? expected_cycle_ms)%float eqn:He.
  - unfold Tas.detect_cycle_time. rewrite He.
    destruct (fold_left (Tas.try_candidate tc_data) _ _).
    unfold C.u64. apply Z.mod_pos_bound. lia.
  - specialize (Hno eq_refl). lia.
Qed.

(** The sum of the durations, as in the proof for the builder. *)
Lemma build_gcl_sum cycle_ns tc_data :
  0 < cycle_ns < 2 ^ 32 ->
  Spec.windows_in_cycle cycle_ns tc_data ->
  Spec.boundary_count cycle_ns tc_data <= 63 ->
  Spec.sum_time (Tas.build_gcl cycle_ns tc_data) = cycle_ns.
Proof.
  intros Hc Hw Hn. unfold Tas.build_gcl.
  set (events := Tas.sort_events (Tas.collect_events cycle_ns tc_data)).
  destruct (sort_events_spec (Tas.collect_events cycle_ns tc_data))
    as [Hperm Hsorted]. fold events in Hperm, Hsorted.
  assert (Hrange : Forall (fun ev => 0 <= Tas.time ev < cycle_ns) events).
  { eapply Permutation_Forall; [symmetry; exact Hperm|].
    apply collect_events_in_cycle; [lia|assumption]. }
  assert (Hlen : (List.length (Spec.later 0 events) <= 63)%nat).
  { rewrite (later_permutation 0 _ _ Hperm).
    unfold Spec.boundary_count in Hn. lia. }
  set (st0 := Tas.mk_sweep (Tas.initial_gates cycle_ns tc_data) 0 []).
  destruct (sweep_spec cycle_ns ltac:(lia) events None st0)
    as (Hsum & Hlast & Hnn & Hsize);
    try (cbn [st0 Tas.last_time Tas.gcl List.length]; first
           [assumption | lia | constructor | reflexivity]).
  set (st := Tas.sweep None events st0) in *.
  assert (Hu : C.u32 (cycle_ns - Tas.last_time st)
               = cycle_ns - Tas.last_time st) by (apply u32_small; lia).
  unfold Tas.complete_cycle.
  destruct (Z.ltb_spec (Tas.last_time st) cycle_ns); [|lia].
  destruct (Z.ltb_spec (Tas.gcl_size st) Tas.MAX_GCL_ENTRIES) as [_|Hge];
    [|unfold Tas.gcl_size, Tas.MAX_GCL_ENTRIES in Hge; lia].
  cbn [andb Tas.emit Tas.gcl]. rewrite Hu.
  assert (Htot : Spec.sum_time
            (Tas.gcl st ++ [Tas.mk_gcl (Tas.current_gates st)
                                       (cycle_ns - Tas.last_time st)])
          = cycle_ns).
  { rewrite sum_time_app, Hsum. unfold Spec.sum_time.
    cbn [fold_right Tas.time_ns]. lia. }
  rewrite merge_loop_sum.
  - rewrite Htot. reflexivity.
  - constructor.
  - apply Forall_app; split; [assumption|].
    repeat constructor. cbn [Tas.time_ns]. lia.
  - rewrite Htot. cbn. lia.
Qed.

(** The windows found by the analysis pass lie within the cycle. *)
Lemma analyze_classes_in_cycle cycle_ns : 0 < cycle_ns < 2 ^ 64 ->
  forall tc_data t,
  Forall (fun tc => Tas.window_count tc = 0) tc_data ->
  Spec.windows_in_cycle cycle_ns (Tas.analyze_classes cycle_ns t tc_data).
Proof.
  intros Hc. induction tc_data as [|tc rest IH]; intros t H; [constructor|].
  inversion H as [|? ? Htc Hrest]; subst.
  cbn [Tas.analyze_classes]. constructor; [|apply IH; exact Hrest].
  destruct (Z.ltb_spec (Tas.packet_count tc) 10) as [Hsmall|Hbig].
  - assert (E : Tas.detect_windows (Tas.build_histogram tc cycle_ns) cycle_ns t
                = tc).
    { unfold Tas.build_histogram.
      destruct (Z.ltb_spec (Tas.packet_count tc) 10) as [_|]; [|lia].
      cbn [orb]. unfold Tas.detect_windows.
      destruct (Z.ltb_spec (Tas.packet_count tc) 10) as [_|]; [|lia].
      rewrite orb_true_r. reflexivity. }
    rewrite E. unfold Tas.active_windows. rewrite Htc. constructor.
  - set (tc1 := Tas.build_histogram tc cycle_ns).
    assert (H1 : Tas.histogram_size tc1 = 2000 /\ Tas.packet_count tc1
                 = Tas.packet_count tc).
    { unfold tc1, Tas.build_histogram.
      destruct (Z.ltb_spec (Tas.packet_count tc) 10) as [|_]; [lia|].
      destruct (Z.eqb_spec cycle_ns 0) as [|_]; [lia|].
      split; reflexivity. }
    destruct H1 as [Hh Hp].
    destruct (detect_windows_scan_shape tc1 cycle_ns t ltac:(lia) ltac:(lia)
                ltac:(lia)) as (Hcount & _ & Hall & _).
    unfold Tas.active_windows. rewrite Hcount, Nat2Z.id, firstn_all.
    eapply Forall_impl; [|exact Hall].
    intros w (_ & Hs & [k Hk] & _ & Hd & He).
    rewrite Hh in Hk, Hd. unfold Spec.window_in_cycle.
    assert (0 <= cycle_ns / 2000) by (apply Z.div_pos; lia).
    destruct (Z.eq_dec (cycle_ns / 2000) 0) as [E0|Hpos].
    + rewrite E0 in Hk. lia.
    + lia.
Qed.

(** X7. When [main] gets past cycle detection on freshly captured classes,
    the cycle is nonzero, every window it found lies within the cycle, and
    (the cycle below 2^32 ns, at most 63 distinct boundaries) the durations
    of the printed list add up to the cycle; without an override the cycle
    is always below 2^32 ns. *)
Theorem main_analysis_gcl (expected_cycle_ms : float)
    (tc_data tc_data' : list Tas.tc_data_t) (cycle_ns : Z)
    (gcl : list Tas.gcl_entry_t) :
  Forall (fun tc => Tas.window_count tc = 0) tc_data ->
  Tas.main_analysis expected_cycle_ms tc_data
  = Tas.Estimated cycle_ns tc_data' gcl ->
  0 < cycle_ns < 2 ^ 64
  /\ cycle_ns = Tas.detect_cycle_time expected_cycle_ms tc_data
  /\ ((0 <? expected_cycle_ms)%float = false -> cycle_ns < 2 ^ 32)
  /\ Spec.windows_in_cycle cycle_ns tc_data'
  /\ gcl = Tas.build_gcl cycle_ns tc_data'
  /\ (cycle_ns < 2 ^ 32 -> Spec.boundary_count cycle_ns tc_data' <= 63 ->
      Spec.sum_time gcl = cycle_ns).
Proof.
  intros Hfresh Hmain. unfold Tas.main_analysis in Hmain.
  destruct (detect_cycle_time_result_aux expected_cycle_ms tc_data)
    as [Hsmall Hr].
  destruct (Z.eqb_spec (Tas.detect_cycle_time expected_cycle_ms tc_data) 0)
    as [|Hnz]; [discriminate|].
  inversion Hmain; subst. clear Hmain.
  set (c := Tas.detect_cycle_time expected_cycle_ms tc_data) in *.
  assert (Hc : 0 < c < 2 ^ 64) by lia.
  assert (Hw : Spec.windows_in_cycle c (Tas.analyze_classes c 0 tc_data))
    by (apply analyze_classes_in_cycle; assumption).
  repeat split; try lia; try assumption.
  - intros He. specialize (Hsmall He). lia.
  - intros Hc32 Hb. apply build_gcl_sum; [lia|exact Hw|exact Hb].
Qed.

End TasAnalysis.

(** * Further properties of the burst segmenters *)

Section BurstAccounting.

Lemma large_gaps_bounds thr : forall ps,
  0 <= Spec.large_gaps thr ps
  /\ Spec.large_gaps thr ps <= Z.max 0 (Z.of_nat (List.length ps) - 1).
Proof.
  induction ps as [|p [|q r] IH]; [cbn; lia|cbn; lia|].
  change (Spec.large_gaps thr (p :: q :: r))
    with ((if C.u64 (Cbs.ts_ns q - Cbs.ts_ns p) >? thr then 1 else 0)
          + Spec.large_gaps thr (q :: r)).
  cbn [List.length] in IH |- *.
  destruct (C.u64 (Cbs.ts_ns q - Cbs.ts_ns p) >? thr); lia.
Qed.

Lemma large_gaps_cons thr p q r :
  Spec.large_gaps thr (p :: q :: r)
  = (if C.u64 (Cbs.ts_ns q - Cbs.ts_ns p) >? thr then 1 else 0)
    + Spec.large_gaps thr (q :: r).
Proof. reflexivity. Qed.

(** The loop opens one burst per large gap until the array is full. *)
Lemma burst_loop_length thr : forall rest prev b n,
  1 <= n <= Cbs.MAX_BURSTS ->
  Z.of_nat (List.length (Cbs.burst_loop thr prev b n rest))
  = Z.min (Cbs.MAX_BURSTS - n + 1) (1 + Spec.large_gaps thr (prev :: rest)).
Proof.
  induction rest as [|p rest IH]; intros prev b n Hn.
  - cbn [Cbs.burst_loop List.length Spec.large_gaps]. lia.
  - cbn [Cbs.burst_loop]. rewrite large_gaps_cons.
    pose proof (large_gaps_bounds thr (p :: rest)) as [Hg _].
    destruct (C.u64 (Cbs.ts_ns p - Cbs.ts_ns prev) >? thr).
    + destruct (Z.ltb_spec n Cbs.MAX_BURSTS) as [Hlt|Hge]; cbn [andb].
      * cbn [List.length]. rewrite Nat2Z.inj_succ, IH by lia. lia.
      * rewrite IH by lia. lia.
    + cbn [andb]. rewrite IH by lia. lia.
Qed.

(** Every packet and every byte goes to exactly one burst, whatever the
    order of the timestamps. *)
Lemma burst_loop_account thr : forall rest prev b n,
  Forall (fun p => 0 <= Cbs.len p) rest ->
  1 <= Cbs.bpackets b -> 0 <= Cbs.bytes b ->
  Cbs.bpackets b + Z.of_nat (List.length rest) < 2 ^ 32 ->
  Cbs.bytes b + Spec.sum_len rest < 2 ^ 32 ->
  Spec.covered (Cbs.burst_loop thr prev b n rest)
  = Cbs.bpackets b + Z.of_nat (List.length rest)
  /\ Spec.sum_bytes (Cbs.burst_loop thr prev b n rest)
     = Cbs.bytes b + Spec.sum_len rest
  /\ Forall (fun b' => 1 <= Cbs.bpackets b') (Cbs.burst_loop thr prev b n rest).
Proof.
  induction rest as [|p rest IH]; intros prev b n Hlen Hb Hy Hc Hs.
  - cbn. repeat split; try lia. repeat constructor. cbn. lia.
  - inversion Hlen as [|? ? Hp Hrest]; subst.
    assert (Hsl : 0 <= Spec.sum_len rest).
    { clear -Hrest. induction Hrest as [|q r Hq _ IH]; [cbn; lia|].
      change (Spec.sum_len (q :: r)) with (Cbs.len q + Spec.sum_len r). lia. }
    change (Spec.sum_len (p :: rest)) with (Cbs.len p + Spec.sum_len rest) in Hs |- *.
    cbn [List.length] in Hc |- *. rewrite Nat2Z.inj_succ in Hc |- *.
    cbn [Cbs.burst_loop].
    destruct ((C.u64 (Cbs.ts_ns p - Cbs.ts_ns prev) >? thr)
              && (n <? Cbs.MAX_BURSTS)).
    + destruct (IH p (Cbs.burst_open p) (n + 1) Hrest)
        as (Hcov & Hbytes & Hall);
        try (cbn [Cbs.burst_open Cbs.bpackets Cbs.bytes]; lia).
      split; [|split].
      * change (Cbs.bpackets b
                + Spec.covered (Cbs.burst_loop thr p (Cbs.burst_open p) (n + 1) rest)
                = Cbs.bpackets b + Z.succ (Z.of_nat (List.length rest))).
        rewrite Hcov. cbn [Cbs.burst_open Cbs.bpackets]. lia.
      * change (Cbs.bytes b
                + Spec.sum_bytes (Cbs.burst_loop thr p (Cbs.burst_open p) (n + 1) rest)
                = Cbs.bytes b + (Cbs.len p + Spec.sum_len rest)).
        rewrite Hbytes. cbn [Cbs.burst_open Cbs.bytes]. lia.
      * constructor; [cbn; lia|exact Hall].
    + assert (E1 : Cbs.bpackets (Cbs.burst_extend b p) = Cbs.bpackets b + 1)
        by (cbn; apply u32_small; lia).
      assert (E2 : Cbs.bytes (Cbs.burst_extend b p) = Cbs.bytes b + Cbs.len p)
        by (cbn; apply u32_small; lia).
      destruct (IH p (Cbs.burst_extend b p) n Hrest)
        as (Hcov & Hbytes & Hall); try lia.
      rewrite Hcov, Hbytes, E1, E2. repeat split; try lia. exact Hall.
Qed.

Lemma last_cons_indep (l : list Cbs.packet_t) d d' :
  l <> [] -> List.last l d = List.last l d'.
Proof.
  induction l as [|x [|y r] IH]; intros H; [contradiction|reflexivity|].
  apply IH. discriminate.
Qed.

Lemma last_cons_indep_b (l : list Cbs.burst_t) d d' :
  l <> [] -> List.last l d = List.last l d'.
Proof.
  induction l as [|x [|y r] IH]; intros H; [contradiction|reflexivity|].
  apply IH. discriminate.
Qed.

(** Where the burst list starts and ends, and what separates its bursts. *)
Lemma burst_loop_span thr : forall rest prev b n,
  Spec.bursts_apart thr (Cbs.burst_loop thr prev b n rest)
  /\ Cbs.end_ns (List.last (Cbs.burst_loop thr prev b n rest) b)
     = Cbs.ts_ns (List.last rest prev)
  /\ exists b0 r, Cbs.burst_loop thr prev b n rest = b0 :: r
                  /\ Cbs.start_ns b0 = Cbs.start_ns b.
Proof.
  induction rest as [|p rest IH]; intros prev b n.
  - cbn. repeat split. eexists _, _; split; reflexivity.
  - cbn [Cbs.burst_loop].
    destruct ((C.u64 (Cbs.ts_ns p - Cbs.ts_ns prev) >? thr)
              && (n <? Cbs.MAX_BURSTS)) eqn:Hnew.
    + apply andb_true_iff in Hnew as [Hgap _]. apply Z.gtb_lt in Hgap.
      destruct (IH p (Cbs.burst_open p) (n + 1)) as (Ha & Hl & b0 & r & E & E0).
      rewrite E in Ha, Hl |- *. cbn [Cbs.burst_open Cbs.start_ns] in E0.
      split; [|split].
      * change (thr < C.u64 (Cbs.start_ns b0 - Cbs.ts_ns prev)
                /\ Spec.bursts_apart thr (b0 :: r)).
        rewrite E0. split; [exact Hgap|exact Ha].
      * change (List.last (Cbs.burst_close b (Cbs.ts_ns prev) :: b0 :: r) b)
          with (List.last (b0 :: r) b).
        destruct rest as [|q rest'];
          [cbn in E; inversion E; subst; reflexivity|].
        change (List.last (p :: q :: rest') prev) with (List.last (q :: rest') prev).
        rewrite (last_cons_indep (q :: rest') prev p) by discriminate.
        rewrite <- Hl. f_equal. apply last_cons_indep_b. discriminate.
      * eexists _, _; split; reflexivity.
    + destruct (IH p (Cbs.burst_extend b p) n) as (Ha & Hl & b0 & r & E & E0).
      split; [exact Ha|]. split.
      * rewrite E in Hl |- *.
        rewrite (last_cons_indep_b (b0 :: r) b (Cbs.burst_extend b p))
          by discriminate.
        rewrite Hl. destruct rest as [|q rest']; [reflexivity|].
        change (List.last (p :: q :: rest') prev) with (List.last (q :: rest') prev).
        apply f_equal, last_cons_indep. discriminate.
      * exists b0, r. split; [exact E|exact E0].
Qed.

Lemma detect_bursts_unfold tc p0 rest :
  Cbs.packet_count tc = Z.of_nat (List.length (Cbs.packets tc)) ->
  2 <= Cbs.packet_count tc ->
  Cbs.packets tc = p0 :: rest ->
  Cbs.bursts (Cbs.detect_bursts tc)
  = Cbs.burst_loop 500000 p0 (Cbs.burst_open p0) 1 rest
  /\ Cbs.burst_count (Cbs.detect_bursts tc)
     = Z.of_nat (List.length (Cbs.bursts (Cbs.detect_bursts tc))).
Proof.
  intros Hcnt H2 E. unfold Cbs.detect_bursts.
  assert (Hst : Cbs.stored tc = p0 :: rest).
  { unfold Cbs.stored. rewrite Hcnt, Nat2Z.id, firstn_all. exact E. }
  rewrite Hst. destruct (Z.ltb_spec (Cbs.packet_count tc) 2); [lia|].
  split; reflexivity.
Qed.

(** X8. Whatever the order of the timestamps, [detect_bursts] of
    cbs-estimator.c opens one burst, and one more for every two consecutive
    packets more than 500 us apart (unsigned difference), until 10000
    bursts exist; so the count lies between 1 and the number of packets. *)
Theorem detect_bursts_count (tc : Cbs.tc_analysis_t) :
  Cbs.packet_count tc = Z.of_nat (List.length (Cbs.packets tc)) ->
  2 <= Cbs.packet_count tc ->
  let tc' := Cbs.detect_bursts tc in
  Cbs.burst_count tc' = Z.of_nat (List.length (Cbs.bursts tc'))
  /\ Cbs.burst_count tc'
     = Z.min Cbs.MAX_BURSTS (1 + Spec.large_gaps 500000 (Cbs.packets tc))
  /\ 1 <= Cbs.burst_count tc' <= Cbs.packet_count tc.
Proof.
  intros Hcnt H2 tc'. subst tc'.
  destruct (Cbs.packets tc) as [|p0 rest] eqn:E; [cbn in Hcnt; lia|].
  assert (Hcnt0 : Cbs.packet_count tc = Z.of_nat (List.length (Cbs.packets tc)))
    by (rewrite E; exact Hcnt).
  destruct (detect_bursts_unfold tc p0 rest Hcnt0 H2 E) as [Hb Hc].
  pose proof (large_gaps_bounds 500000 (p0 :: rest)) as [Hg0 Hg1].
  rewrite <- Hcnt in Hg1.
  assert (Hlen : Cbs.burst_count (Cbs.detect_bursts tc)
                 = Z.min Cbs.MAX_BURSTS (1 + Spec.large_gaps 500000 (p0 :: rest))).
  { rewrite Hc, Hb, burst_loop_length by (unfold Cbs.MAX_BURSTS; lia).
    unfold Cbs.MAX_BURSTS. lia. }
  split; [exact Hc|]. split; [exact Hlen|].
  rewrite Hlen. unfold Cbs.MAX_BURSTS. lia.
Qed.

(** X9. Whatever the order of the timestamps, the bursts of [detect_bursts]
    account for every stored packet once and (the lengths adding up to less
    than 2^32) for every byte once; no burst is empty; the first burst
    starts at the first packet, the last one ends at the last packet, and
    each burst starts more than 500 us (unsigned difference) after the end
    of the one before it. *)
Theorem detect_bursts_accounts (tc : Cbs.tc_analysis_t) :
  Cbs.packet_count tc = Z.of_nat (List.length (Cbs.packets tc)) ->
  2 <= Cbs.packet_count tc <= Cbs.MAX_PACKETS ->
  Forall (fun p => 0 <= Cbs.len p) (Cbs.packets tc) ->
  Spec.sum_len (Cbs.packets tc) < 2 ^ 32 ->
  let bs := Cbs.bursts (Cbs.detect_bursts tc) in
  Spec.covered bs = Cbs.packet_count tc
  /\ Spec.sum_bytes bs = Spec.sum_len (Cbs.packets tc)
  /\ Forall (fun b => 1 <= Cbs.bpackets b) bs
  /\ Spec.bursts_apart 500000 bs
  /\ (exists b0 r, bs = b0 :: r
        /\ Cbs.start_ns b0 = Spec.first_stored_ts (Cbs.packets tc))
  /\ (forall d, Cbs.end_ns (List.last bs d)
                = Spec.last_stored_ts (Cbs.packets tc)).
Proof.
  intros Hcnt H2 Hlen Hsum bs. subst bs.
  destruct (Cbs.packets tc) as [|p0 rest] eqn:E; [cbn in Hcnt; lia|].
  assert (Hcnt0 : Cbs.packet_count tc = Z.of_nat (List.length (Cbs.packets tc)))
    by (rewrite E; exact Hcnt).
  destruct (detect_bursts_unfold tc p0 rest Hcnt0 ltac:(lia) E) as [Hb _].
  rewrite Hb. cbn [List.length] in Hcnt. rewrite Nat2Z.inj_succ in Hcnt.
  inversion Hlen as [|? ? Hp0 Hrest]; subst.
  change (Spec.sum_len (p0 :: rest)) with (Cbs.len p0 + Spec.sum_len rest)
    in Hsum |- *.
  unfold Cbs.MAX_PACKETS in H2.
  destruct (burst_loop_account 500000 rest p0 (Cbs.burst_open p0) 1 Hrest)
    as (Hcov & Hbytes & Hall);
    try (cbn [Cbs.burst_open Cbs.bpackets Cbs.bytes]; lia).
  destruct (burst_loop_span 500000 rest p0 (Cbs.burst_open p0) 1)
    as (Hapart & Hlast & b0 & r & Eb & E0).
  split; [rewrite Hcov; cbn [Cbs.burst_open Cbs.bpackets]; lia|].
  split; [rewrite Hbytes; reflexivity|].
  split; [exact Hall|]. split; [exact Hapart|]. split.
  - exists b0, r. split; [exact Eb|exact E0].
  - intros d. rewrite Eb in Hlast |- *.
    rewrite (last_cons_indep_b (b0 :: r) d (Cbs.burst_open p0)) by discriminate.
    rewrite Hlast. unfold Spec.last_stored_ts.
    destruct rest as [|q rest']; [reflexivity|].
    change (List.last (p0 :: q :: rest') p0) with (List.last (q :: rest') p0).
    reflexivity.
Qed.

Lemma verify_burst_loop_length thr last : forall rest prev b n,
  1 <= n <= Verify.MAX_BURSTS ->
  Z.of_nat (List.length (Verify.burst_loop thr prev b n last rest))
  <= Verify.MAX_BURSTS - n + 1.
Proof.
  induction rest as [|p rest IH]; intros prev b n Hn.
  - cbn [Verify.burst_loop List.length]. lia.
  - cbn [Verify.burst_loop].
    destruct (Z.ltb_spec n Verify.MAX_BURSTS) as [Hlt|Hge]; cbn [negb].
    + destruct (C.u64 (Cbs.ts_ns p - Cbs.ts_ns prev) >? thr).
      * cbn [List.length]. rewrite Nat2Z.inj_succ.
        specialize (IH p (Cbs.burst_open p) (n + 1) ltac:(lia)). lia.
      * specialize (IH p (Cbs.burst_extend b p) n ltac:(lia)). lia.
    + cbn [List.length]. lia.
Qed.

Lemma verify_burst_loop_agrees thr : forall rest prev b n,
  1 <= n ->
  n + Spec.large_gaps thr (prev :: rest) < Verify.MAX_BURSTS ->
  Verify.burst_loop thr prev b n (Cbs.ts_ns (List.last rest prev)) rest
  = Cbs.burst_loop thr prev b n rest.
Proof.
  induction rest as [|p rest IH]; intros prev b n Hn Hg; [reflexivity|].
  rewrite large_gaps_cons in Hg.
  pose proof (large_gaps_bounds thr (p :: rest)) as [Hg0 _].
  assert (El : List.last (p :: rest) prev = List.last rest p).
  { destruct rest as [|q r]; [reflexivity|].
    change (List.last (p :: q :: r) prev) with (List.last (q :: r) prev).
    apply last_cons_indep. discriminate. }
  rewrite El. cbn [Verify.burst_loop Cbs.burst_loop].
  unfold Verify.MAX_BURSTS, Cbs.MAX_BURSTS in *.
  destruct (Z.ltb_spec n 5000) as [_|]; [|destruct (_ >? _); lia].
  destruct (Z.ltb_spec n 10000) as [_|]; [|destruct (_ >? _); lia].
  cbn [negb]. rewrite andb_true_r.
  destruct (C.u64 (Cbs.ts_ns p - Cbs.ts_ns prev) >? thr).
  - rewrite IH by lia. reflexivity.
  - apply IH; lia.
Qed.

(** X10. The segmenter of tsn-verify.c never yields more than 5000 bursts,
    and on packets with fewer than 4999 gaps above 500 us it yields the
    very bursts that the one of cbs-estimator.c yields. *)
Theorem verify_detect_bursts_agrees (tc : Cbs.tc_analysis_t) :
  Cbs.packet_count tc = Z.of_nat (List.length (Cbs.packets tc)) ->
  Z.of_nat (List.length (Verify.detect_bursts (Cbs.packets tc)))
  <= Verify.MAX_BURSTS
  /\ (2 <= Cbs.packet_count tc ->
      1 + Spec.large_gaps 500000 (Cbs.packets tc) < Verify.MAX_BURSTS ->
      Verify.detect_bursts (Cbs.packets tc) = Cbs.bursts (Cbs.detect_bursts tc)).
Proof.
  intros Hcnt. split.
  - unfold Verify.detect_bursts.
    destruct (Z.of_nat (List.length (Cbs.packets tc)) <? 2);
      [cbn; unfold Verify.MAX_BURSTS; lia|].
    destruct (Cbs.packets tc) as [|p0 rest];
      [cbn; unfold Verify.MAX_BURSTS; lia|].
    pose proof (verify_burst_loop_length 500000
                  (Cbs.ts_ns (List.last (p0 :: rest) p0)) rest p0
                  (Cbs.burst_open p0) 1) as H.
    unfold Verify.MAX_BURSTS in *. lia.
  - intros H2 Hg.
    destruct (Cbs.packets tc) as [|p0 rest] eqn:E; [cbn in Hcnt; lia|].
    assert (Hcnt0 : Cbs.packet_count tc = Z.of_nat (List.length (Cbs.packets tc)))
      by (rewrite E; exact Hcnt).
    destruct (detect_bursts_unfold tc p0 rest Hcnt0 H2 E) as [Hb _].
    rewrite Hb. unfold Verify.detect_bursts. rewrite <- Hcnt.
    destruct (Z.ltb_spec (Cbs.packet_count tc) 2); [lia|].
    assert (El : List.last (p0 :: rest) p0 = List.last rest p0).
    { destruct rest as [|q r]; reflexivity. }
    rewrite El. apply verify_burst_loop_agrees; lia.
Qed.

End BurstAccounting.

(** Two packets close together, a third one 898 us later. *)
Lemma detect_bursts_count_witness :
  let tc := Spec.capture 0 [(1000, 64); (2000, 64); (900000, 64)] Cbs.tc_zero in
  Cbs.packet_count tc = Z.of_nat (List.length (Cbs.packets tc))
  /\ 2 <= Cbs.packet_count tc
  /\ Cbs.burst_count (Cbs.detect_bursts tc)
     = Z.min Cbs.MAX_BURSTS (1 + Spec.large_gaps 500000 (Cbs.packets tc)).
Proof.
  set (tc := Spec.capture 0 [(1000, 64); (2000, 64); (900000, 64)] Cbs.tc_zero).
  assert (H1 : Cbs.packet_count tc = Z.of_nat (List.length (Cbs.packets tc)))
    by reflexivity.
  assert (H2 : 2 <= Cbs.packet_count tc) by (vm_compute; discriminate).
  split; [exact H1|]. split; [exact H2|].
  exact (proj1 (proj2 (detect_bursts_count tc H1 H2))).
Defined.

(** A timestamp that goes back: both packets and all bytes are still
    accounted for. *)
Lemma detect_bursts_accounts_witness :
  let tc := Spec.capture 0 [(1000, 64); (500, 128)] Cbs.tc_zero in
  Cbs.packet_count tc = Z.of_nat (List.length (Cbs.packets tc))
  /\ 2 <= Cbs.packet_count tc <= Cbs.MAX_PACKETS
  /\ Forall (fun p => 0 <= Cbs.len p) (Cbs.packets tc)
  /\ Spec.sum_len (Cbs.packets tc) < 2 ^ 32
  /\ Spec.sum_bytes (Cbs.bursts (Cbs.detect_bursts tc))
     = Spec.sum_len (Cbs.packets tc).
Proof.
  set (tc := Spec.capture 0 [(1000, 64); (500, 128)] Cbs.tc_zero).
  assert (H1 : Cbs.packet_count tc = Z.of_nat (List.length (Cbs.packets tc)))
    by reflexivity.
  assert (H2 : 2 <= Cbs.packet_count tc <= Cbs.MAX_PACKETS)
    by (split; vm_compute; discriminate).
  assert (H3 : Forall (fun p => 0 <= Cbs.len p) (Cbs.packets tc))
    by (repeat constructor; vm_compute; discriminate).
  assert (H4 : Spec.sum_len (Cbs.packets tc) < 2 ^ 32) by (vm_compute; reflexivity).
  split; [exact H1|]. split; [exact H2|]. split; [exact H3|]. split; [exact H4|].
  exact (proj1 (proj2 (detect_bursts_accounts tc H1 H2 H3 H4))).
Defined.

Lemma verify_detect_bursts_agrees_witness :
  let tc := Spec.capture 0 [(1000, 64); (2000, 64); (900000, 64)] Cbs.tc_zero in
  Cbs.packet_count tc = Z.of_nat (List.length (Cbs.packets tc))
  /\ Z.of_nat (List.length (Verify.detect_bursts (Cbs.packets tc)))
     <= Verify.MAX_BURSTS.
Proof.
  set (tc := Spec.capture 0 [(1000, 64); (2000, 64); (900000, 64)] Cbs.tc_zero).
  assert (H1 : Cbs.packet_count tc = Z.of_nat (List.length (Cbs.packets tc)))
    by reflexivity.
  split; [exact H1|].
  exact (proj1 (verify_detect_bursts_agrees tc H1)).
Defined.

(** * Further properties of the capture path of cbs-estimator.c *)

Section CaptureStore.

Variable pcp : Z.

Lemma capture_full obs : forall s,
  Cbs.MAX_PACKETS <= Cbs.packet_count s -> Spec.capture pcp obs s = s.
Proof.
  induction obs as [|o obs IH]; intros s H; [reflexivity|].
  rewrite capture_cons.
  assert (E : Cbs.store_append s (fst o) (snd o) pcp = s).
  { unfold Cbs.store_append.
    destruct (Z.ltb_spec (Cbs.packet_count s) Cbs.MAX_PACKETS); [lia|reflexivity]. }
  rewrite E. apply IH. exact H.
Qed.

Lemma capture_prefix obs : forall s,
  Cbs.packet_count s = Z.of_nat (List.length (Cbs.packets s)) ->
  Cbs.packet_count s <= Cbs.MAX_PACKETS ->
  Cbs.packets (Spec.capture pcp obs s)
  = Cbs.packets s
    ++ map (Spec.stored_packet pcp)
           (firstn (Z.to_nat (Cbs.MAX_PACKETS - Cbs.packet_count s)) obs)
  /\ Cbs.packet_count (Spec.capture pcp obs s)
     = Z.min Cbs.MAX_PACKETS (Cbs.packet_count s + Z.of_nat (List.length obs)).
Proof.
  induction obs as [|o obs IH]; intros s Hc Hm.
  - cbn [Spec.capture fold_left List.length]. rewrite firstn_nil.
    cbn [map]. rewrite app_nil_r. split; [reflexivity|lia].
  - destruct (Z.eq_dec (Cbs.packet_count s) Cbs.MAX_PACKETS) as [Hfull|Hroom].
    + rewrite capture_full by lia.
      replace (Cbs.MAX_PACKETS - Cbs.packet_count s) with 0 by lia.
      cbn [Z.to_nat firstn map]. rewrite app_nil_r.
      split; [reflexivity|]. cbn [List.length]. lia.
    + rewrite capture_cons.
      set (s1 := Cbs.store_append s (fst o) (snd o) pcp).
      assert (H1 : Cbs.packets s1 = Cbs.packets s ++ [Spec.stored_packet pcp o]
                   /\ Cbs.packet_count s1 = Cbs.packet_count s + 1).
      { unfold s1, Cbs.store_append.
        destruct (Z.ltb_spec (Cbs.packet_count s) Cbs.MAX_PACKETS); [|lia].
        split; reflexivity. }
      destruct H1 as [Hp1 Hc1].
      destruct (IH s1) as [Hp Hn].
      * rewrite Hc1, Hp1, length_app. cbn [List.length]. lia.
      * lia.
      * rewrite Hp, Hn, Hp1, Hc1. split.
        -- replace (Z.to_nat (Cbs.MAX_PACKETS - Cbs.packet_count s))
             with (S (Z.to_nat (Cbs.MAX_PACKETS - (Cbs.packet_count s + 1))))
             by lia.
           cbn [firstn map]. rewrite <- app_assoc. reflexivity.
        -- cbn [List.length]. lia.
Qed.

(** X11. A store that starts empty keeps the first 100000 observations of
    its class, in arrival order, and drops all later ones. *)
Theorem capture_keeps_first (obs : list Spec.observation) :
  Cbs.packets (Spec.capture pcp obs Cbs.tc_zero)
  = map (Spec.stored_packet pcp) (firstn (Z.to_nat Cbs.MAX_PACKETS) obs)
  /\ Cbs.packet_count (Spec.capture pcp obs Cbs.tc_zero)
     = Z.min Cbs.MAX_PACKETS (Z.of_nat (List.length obs))
  /\ Cbs.stored (Spec.capture pcp obs Cbs.tc_zero)
     = Cbs.packets (Spec.capture pcp obs Cbs.tc_zero).
Proof.
  destruct (capture_prefix obs Cbs.tc_zero) as [Hp Hn];
    [reflexivity|cbv; discriminate|].
  cbn [Cbs.tc_zero Cbs.packets Cbs.packet_count app] in Hp, Hn.
  rewrite Z.sub_0_r in Hp. rewrite Z.add_0_l in Hn.
  split; [exact Hp|]. split; [exact Hn|].
  unfold Cbs.stored. rewrite Hn, Hp. apply firstn_all2.
  rewrite length_map, length_firstn. lia.
Qed.

End CaptureStore.

Section PacketHandler.

Lemma set_nth_length {A} (x : A) : forall l i,
  List.length (C.set_nth i x l) = List.length l.
Proof.
  induction l as [|y l IH]; intros [|i]; cbn; try reflexivity.
  rewrite IH. reflexivity.
Qed.

Lemma land7_range x : 0 <= Z.land x 0x07 < 8.
Proof.
  change 0x07 with (Z.ones 3). rewrite Z.land_ones by lia.
  apply Z.mod_pos_bound. lia.
Qed.

Lemma lor_shiftl_add a b k :
  0 <= k -> 0 <= b < 2 ^ k -> Z.lor (Z.shiftl a k) b = a * 2 ^ k + b.
Proof.
  intros Hk Hb.
  assert (H0 : Z.land (Z.shiftl a k) b = 0).
  { apply Z.bits_inj'. intros n Hn. rewrite Z.land_spec, Z.bits_0.
    destruct (Z.lt_ge_cases n k) as [Hlt|Hge].
    - rewrite Z.shiftl_spec_low by assumption. reflexivity.
    - replace b with (b mod 2 ^ k) by (apply Z.mod_small; assumption).
      rewrite Z.mod_pow2_bits_high by lia. apply andb_false_r. }
  pose proof (Z.add_lor_land (Z.shiftl a k) b) as H.
  rewrite H0 in H. rewrite <- Z.shiftl_mul_pow2 by assumption. lia.
Qed.

(** The priority and the VLAN of a tag whose two bytes are [a] and [b]:
    the top three bits of [a], and the low four bits of [a] before [b]. *)
Lemma tci_fields a b :
  Spec.byte_ok a -> Spec.byte_ok b ->
  let tci := C.u16 (Z.lor (Z.shiftl a 8) b) in
  Z.land (Z.shiftr tci 13) 0x07 = a / 32
  /\ Z.land tci 0x0FFF = (a mod 16) * 256 + b.
Proof.
  intros Ha Hb tci. unfold Spec.byte_ok in Ha, Hb.
  assert (Et : tci = a * 256 + b).
  { unfold tci. rewrite lor_shiftl_add by lia. change (2 ^ 8) with 256.
    unfold C.u16. apply Z.mod_small. lia. }
  rewrite Et. split.
  - change 0x07 with (Z.ones 3). rewrite Z.land_ones, Z.shiftr_div_pow2 by lia.
    change (2 ^ 13) with 8192. change (2 ^ 3) with 8.
    assert (Ed : (a * 256 + b) / 8192 = a / 32).
    { symmetry. apply (Z.div_unique (a * 256 + b) 8192 (a / 32)
                         ((a mod 32) * 256 + b)).
      - pose proof (Z.mod_pos_bound a 32 ltac:(lia)). lia.
      - pose proof (Z.div_mod a 32 ltac:(lia)). lia. }
    rewrite Ed. apply Z.mod_small.
    split; [apply Z.div_pos; lia|apply Z.div_lt_upper_bound; lia].
  - change 0x0FFF with (Z.ones 12). rewrite Z.land_ones by lia.
    change (2 ^ 12) with 4096. symmetry.
    apply (Z.mod_unique (a * 256 + b) 4096 (a / 16) ((a mod 16) * 256 + b)).
    + pose proof (Z.mod_pos_bound a 16 ltac:(lia)). lia.
    + pose proof (Z.div_mod a 16 ltac:(lia)). lia.
Qed.

(** X12. What [packet_handler] of cbs-estimator.c does with a frame, the
    eight stores being in place.  The class it files the frame under is
    the priority in the frame's tag, the top three bits of byte 14, always
    one of 0..7; every other store is left as it is.  A frame captured
    with at least 18 bytes, with EtherType 0x8100 and (target VLAN
    positive) the target VLAN in its tag replaces the store of its class by
    the result of one append, with the time of the capture header in
    nanoseconds and the frame length; any other frame changes nothing. *)
Theorem packet_handler_one_store (target_vlan : Z)
    (tc_data : list Cbs.tc_analysis_t) (hdr : Cbs.pcap_pkthdr) (pkt : list Z) :
  List.length tc_data = Z.to_nat Cbs.MAX_TC ->
  let tc_data' := Cbs.packet_handler target_vlan tc_data hdr pkt in
  let ethertype := C.u16 (Z.lor (Z.shiftl (nth 12 pkt 0) 8) (nth 13 pkt 0)) in
  let tci := C.u16 (Z.lor (Z.shiftl (nth 14 pkt 0) 8) (nth 15 pkt 0)) in
  let pcp := Z.land (Z.shiftr tci 13) 0x07 in
  let vid := Z.land tci 0x0FFF in
  let ts := C.u64 (C.u64 (Cbs.tv_sec hdr * 1000000000)
                   + C.u64 (Cbs.tv_usec hdr * 1000)) in
  0 <= pcp < Cbs.MAX_TC
  /\ (Spec.byte_ok (nth 14 pkt 0) -> Spec.byte_ok (nth 15 pkt 0) ->
      pcp = nth 14 pkt 0 / 32
      /\ vid = (nth 14 pkt 0 mod 16) * 256 + nth 15 pkt 0)
  /\ List.length tc_data' = List.length tc_data
  /\ (forall j, j <> Z.to_nat pcp -> nth_error tc_data' j = nth_error tc_data j)
  /\ (Cbs.caplen hdr < 18 \/ ethertype <> 0x8100
      \/ (0 < target_vlan /\ vid <> target_vlan) ->
      tc_data' = tc_data)
  /\ (18 <= Cbs.caplen hdr -> ethertype = 0x8100 ->
      target_vlan <= 0 \/ vid = target_vlan ->
      exists s, nth_error tc_data (Z.to_nat pcp) = Some s
        /\ nth_error tc_data' (Z.to_nat pcp)
           = Some (Cbs.store_append s ts (Cbs.hdr_len hdr) pcp)).
Proof.
  intros Hlen tc_data' ethertype tci pcp vid ts.
  pose proof (land7_range (Z.shiftr tci 13)) as Hpcp. fold pcp in Hpcp.
  assert (Hs : exists s, nth_error tc_data (Z.to_nat pcp) = Some s).
  { destruct (nth_error tc_data (Z.to_nat pcp)) as [s|] eqn:E; [eauto|].
    apply nth_error_None in E. unfold Cbs.MAX_TC in Hlen. lia. }
  destruct Hs as [s Hs].
  assert (Hcases : tc_data'
            = if (Cbs.caplen hdr <? 18) || negb (ethertype =? 0x8100)
                 || ((0 <? target_vlan) && negb (vid =? target_vlan))
              then tc_data
              else C.set_nth (Z.to_nat pcp)
                     (Cbs.store_append s ts (Cbs.hdr_len hdr) pcp) tc_data).
  { unfold tc_data', Cbs.packet_handler.
    destruct (Cbs.caplen hdr <? 18); [reflexivity|].
    fold ethertype. destruct (negb (ethertype =? 0x8100)); [reflexivity|].
    fold tci. fold pcp. fold vid.
    destruct ((0 <? target_vlan) && negb (vid =? target_vlan)); [reflexivity|].
    cbn [orb]. fold ts. unfold Cbs.update_tc. rewrite Hs. reflexivity. }
  split; [unfold Cbs.MAX_TC; lia|].
  split; [intros Ha Hb; apply (tci_fields _ _ Ha Hb)|].
  split; [|split; [|split]].
  - rewrite Hcases. destruct (_ || _); [reflexivity|apply set_nth_length].
  - intros j Hj. rewrite Hcases.
    destruct (_ || _); [reflexivity|]. apply set_nth_other. congruence.
  - intros H. rewrite Hcases.
    destruct (Z.ltb_spec (Cbs.caplen hdr) 18) as [|Hcap]; [reflexivity|].
    destruct (Z.eqb_spec ethertype 0x8100) as [He|]; [|reflexivity].
    destruct (Z.ltb_spec 0 target_vlan) as [Hpos|Hnp];
      destruct (Z.eqb_spec vid target_vlan) as [Hv|Hv];
      cbn [orb andb negb]; try reflexivity; exfalso; lia.
  - intros Hcap He Hv. exists s. split; [exact Hs|]. rewrite Hcases.
    destruct (Z.ltb_spec (Cbs.caplen hdr) 18) as [|_]; [lia|].
    destruct (Z.eqb_spec ethertype 0x8100) as [_|]; [|contradiction].
    assert (Hf : (0 <? target_vlan) && negb (vid =? target_vlan) = false).
    { destruct Hv as [Hv|Hv].
      - destruct (Z.ltb_spec 0 target_vlan); [lia|reflexivity].
      - rewrite Hv, Z.eqb_refl. apply andb_false_r. }
    rewrite Hf. cbn [orb negb]. eapply set_nth_same. exact Hs.
Qed.

End PacketHandler.

Lemma packet_handler_one_store_witness :
  let tc_data := repeat Cbs.tc_zero 8 in
  let hdr := Cbs.mk_hdr 1 0 64 64 in
  let pkt := repeat 0 12 ++ [0x81; 0x00; 0x60; 0x64] in
  List.length tc_data = Z.to_nat Cbs.MAX_TC
  /\ (forall j, j <> 3%nat ->
        nth_error (Cbs.packet_handler 100 tc_data hdr pkt) j
        = nth_error tc_data j).
Proof.
  assert (H : List.length (repeat Cbs.tc_zero 8) = Z.to_nat Cbs.MAX_TC)
    by reflexivity.
  split; [exact H|].
  exact (proj1 (proj2 (proj2 (proj2
           (packet_handler_one_store 100 (repeat Cbs.tc_zero 8)
              (Cbs.mk_hdr 1 0 64 64)
              (repeat 0 12 ++ [0x81; 0x00; 0x60; 0x64]) H))))).
Defined.

(** * The test frames of tsn-verify.c *)

Section TestFrames.

Lemma land_ff x : Z.land x 0xFF = x mod 256.
Proof. change 0xFF with (Z.ones 8). apply Z.land_ones. lia. Qed.

Lemma land_ff_ok x : Spec.byte_ok (Z.land x 0xFF).
Proof. rewrite land_ff. unfold Spec.byte_ok. apply Z.mod_pos_bound. lia. Qed.

Lemma u8_ok x : Spec.byte_ok (C.u8 x).
Proof. unfold Spec.byte_ok, C.u8. apply Z.mod_pos_bound. lia. Qed.

(** The tag control word survives the split into two bytes, and gives
    back the priority and the VLAN it was made of. *)
Lemma tci_round_trip pcp vlan_id :
  let tci :=
    C.u16 (Z.lor (Z.shiftl (Z.land pcp 0x7) 13) (Z.land vlan_id 0xFFF)) in
  C.u16 (Z.lor (Z.shiftl (Z.land (Z.shiftr tci 8) 0xFF) 8) (Z.land tci 0xFF))
  = tci
  /\ Z.land (Z.shiftr tci 13) 0x07 = Z.land pcp 0x7
  /\ Z.land tci 0x0FFF = Z.land vlan_id 0xFFF.
Proof.
  intros tci.
  assert (HP : 0 <= Z.land pcp 0x7 < 8).
  { change 0x7 with (Z.ones 3). rewrite Z.land_ones by lia.
    apply Z.mod_pos_bound. lia. }
  assert (HV : 0 <= Z.land vlan_id 0xFFF < 4096).
  { change 0xFFF with (Z.ones 12). rewrite Z.land_ones by lia.
    apply Z.mod_pos_bound. lia. }
  set (P := Z.land pcp 0x7) in *. set (V := Z.land vlan_id 0xFFF) in *.
  assert (Et : tci = P * 8192 + V).
  { unfold tci. rewrite lor_shiftl_add by lia.
    unfold C.u16. change (2 ^ 13) with 8192. apply Z.mod_small. lia. }
  assert (Ht : 0 <= tci < 65536) by lia.
  split; [|split].
  - rewrite !land_ff, Z.shiftr_div_pow2 by lia. change (2 ^ 8) with 256.
    rewrite lor_shiftl_add by (try apply Z.mod_pos_bound; lia).
    change (2 ^ 8) with 256. unfold C.u16. change (2 ^ 16) with 65536.
    rewrite (Z.mod_small (tci / 256) 256)
      by (split; [apply Z.div_pos; lia|apply Z.div_lt_upper_bound; lia]).
    pose proof (Z.div_mod tci 256 ltac:(lia)).
    rewrite Z.mod_small; lia.
  - change 0x07 with (Z.ones 3). rewrite Z.land_ones, Z.shiftr_div_pow2 by lia.
    change (2 ^ 13) with 8192. change (2 ^ 3) with 8.
    assert (Ed : tci / 8192 = P) by (symmetry; apply (Z.div_unique tci 8192 P V); lia).
    rewrite Ed. apply Z.mod_small. exact HP.
  - change 0x0FFF with (Z.ones 12). rewrite Z.land_ones by lia.
    change (2 ^ 12) with 4096. symmetry.
    apply (Z.mod_unique tci 4096 (2 * P) V); lia.
Qed.

Lemma checksum_bytes_ok le hdr :
  Spec.byte_ok (fst (Verify.checksum_bytes le hdr))
  /\ Spec.byte_ok (snd (Verify.checksum_bytes le hdr)).
Proof. unfold Verify.checksum_bytes. cbn [fst snd]. split; apply land_ff_ok. Qed.

(** X13. [build_frame] of tsn-verify.c writes exactly 64 bytes, the size of
    the buffer it is given, whatever the priority, the VLAN and the time;
    what it writes are bytes when the two addresses are. *)
Theorem build_frame_fits (little_endian : bool) (dst src : Verify.mac_t)
    (vlan_id pcp ts : Z) :
  Spec.mac_ok dst -> Spec.mac_ok src ->
  let '(frame, n) := Verify.build_frame little_endian dst src vlan_id pcp ts in
  n = 64 /\ Z.of_nat (List.length frame) = n /\ Forall Spec.byte_ok frame.
Proof.
  intros Hd Hs. unfold Verify.build_frame.
  pose proof (checksum_bytes_ok little_endian (Verify.ip_header pcp 0 0))
    as [Hc0 Hc1].
  destruct (Verify.checksum_bytes little_endian (Verify.ip_header pcp 0 0))
    as [c0 c1].
  cbn [fst snd] in Hc0, Hc1.
  unfold Spec.mac_ok in Hd, Hs. destruct dst, src.
  unfold Verify.mac_bytes in *. cbn [Verify.m0 Verify.m1 Verify.m2 Verify.m3
    Verify.m4 Verify.m5] in *.
  assert (Hb : forall b, In b [0; 1; 2; 3; 4; 5; 6; 7; 8; 17; 64; 69; 100; 129;
                               168; 192] -> Spec.byte_ok b).
  { intros b Hin. unfold Spec.byte_ok. cbn in Hin.
    repeat (destruct Hin as [<-|Hin]; [lia|]). contradiction. }
  destruct little_endian;
    (split; [reflexivity|]; split; [reflexivity|]);
    unfold Verify.ip_header, Verify.host_bytes64;
    cbn [app map rev List.length repeat Nat.sub];
    repeat (apply Forall_cons_iff in Hd as [? Hd]);
    repeat (apply Forall_cons_iff in Hs as [? Hs]);
    repeat (apply Forall_cons;
            [first [assumption | apply land_ff_ok | apply u8_ok
                   | apply Hb; cbn; tauto]|]);
    apply Forall_nil.
Qed.

(** X14. A frame built by [build_frame] for priority [pcp] and VLAN
    [vlan_id] is filed by the capture of cbs-estimator.c and by the capture
    of tas-estimator.c under class [pcp & 7] and under no other, when the
    estimator's target VLAN is off (not positive) or is [vlan_id & 0xFFF];
    with any other positive target the frame changes nothing. *)
Theorem build_frame_classified (little_endian : bool) (dst src : Verify.mac_t)
    (vlan_id pcp ts target_vlan : Z) (hdr : Cbs.pcap_pkthdr)
    (cbs : list Cbs.tc_analysis_t) (tas : list Tas.tc_data_t) :
  List.length cbs = Z.to_nat Cbs.MAX_TC ->
  List.length tas = Z.to_nat Tas.MAX_TC ->
  18 <= Cbs.caplen hdr ->
  let frame := fst (Verify.build_frame little_endian dst src vlan_id pcp ts) in
  let k := Z.land pcp 0x7 in
  let t := C.u64 (C.u64 (Cbs.tv_sec hdr * 1000000000)
                  + C.u64 (Cbs.tv_usec hdr * 1000)) in
  0 <= k < 8
  /\ (target_vlan <= 0 \/ target_vlan = Z.land vlan_id 0xFFF ->
      (exists s,
         nth_error cbs (Z.to_nat k) = Some s
         /\ Cbs.packet_handler target_vlan cbs hdr frame
            = C.set_nth (Z.to_nat k)
                (Cbs.store_append s t (Cbs.hdr_len hdr) k) cbs)
      /\ (exists s,
            nth_error tas (Z.to_nat k) = Some s
            /\ Tas.packet_handler target_vlan tas hdr frame
               = C.set_nth (Z.to_nat k)
                   (Tas.store_append s t (Cbs.hdr_len hdr)) tas))
  /\ (0 < target_vlan /\ target_vlan <> Z.land vlan_id 0xFFF ->
      Cbs.packet_handler target_vlan cbs hdr frame = cbs
      /\ Tas.packet_handler target_vlan tas hdr frame = tas).
Proof.
  intros Hlc Hlt Hcap frame k t.
  assert (Hk : 0 <= k < 8).
  { unfold k. change 0x7 with (Z.ones 3). rewrite Z.land_ones by lia.
    apply Z.mod_pos_bound. lia. }
  destruct (tci_round_trip pcp vlan_id) as (Htci & Hpcp & Hvid).
  set (tci := C.u16 (Z.lor (Z.shiftl (Z.land pcp 0x7) 13)
                           (Z.land vlan_id 0xFFF))) in *.
  assert (Hbytes : nth 12 frame 0 = 0x81 /\ nth 13 frame 0 = 0x00
                   /\ nth 14 frame 0 = Z.land (Z.shiftr tci 8) 0xFF
                   /\ nth 15 frame 0 = Z.land tci 0xFF).
  { unfold frame, Verify.build_frame. fold tci.
    destruct (Verify.checksum_bytes little_endian (Verify.ip_header pcp 0 0))
      as [c0 c1].
    destruct dst, src. unfold Verify.mac_bytes. cbn [fst app nth].
    repeat split; reflexivity. }
  destruct Hbytes as (H12 & H13 & H14 & H15).
  assert (Hc : Cbs.packet_handler target_vlan cbs hdr frame
               = if (0 <? target_vlan)
                    && negb (Z.land vlan_id 0xFFF =? target_vlan)
                 then cbs
                 else Cbs.update_tc cbs k
                        (fun s => Cbs.store_append s t (Cbs.hdr_len hdr) k)).
  { unfold Cbs.packet_handler.
    destruct (Z.ltb_spec (Cbs.caplen hdr) 18); [lia|].
    rewrite H12, H13, H14, H15, Htci, Hpcp, Hvid. reflexivity. }
  assert (Ht : Tas.packet_handler target_vlan tas hdr frame
               = if (0 <? target_vlan)
                    && negb (Z.land vlan_id 0xFFF =? target_vlan)
                 then tas
                 else match nth_error tas (Z.to_nat k) with
                      | Some s => C.set_nth (Z.to_nat k)
                                    (Tas.store_append s t (Cbs.hdr_len hdr)) tas
                      | None => tas
                      end).
  { unfold Tas.packet_handler.
    destruct (Z.ltb_spec (Cbs.caplen hdr) 18); [lia|].
    rewrite H12, H13, H14, H15, Htci, Hpcp, Hvid. reflexivity. }
  rewrite Hc, Ht. split; [exact Hk|]. split.
  - intros Hv.
    assert (Hf : (0 <? target_vlan)
                 && negb (Z.land vlan_id 0xFFF =? target_vlan) = false).
    { destruct Hv as [Hv|Hv].
      - destruct (Z.ltb_spec 0 target_vlan); [lia|reflexivity].
      - rewrite Hv, Z.eqb_refl. apply andb_false_r. }
    rewrite Hf. unfold Cbs.update_tc. split.
    + destruct (nth_error cbs (Z.to_nat k)) as [s|] eqn:E.
      * exists s. split; reflexivity.
      * apply nth_error_None in E. unfold Cbs.MAX_TC in Hlc. lia.
    + destruct (nth_error tas (Z.to_nat k)) as [s|] eqn:E.
      * exists s. split; reflexivity.
      * apply nth_error_None in E. unfold Tas.MAX_TC in Hlt. lia.
  - intros [Hpos Hne].
    destruct (Z.ltb_spec 0 target_vlan); [|lia].
    destruct (Z.eqb_spec (Z.land vlan_id 0xFFF) target_vlan); [lia|].
    split; reflexivity.
Qed.

(** X15. The IPv4 header checksum that [build_frame] stores passes the
    receiver's check on a big-endian host and fails it on a little-endian
    host: the sum is taken over the 16-bit words as the host reads them,
    and its high byte is stored first. *)
Theorem build_frame_checksum (little_endian : bool) (dst src : Verify.mac_t)
    (vlan_id pcp ts : Z) :
  0 <= pcp < 8 ->
  Spec.ip_checksum_ok
    (Spec.ip_header_of
       (fst (Verify.build_frame little_endian dst src vlan_id pcp ts)))
  = negb little_endian.
Proof.
  intros Hp.
  assert (E : Spec.ip_header_of
                (fst (Verify.build_frame little_endian dst src vlan_id pcp ts))
              = Verify.ip_header pcp
                  (fst (Verify.checksum_bytes little_endian
                          (Verify.ip_header pcp 0 0)))
                  (snd (Verify.checksum_bytes little_endian
                          (Verify.ip_header pcp 0 0)))).
  { unfold Verify.build_frame.
    destruct (Verify.checksum_bytes little_endian (Verify.ip_header pcp 0 0))
      as [c0 c1].
    destruct dst, src. reflexivity. }
  rewrite E.
  assert (Hcases : pcp = 0 \/ pcp = 1 \/ pcp = 2 \/ pcp = 3 \/ pcp = 4
                   \/ pcp = 5 \/ pcp = 6 \/ pcp = 7) by lia.
  destruct little_endian;
    repeat (destruct Hcases as [->|Hcases]; [vm_compute; reflexivity|]);
    subst; vm_compute; reflexivity.
Qed.

End TestFrames.

Lemma build_frame_fits_witness :
  let m := Verify.mk_mac 0xFF 0xFF 0xFF 0xFF 0xFF 0xFF in
  Spec.mac_ok m
  /\ snd (Verify.build_frame true m m 100 3 1000000000) = 64.
Proof.
  assert (H : Spec.mac_ok (Verify.mk_mac 0xFF 0xFF 0xFF 0xFF 0xFF 0xFF))
    by (repeat constructor; vm_compute; discriminate).
  split; [exact H|].
  exact (proj1 (build_frame_fits true _ _ 100 3 1000000000 H H)).
Defined.

Lemma build_frame_classified_witness :
  let m := Verify.mk_mac 0xFF 0xFF 0xFF 0xFF 0xFF 0xFF in
  let hdr := Cbs.mk_hdr 1 0 64 64 in
  List.length (repeat Cbs.tc_zero 8) = Z.to_nat Cbs.MAX_TC
  /\ List.length (repeat Tas.tc_zero 8) = Z.to_nat Tas.MAX_TC
  /\ 18 <= Cbs.caplen hdr
  /\ 0 <= Z.land 3 0x7 < 8.
Proof.
  assert (H1 : List.length (repeat Cbs.tc_zero 8) = Z.to_nat Cbs.MAX_TC)
    by reflexivity.
  assert (H2 : List.length (repeat Tas.tc_zero 8) = Z.to_nat Tas.MAX_TC)
    by reflexivity.
  assert (H3 : 18 <= Cbs.caplen (Cbs.mk_hdr 1 0 64 64))
    by (vm_compute; discriminate).
  split; [exact H1|]. split; [exact H2|]. split; [exact H3|].
  exact (proj1 (build_frame_classified true
                  (Verify.mk_mac 0xFF 0xFF 0xFF 0xFF 0xFF 0xFF)
                  (Verify.mk_mac 0xFF 0xFF 0xFF 0xFF 0xFF 0xFF)
                  100 3 1000000000 100 (Cbs.mk_hdr 1 0 64 64)
                  (repeat Cbs.tc_zero 8) (repeat Tas.tc_zero 8) H1 H2 H3)).
Defined.

Lemma build_frame_checksum_witness :
  0 <= 3 < 8
  /\ Spec.ip_checksum_ok
       (Spec.ip_header_of
          (fst (Verify.build_frame true
                  (Verify.mk_mac 0xFF 0xFF 0xFF 0xFF 0xFF 0xFF)
                  (Verify.mk_mac 0 0xE0 0x4C 0x68 0x13 0x36)
                  100 3 1000000000)))
     = false.
Proof.
  assert (H : 0 <= 3 < 8) by lia.
  split; [exact H|].
  exact (build_frame_checksum true _ _ 100 3 1000000000 H).
Defined.

(** * The window search of tsn-verify.c *)

Section VerifyWindow.

Variable thr : Z.

(** Once a start is known, the search moves the end to the last bin at or
    above the threshold. *)
Lemma find_window_end : forall bins i s e, 0 <= s ->
  exists mid post,
    bins = mid ++ post
    /\ Forall (fun h => h < thr) post
    /\ Verify.find_window thr i bins (s, e)
       = (s, match mid with
             | [] => e
             | _ :: _ => i + Z.of_nat (List.length mid) - 1
             end)
    /\ (mid <> [] -> thr <= List.last mid 0).
Proof.
  induction bins as [|h rest IH]; intros i s e Hs.
  - exists [], []. repeat split; try constructor. intros H; contradiction.
  - cbn [Verify.find_window fst snd].
    destruct (Z.ltb_spec s 0) as [|_]; [lia|].
    destruct (Z.leb_spec thr h) as [Hge|Hlt].
    + destruct (IH (i + 1) s i Hs) as (mid & post & E & Hpost & Hr & Hl).
      exists (h :: mid), post. subst rest.
      split; [reflexivity|]. split; [exact Hpost|]. split.
      * rewrite Hr. destruct mid as [|m mid]; f_equal;
          cbn [List.length]; lia.
      * intros _. destruct mid as [|m mid]; [exact Hge|].
        apply Hl. discriminate.
    + destruct (IH (i + 1) s e Hs) as (mid & post & E & Hpost & Hr & Hl).
      destruct mid as [|m mid].
      * exists [], (h :: post). subst rest.
        split; [reflexivity|]. split; [constructor; assumption|].
        split; [exact Hr|]. intros H; contradiction.
      * exists (h :: m :: mid), post. subst rest.
        split; [reflexivity|]. split; [exact Hpost|]. split.
        -- rewrite Hr. f_equal. cbn [List.length]. lia.
        -- intros _. apply Hl. discriminate.
Qed.

(** The search as a whole: the bins before the start and after the end
    are below the threshold, the bins at the start and at the end are
    not; nothing is asked of the bins between. *)
Lemma find_window_start : forall bins i, 0 <= i ->
  exists pre mid post,
    bins = pre ++ mid ++ post
    /\ Forall (fun h => h < thr) pre
    /\ Forall (fun h => h < thr) post
    /\ match mid with
       | [] => Verify.find_window thr i bins (-1, -1) = (-1, -1)
       | m :: _ =>
           thr <= m /\ thr <= List.last mid 0
           /\ Verify.find_window thr i bins (-1, -1)
              = (i + Z.of_nat (List.length pre),
                 i + Z.of_nat (List.length pre) + Z.of_nat (List.length mid) - 1)
       end.
Proof.
  induction bins as [|h rest IH]; intros i Hi.
  - exists [], [], []. repeat split; constructor.
  - cbn [Verify.find_window fst snd].
    destruct (Z.leb_spec thr h) as [Hge|Hlt].
    + change (-1 <? 0) with true. cbn iota.
      destruct (find_window_end rest (i + 1) i i Hi)
        as (mid & post & E & Hpost & Hr & Hl).
      exists [], (h :: mid), post. subst rest.
      split; [reflexivity|]. split; [constructor|]. split; [exact Hpost|].
      split; [exact Hge|]. split.
      * destruct mid as [|m mid]; [exact Hge|]. apply Hl. discriminate.
      * rewrite Hr. destruct mid as [|m mid]; f_equal;
          cbn [List.length]; lia.
    + destruct (IH (i + 1) ltac:(lia))
        as (pre & mid & post & E & Hpre & Hpost & Hm).
      exists (h :: pre), mid, post. subst rest.
      split; [reflexivity|]. split; [constructor; assumption|].
      split; [exact Hpost|].
      destruct mid as [|m mid]; [exact Hm|].
      destruct Hm as (H1 & H2 & Hr). split; [exact H1|]. split; [exact H2|].
      rewrite Hr. f_equal; cbn [List.length]; lia.
Qed.

End VerifyWindow.

Section VerifyHistogram.

Lemma fill_bins_fold first cycle_ns bin_size n_bins
    (step : list Z -> Cbs.packet_t -> list Z) :
  0 < cycle_ns -> 0 < bin_size ->
  (forall bins p,
     step bins p
     = if (C.u64 (Cbs.ts_ns p - first) mod cycle_ns) / bin_size <? n_bins
       then C.bump (Z.to_nat ((C.u64 (Cbs.ts_ns p - first) mod cycle_ns)
                              / bin_size)) bins
       else bins) ->
  forall pkts bins, Z.of_nat (List.length bins) = n_bins ->
  List.length (fold_left step pkts bins) = List.length bins
  /\ Spec.sum_bins (fold_left step pkts bins)
     <= Spec.sum_bins bins + Z.of_nat (List.length pkts)
  /\ (cycle_ns <= n_bins * bin_size ->
      Spec.sum_bins (fold_left step pkts bins)
      = Spec.sum_bins bins + Z.of_nat (List.length pkts)).
Proof.
  intros Hc Hb Hstep. induction pkts as [|p pkts IH]; intros bins Hlen.
  - cbn [fold_left List.length Z.of_nat]. repeat split; lia.
  - cbn [fold_left List.length]. rewrite Nat2Z.inj_succ. rewrite Hstep.
    set (bin := (C.u64 (Cbs.ts_ns p - first) mod cycle_ns) / bin_size).
    assert (Hphase : 0 <= C.u64 (Cbs.ts_ns p - first) mod cycle_ns < cycle_ns)
      by (apply Z.mod_pos_bound; lia).
    assert (Hbin : 0 <= bin) by (apply Z.div_pos; lia).
    destruct (Z.ltb_spec bin n_bins) as [Hin|Hout].
    + destruct (IH (C.bump (Z.to_nat bin) bins)) as (Hl & Hle & Heq);
        [rewrite bump_length; exact Hlen|].
      rewrite bump_length in Hl. rewrite bump_sum in Hle, Heq by lia.
      split; [exact Hl|]. split; [lia|]. intros H. rewrite Heq by exact H. lia.
    + destruct (IH bins Hlen) as (Hl & Hle & Heq).
      split; [exact Hl|]. split; [lia|]. intros H. exfalso.
      assert (bin < n_bins); [|lia].
      apply Z.div_lt_upper_bound; [lia|]. lia.
Qed.

(** What [analyze_tas] leaves in a class. *)
Lemma analyze_tas_window (tc : Verify.tc_data_t) (cycle_ns tc_idx : Z) :
  Verify.packet_count tc = Z.of_nat (List.length (Verify.packets tc)) ->
  10 <= Verify.packet_count tc ->
  0 < cycle_ns ->
  (cycle_ns < 100 -> Verify.analyze_tas tc cycle_ns tc_idx = None)
  /\ (100 <= cycle_ns ->
      exists tc' pre mid post,
        Verify.analyze_tas tc cycle_ns tc_idx = Some tc'
        /\ Verify.histogram_size tc' = 100
        /\ List.length (Verify.histogram tc') = 100%nat
        /\ Spec.sum_bins (Verify.histogram tc') <= Verify.packet_count tc
        /\ (cycle_ns mod 100 = 0 ->
            Spec.sum_bins (Verify.histogram tc') = Verify.packet_count tc)
        /\ Verify.histogram tc' = pre ++ mid ++ post
        /\ Forall (fun h => h < Verify.tas_threshold (Verify.packet_count tc) 100)
                  pre
        /\ Forall (fun h => h < Verify.tas_threshold (Verify.packet_count tc) 100)
                  post
        /\ match mid with
           | [] => Verify.window_start_us tc' = Verify.window_start_us tc
                   /\ Verify.window_duration_us tc'
                      = Verify.window_duration_us tc
           | m :: _ =>
               Verify.tas_threshold (Verify.packet_count tc) 100 <= m
               /\ Verify.tas_threshold (Verify.packet_count tc) 100
                  <= List.last mid 0
               /\ Verify.window_start_us tc'
                  = (C.double_of_Z (Z.of_nat (List.length pre))
                     * (C.double_of_Z (cycle_ns / 100) / 1000.0))%float
               /\ Verify.window_duration_us tc'
                  = (C.double_of_Z (Z.of_nat (List.length mid))
                     * (C.double_of_Z (cycle_ns / 100) / 1000.0))%float
           end).
Proof.
  intros Hcnt Hp Hc. unfold Verify.analyze_tas.
  destruct (Z.ltb_spec (Verify.packet_count tc) 10) as [|_]; [lia|].
  destruct (Z.eqb_spec cycle_ns 0) as [|_]; [lia|]. cbn [orb].
  split.
  - intros Hsmall. rewrite Z.div_small by lia. reflexivity.
  - intros Hbig.
    assert (Hbs : 0 < cycle_ns / 100)
      by (apply Z.div_str_pos; lia).
    destruct (Z.eqb_spec (cycle_ns / 100) 0) as [|_]; [lia|].
    set (hist := Verify.fill_bins tc cycle_ns (cycle_ns / 100) 100).
    set (t := Verify.tas_threshold (Verify.packet_count tc) 100).
    destruct (fill_bins_fold (Verify.first_ts tc) cycle_ns (cycle_ns / 100) 100
                _ Hc Hbs (fun _ _ => eq_refl)
                (firstn (Z.to_nat (Verify.packet_count tc)) (Verify.packets tc))
                (repeat 0 (Z.to_nat 100)))
      as (Hl & Hle & Heq); [rewrite repeat_length; reflexivity|].
    change (fold_left _ _ _) with hist in Hl, Hle, Heq.
    rewrite repeat_length in Hl. rewrite sum_bins_repeat in Hle, Heq.
    assert (Hst : Z.of_nat (List.length
                    (firstn (Z.to_nat (Verify.packet_count tc))
                            (Verify.packets tc)))
                  = Verify.packet_count tc).
    { rewrite length_firstn. lia. }
    rewrite Hst in Hle, Heq.
    destruct (find_window_start t hist 0 ltac:(lia))
      as (pre & mid & post & E & Hpre & Hpost & Hm).
    destruct mid as [|m mid].
    + rewrite Hm. cbn [Z.leb].
      eexists _, pre, [], post. split; [reflexivity|].
      cbn [Verify.histogram_size Verify.histogram Verify.window_start_us
           Verify.window_duration_us].
      repeat split; try assumption; try lia.
      intros Hdiv. apply Heq.
      pose proof (Z.div_mod cycle_ns 100 ltac:(lia)). lia.
    + destruct Hm as (H1 & H2 & Hr). rewrite Hr.
      destruct (Z.leb_spec 0 (0 + Z.of_nat (List.length pre))) as [_|]; [|lia].
      eexists _, pre, (m :: mid), post. split; [reflexivity|].
      cbn [Verify.histogram_size Verify.histogram Verify.window_start_us
           Verify.window_duration_us].
      repeat split; try assumption; try lia.
      * intros Hdiv. apply Heq.
        pose proof (Z.div_mod cycle_ns 100 ltac:(lia)). lia.
      * do 2 f_equal. lia.
Qed.

(** X16. [analyze_tas] of tsn-verify.c on a class with at least ten packets.
    With a cycle below 100 ns the bin size is zero and the first packet
    divides by zero.  Otherwise the histogram has 100 bins that hold at
    most the packets of the class, and all of them when 100 divides the
    cycle; the single window reported runs from the first bin at or above
    the threshold to the last such bin, whatever the bins between hold;
    with no such bin the window fields keep their values. *)
Theorem verify_analyze_tas_window (tc : Verify.tc_data_t) (cycle_ns tc_idx : Z) :
  Verify.packet_count tc = Z.of_nat (List.length (Verify.packets tc)) ->
  10 <= Verify.packet_count tc ->
  0 < cycle_ns ->
  (cycle_ns < 100 -> Verify.analyze_tas tc cycle_ns tc_idx = None)
  /\ (100 <= cycle_ns ->
      exists tc' pre mid post,
        Verify.analyze_tas tc cycle_ns tc_idx = Some tc'
        /\ Verify.histogram_size tc' = 100
        /\ List.length (Verify.histogram tc') = 100%nat
        /\ Spec.sum_bins (Verify.histogram tc') <= Verify.packet_count tc
        /\ (cycle_ns mod 100 = 0 ->
            Spec.sum_bins (Verify.histogram tc') = Verify.packet_count tc)
        /\ Verify.histogram tc' = pre ++ mid ++ post
        /\ Forall (fun h => h < Verify.tas_threshold (Verify.packet_count tc) 100)
                  pre
        /\ Forall (fun h => h < Verify.tas_threshold (Verify.packet_count tc) 100)
                  post
        /\ match mid with
           | [] => Verify.window_start_us tc' = Verify.window_start_us tc
                   /\ Verify.window_duration_us tc'
                      = Verify.window_duration_us tc
           | m :: _ =>
               Verify.tas_threshold (Verify.packet_count tc) 100 <= m
               /\ Verify.tas_threshold (Verify.packet_count tc) 100
                  <= List.last mid 0
               /\ Verify.window_start_us tc'
                  = (C.double_of_Z (Z.of_nat (List.length pre))
                     * (C.double_of_Z (cycle_ns / 100) / 1000.0))%float
               /\ Verify.window_duration_us tc'
                  = (C.double_of_Z (Z.of_nat (List.length mid))
                     * (C.double_of_Z (cycle_ns / 100) / 1000.0))%float
           end).
Proof. exact (analyze_tas_window tc cycle_ns tc_idx). Qed.

Lemma verify_score_classes_small cycle : forall tc_data acc,
  Forall (fun tc => Verify.packet_count tc < 50) tc_data ->
  Verify.score_classes cycle tc_data acc = acc.
Proof.
  induction tc_data as [|tc rest IH]; intros acc H; [reflexivity|].
  inversion H as [|? ? Htc Hrest]; subst. cbn [Verify.score_classes].
  destruct (Z.ltb_spec (Verify.packet_count tc) 50); [|lia].
  apply IH. exact Hrest.
Qed.

Lemma verify_fold_try_candidate tc_data : forall cycles best,
  (snd (fold_left (Verify.try_candidate tc_data) cycles best) = snd best
   \/ In (snd (fold_left (Verify.try_candidate tc_data) cycles best)) cycles)
  /\ (Forall (fun tc => Verify.packet_count tc < 50) tc_data ->
      fold_left (Verify.try_candidate tc_data) cycles best = best).
Proof.
  induction cycles as [|c cycles IH]; intros best.
  - split; [left; reflexivity|reflexivity].
  - cbn [fold_left]. destruct (IH (Verify.try_candidate tc_data best c))
      as [Hin Hsmall].
    split.
    + destruct Hin as [H|H]; [|right; right; exact H].
      rewrite H. unfold Verify.try_candidate.
      destruct (Verify.score_classes c tc_data (0%float, 0)) as [score n].
      destruct ((0 <? n) && (fst best <? score / C.double_of_Z n)%float);
        [right; left|left]; reflexivity.
    + intros H. rewrite Hsmall by exact H.
      unfold Verify.try_candidate.
      rewrite verify_score_classes_small by exact H. reflexivity.
Qed.

(** X17. Without an override [detect_cycle] of tsn-verify.c returns 0 or one
    of its eight candidates, and 0 when no class holds 50 packets; every
    candidate is a multiple of 100 ns, so [analyze_tas] run on the result
    never divides by zero and, the cycle being nonzero, counts every packet
    of the class in its histogram. *)
Theorem verify_detect_cycle_result (expected_cycle_ms : float)
    (tc_data : list Verify.tc_data_t) (tc : Verify.tc_data_t) (tc_idx : Z) :
  (0 <? expected_cycle_ms)%float = false ->
  Verify.packet_count tc = Z.of_nat (List.length (Verify.packets tc)) ->
  let c := Verify.detect_cycle expected_cycle_ms tc_data in
  (c = 0 \/ In c Verify.candidates)
  /\ (Forall (fun tc => Verify.packet_count tc < 50) tc_data -> c = 0)
  /\ exists tc', Verify.analyze_tas tc c tc_idx = Some tc'
       /\ (c = 0 \/ Verify.packet_count tc < 10 -> tc' = tc)
       /\ (c <> 0 -> 10 <= Verify.packet_count tc ->
           Spec.sum_bins (Verify.histogram tc') = Verify.packet_count tc).
Proof.
  intros He Hcnt c.
  assert (Ec : c = snd (fold_left (Verify.try_candidate tc_data)
                          Verify.candidates (0%float, 0))).
  { unfold c, Verify.detect_cycle. rewrite He. reflexivity. }
  destruct (verify_fold_try_candidate tc_data Verify.candidates (0%float, 0))
    as [Hin Hsmall].
  rewrite <- Ec in Hin. cbn [snd] in Hin.
  split; [exact Hin|]. split.
  - intros H. rewrite Ec, Hsmall by exact H. reflexivity.
  - assert (Hc : c = 0 \/ (100 <= c /\ c mod 100 = 0)).
    { destruct Hin as [->|Hin]; [left; reflexivity|right].
      cbn in Hin.
      repeat (destruct Hin as [<-|Hin]; [split; [lia|reflexivity]|]).
      contradiction. }
    destruct (Z.lt_ge_cases (Verify.packet_count tc) 10) as [Hfew|Hmany].
    + exists tc. unfold Verify.analyze_tas.
      destruct (Z.ltb_spec (Verify.packet_count tc) 10); [|lia].
      split; [reflexivity|]. split; [reflexivity|]. intros; lia.
    + destruct Hc as [E0|[Hbig Hdiv]].
      * exists tc. rewrite E0. unfold Verify.analyze_tas.
        rewrite orb_true_r. split; [reflexivity|].
        split; [reflexivity|]. intros; lia.
      * destruct (analyze_tas_window tc c tc_idx Hcnt Hmany ltac:(lia))
          as [_ H]. 
        destruct (H Hbig) as (tc' & pre & mid & post & E & _ & _ & _ & Hs & _).
        exists tc'. split; [exact E|]. split; [intros [?|?]; lia|].
        intros _ _. apply Hs. exact Hdiv.
Qed.

End VerifyHistogram.

(** Ten packets in the first bin of a 1 ms cycle. *)
Lemma verify_analyze_tas_window_witness :
  let tc := Verify.mk_tc
              (map (fun k => Cbs.mk_packet (1000000000 + Z.of_nat k * 1000000) 64 0)
                   (seq 0 10))
              10 1000000000 [] 0 0 0 in
  Verify.packet_count tc = Z.of_nat (List.length (Verify.packets tc))
  /\ 10 <= Verify.packet_count tc
  /\ 0 < 1000000
  /\ (1000000 < 100 -> Verify.analyze_tas tc 1000000 0 = None).
Proof.
  set (tc := Verify.mk_tc
              (map (fun k => Cbs.mk_packet (1000000000 + Z.of_nat k * 1000000) 64 0)
                   (seq 0 10))
              10 1000000000 [] 0 0 0).
  assert (H1 : Verify.packet_count tc = Z.of_nat (List.length (Verify.packets tc)))
    by reflexivity.
  assert (H2 : 10 <= Verify.packet_count tc) by (vm_compute; discriminate).
  assert (H3 : 0 < 1000000) by lia.
  split; [exact H1|]. split; [exact H2|]. split; [exact H3|].
  exact (proj1 (verify_analyze_tas_window tc 1000000 0 H1 H2 H3)).
Defined.

(** * The capture and the report of tas-estimator.c *)

Section TasCapture.

Lemma tas_store_append_stored pkts o :
  Forall (fun p => Tas.ts_ns p <> 0) pkts ->
  Spec.valid_observation o ->
  Z.of_nat (List.length pkts) < Tas.MAX_PACKETS ->
  Tas.store_append (Ex.tas_stored pkts) (fst o) (snd o)
  = Ex.tas_stored (pkts ++ [Tas.mk_packet (fst o) (snd o)]).
Proof.
  intros Hnz [Hts Hlen] Hroom. unfold Tas.store_append, Ex.tas_stored.
  cbn [Tas.packet_count Tas.packets Tas.first_ts Tas.histogram
       Tas.histogram_size Tas.windows Tas.window_count].
  destruct (Z.ltb_spec (Z.of_nat (List.length pkts)) Tas.MAX_PACKETS); [|lia].
  assert (Hu : C.u16 (snd o) = snd o) by (unfold C.u16; apply Z.mod_small; lia).
  rewrite Hu, length_app. cbn [List.length].
  replace (Z.of_nat (List.length pkts + 1)) with (Z.of_nat (List.length pkts) + 1)
    by lia.
  destruct pkts as [|q pkts].
  - cbn [app List.last Tas.ts_ns Z.eqb]. reflexivity.
  - inversion Hnz as [|? ? Hq _]; subst.
    destruct (Z.eqb_spec (Tas.ts_ns q) 0) as [|_]; [contradiction|].
    cbn [app]. f_equal.
    change (q :: pkts ++ [Tas.mk_packet (fst o) (snd o)])
      with ((q :: pkts) ++ [Tas.mk_packet (fst o) (snd o)]).
    rewrite last_last. reflexivity.
Qed.

Lemma tas_capture_from obs : forall pkts,
  Forall (fun p => Tas.ts_ns p <> 0) pkts ->
  Forall Spec.valid_observation obs ->
  Z.of_nat (List.length pkts) + Z.of_nat (List.length obs) <= Tas.MAX_PACKETS ->
  Spec.tas_capture obs (Ex.tas_stored pkts)
  = Ex.tas_stored (pkts ++ map (fun o => Tas.mk_packet (fst o) (snd o)) obs).
Proof.
  induction obs as [|o obs IH]; intros pkts Hnz Hv Hlen.
  - cbn. rewrite app_nil_r. reflexivity.
  - inversion Hv as [|? ? Ho Hrest]; subst.
    cbn [List.length] in Hlen. rewrite Nat2Z.inj_succ in Hlen.
    change (Spec.tas_capture (o :: obs) (Ex.tas_stored pkts))
      with (Spec.tas_capture obs
              (Tas.store_append (Ex.tas_stored pkts) (fst o) (snd o))).
    rewrite tas_store_append_stored by (try assumption; lia).
    rewrite IH.
    + cbn [map]. rewrite <- app_assoc. reflexivity.
    + apply Forall_app. split; [exact Hnz|].
      constructor; [|constructor]. cbn [Tas.ts_ns]. destruct Ho. lia.
    + exact Hrest.
    + rewrite length_app. cbn [List.length]. lia.
Qed.

(** X18. After the capture of tas-estimator.c has stored up to 200000
    observations with nonzero timestamps in an empty class, the class holds
    them in arrival order, its count is their number, its first and last
    timestamps are theirs, and it has no histogram and no window yet: the
    state on which the analysis is run. *)
Theorem tas_capture_state (obs : list Spec.observation) :
  Forall Spec.valid_observation obs ->
  Z.of_nat (List.length obs) <= Tas.MAX_PACKETS ->
  let s := Spec.tas_capture obs Tas.tc_zero in
  s = Ex.tas_stored (map (fun o => Tas.mk_packet (fst o) (snd o)) obs)
  /\ Tas.stored s = map (fun o => Tas.mk_packet (fst o) (snd o)) obs
  /\ Tas.packet_count s = Z.of_nat (List.length obs)
  /\ Tas.window_count s = 0.
Proof.
  intros Hv Hlen s.
  assert (E : s = Ex.tas_stored (map (fun o => Tas.mk_packet (fst o) (snd o)) obs)).
  { unfold s. change Tas.tc_zero with (Ex.tas_stored []).
    rewrite tas_capture_from; [reflexivity|constructor|exact Hv|].
    cbn [List.length]. lia. }
  split; [exact E|]. rewrite E. unfold Tas.stored, Ex.tas_stored.
  cbn [Tas.packet_count Tas.packets Tas.window_count].
  rewrite Nat2Z.id, firstn_all, length_map. repeat split; reflexivity.
Qed.

End TasCapture.

Section TasReport.

Lemma gates_of_byte :
  forallb (fun g => (String.length (Tas.gates (Tas.mk_gcl g 0)) =? 8)%nat
                    && (Spec.binary_value (Tas.gates (Tas.mk_gcl g 0)) =? g))
          (map Z.of_nat (seq 0 256)) = true.
Proof. vm_compute. reflexivity. Qed.

Lemma gates_round_trip e : 0 <= Tas.gate_states e < 2 ^ 8 ->
  String.length (Tas.gates e) = 8%nat
  /\ Spec.binary_value (Tas.gates e) = Tas.gate_states e.
Proof.
  intros Hg. pose proof gates_of_byte as H. rewrite forallb_forall in H.
  specialize (H (Tas.gate_states e)).
  assert (Hin : In (Tas.gate_states e) (map Z.of_nat (seq 0 256))).
  { apply in_map_iff. exists (Z.to_nat (Tas.gate_states e)).
    split; [lia|]. apply in_seq. change (2 ^ 8) with 256 in Hg. lia. }
  specialize (H Hin). apply andb_true_iff in H as [H1 H2].
  apply Nat.eqb_eq in H1. apply Z.eqb_eq in H2.
  destruct e as [g t]. unfold Tas.gates in *. cbn [Tas.gate_states] in *.
  split; assumption.
Qed.

(** X19. For every entry of the list that [build_gcl] yields, the gate
    string of the report has eight characters and, read as a binary
    number, is the gate value printed next to it. *)
Theorem gates_string_is_gate_value (cycle_ns : Z)
    (tc_data : list Tas.tc_data_t) :
  Forall (fun e => String.length (Tas.gates e) = 8%nat
                   /\ Spec.binary_value (Tas.gates e) = Tas.gate_states e)
         (Tas.build_gcl cycle_ns tc_data).
Proof.
  destruct (build_gcl_entries_fit cycle_ns tc_data) as [_ Hfit].
  eapply Forall_impl; [|exact Hfit].
  intros e [Hg _]. apply gates_round_trip. exact Hg.
Qed.

End TasReport.

(** * The report of cbs-estimator.c *)

Section CbsReport.

Lemma for_printed_tc {A} (f : Z -> Cbs.tc_analysis_t -> A) (g : A -> Z) :
  (forall i tc, g (f i tc) = i) ->
  forall tc_data i0,
  map g (Cbs.for_printed i0 tc_data f)
  = Cbs.for_printed i0 tc_data (fun i _ => i).
Proof.
  intros Hg. induction tc_data as [|tc rest IH]; intros i0; [reflexivity|].
  cbn [Cbs.for_printed]. destruct (Cbs.packet_count tc <? 10); [apply IH|].
  cbn [map]. rewrite Hg, IH. reflexivity.
Qed.

Lemma for_printed_in : forall tc_data i0 i,
  In i (Cbs.for_printed i0 tc_data (fun i _ => i))
  <-> i0 <= i
      /\ exists tc, nth_error tc_data (Z.to_nat (i - i0)) = Some tc
                    /\ 10 <= Cbs.packet_count tc.
Proof.
  induction tc_data as [|tc rest IH]; intros i0 i.
  - cbn. split; [contradiction|]. intros [_ [tc [H _]]].
    destruct (Z.to_nat (i - i0)); discriminate.
  - cbn [Cbs.for_printed].
    assert (Hshift : i0 + 1 <= i ->
              nth_error (tc :: rest) (Z.to_nat (i - i0))
              = nth_error rest (Z.to_nat (i - (i0 + 1)))).
    { intros H. replace (Z.to_nat (i - i0)) with (S (Z.to_nat (i - (i0 + 1))))
        by lia. reflexivity. }
    destruct (Z.ltb_spec (Cbs.packet_count tc) 10) as [Hs|Hb].
    + rewrite IH. split.
      * intros [Hi [tc' [Hn Hc]]]. split; [lia|]. exists tc'.
        rewrite Hshift by lia. split; assumption.
      * intros [Hi [tc' [Hn Hc]]].
        destruct (Z.eq_dec i i0) as [->|Hne].
        -- rewrite Z.sub_diag in Hn. cbn in Hn. inversion Hn; subst. lia.
        -- split; [lia|]. exists tc'. rewrite <- Hshift by lia.
           split; assumption.
    + cbn [In]. rewrite IH. split.
      * intros [<-|[Hi [tc' [Hn Hc]]]].
        -- split; [lia|]. exists tc. rewrite Z.sub_diag.
           split; [reflexivity|exact Hb].
        -- split; [lia|]. exists tc'. rewrite Hshift by lia.
           split; assumption.
      * intros [Hi [tc' [Hn Hc]]].
        destruct (Z.eq_dec i i0) as [->|Hne]; [left; reflexivity|].
        right. split; [lia|]. exists tc'. rewrite <- Hshift by lia.
        split; assumption.
Qed.

Lemma for_printed_increasing : forall tc_data i0,
  Forall (fun i => i0 <= i) (Cbs.for_printed i0 tc_data (fun i _ => i))
  /\ StronglySorted Z.lt (Cbs.for_printed i0 tc_data (fun i _ => i)).
Proof.
  induction tc_data as [|tc rest IH]; intros i0;
    [split; constructor|].
  cbn [Cbs.for_printed]. destruct (IH (i0 + 1)) as [Hge Hs].
  assert (Hge' : Forall (fun i => i0 <= i)
                   (Cbs.for_printed (i0 + 1) rest (fun i _ => i)))
    by (eapply Forall_impl; [|exact Hge]; cbn; intros; lia).
  destruct (Cbs.packet_count tc <? 10); [split; assumption|].
  split; [constructor; [lia|exact Hge']|].
  constructor; [exact Hs|].
  eapply Forall_impl; [|exact Hge]. cbn. intros. lia.
Qed.

Lemma detect_bursts_packet_count tc :
  Cbs.packet_count (Cbs.detect_bursts tc) = Cbs.packet_count tc.
Proof.
  unfold Cbs.detect_bursts. destruct (Cbs.packet_count tc <? 2); [reflexivity|].
  destruct (Cbs.stored tc); reflexivity.
Qed.

Lemma analyze_cbs_packet_count tc :
  Cbs.packet_count (Cbs.analyze_cbs tc) = Cbs.packet_count tc.
Proof.
  unfold Cbs.analyze_cbs.
  destruct ((Cbs.packet_count tc <? 10) || (Cbs.burst_count tc <? 1));
    [reflexivity|].
  destruct (Cbs.total_duration_s tc <=? 0)%float; [reflexivity|].
  destruct (Cbs.burst_stats _ _) as [[a b] c]. reflexivity.
Qed.

Lemma analyze_all_nth tc_data n :
  nth_error (Cbs.analyze_all tc_data) n
  = option_map (fun tc => if 0 <? Cbs.packet_count tc
                          then Cbs.analyze_cbs (Cbs.detect_bursts tc) else tc)
               (nth_error tc_data n).
Proof. unfold Cbs.analyze_all. apply nth_error_map. Qed.

(** X20. The report of cbs-estimator.c after the analysis pass lists the
    classes that captured at least ten packets, each once and in the order
    of their numbers, and no other class; the ["cbs_config"] array lists
    the same classes in the same order. *)
Theorem print_results_json_classes (link_speed_bps : float)
    (tc_data : list Cbs.tc_analysis_t) :
  let '(reports, configs) :=
    Cbs.print_results_json link_speed_bps (Cbs.analyze_all tc_data) in
  map Cbs.c_tc configs = map Cbs.r_tc reports
  /\ StronglySorted Z.lt (map Cbs.r_tc reports)
  /\ forall i, In i (map Cbs.r_tc reports)
       <-> 0 <= i
           /\ exists tc, nth_error tc_data (Z.to_nat i) = Some tc
                         /\ 10 <= Cbs.packet_count tc.
Proof.
  unfold Cbs.print_results_json.
  rewrite (for_printed_tc Cbs.report_tc Cbs.r_tc) by reflexivity.
  rewrite (for_printed_tc (Cbs.config_tc link_speed_bps) Cbs.c_tc)
    by reflexivity.
  split; [reflexivity|].
  split; [apply for_printed_increasing|].
  intros i. rewrite for_printed_in, Z.sub_0_r.
  split; intros [Hi [tc [Hn Hc]]]; (split; [exact Hi|]).
  - rewrite analyze_all_nth in Hn.
    destruct (nth_error tc_data (Z.to_nat i)) as [tc0|]; [|discriminate].
    exists tc0. split; [reflexivity|]. cbn in Hn. inversion Hn; subst.
    destruct (0 <? Cbs.packet_count tc0); [|exact Hc].
    rewrite analyze_cbs_packet_count, detect_bursts_packet_count in Hc.
    exact Hc.
  - eexists. rewrite analyze_all_nth, Hn. split; [reflexivity|].
    destruct (0 <? Cbs.packet_count tc); [|exact Hc].
    rewrite analyze_cbs_packet_count, detect_bursts_packet_count. exact Hc.
Qed.

End CbsReport.

Lemma tas_capture_state_witness :
  let obs := [(1000000000, 64); (1000500000, 64); (1001000000, 128)] in
  Forall Spec.valid_observation obs
  /\ Z.of_nat (List.length obs) <= Tas.MAX_PACKETS
  /\ Tas.packet_count (Spec.tas_capture obs Tas.tc_zero) = 3.
Proof.
  assert (H1 : Forall Spec.valid_observation
                 [(1000000000, 64); (1000500000, 64); (1001000000, 128)])
    by (repeat constructor; vm_compute; (reflexivity || discriminate)).
  assert (H2 : Z.of_nat (List.length
                 [(1000000000, 64); (1000500000, 64); (1001000000, 128)])
               <= Tas.MAX_PACKETS) by (vm_compute; discriminate).
  split; [exact H1|]. split; [exact H2|].
  exact (proj1 (proj2 (proj2 (tas_capture_state _ H1 H2)))).
Defined.

(** Two classes of 60 packets each, 1 ms apart. *)
Lemma verify_detect_cycle_result_witness :
  let tc := Verify.mk_tc
              (map (fun k => Cbs.mk_packet (1000000000 + Z.of_nat k * 1000000) 64 0)
                   (seq 0 60))
              60 1000000000 [] 0 0 0 in
  (0 <? 0)%float = false
  /\ Verify.packet_count tc = Z.of_nat (List.length (Verify.packets tc))
  /\ (Verify.detect_cycle 0 [tc; tc] = 0
      \/ In (Verify.detect_cycle 0 [tc; tc]) Verify.candidates).
Proof.
  set (tc := Verify.mk_tc
              (map (fun k => Cbs.mk_packet (1000000000 + Z.of_nat k * 1000000) 64 0)
                   (seq 0 60))
              60 1000000000 [] 0 0 0).
  assert (H1 : (0 <? 0)%float = false) by reflexivity.
  assert (H2 : Verify.packet_count tc = Z.of_nat (List.length (Verify.packets tc)))
    by reflexivity.
  split; [exact H1|]. split; [exact H2|].
  exact (proj1 (verify_detect_cycle_result 0 [tc; tc] tc 0 H1 H2)).
Defined.

(** The ten packets around the boundaries of a 10 ms cycle, the cycle
    given on the command line. *)
Lemma main_analysis_gcl_witness :
  let tcs := Ex.tas_stored Ex.wrap_pkts :: repeat Tas.tc_zero 7 in
  let tcs' := Tas.analyze_classes 10000000 0 tcs in
  Forall (fun tc => Tas.window_count tc = 0) tcs
  /\ Tas.main_analysis 10 tcs
     = Tas.Estimated 10000000 tcs' (Tas.build_gcl 10000000 tcs')
  /\ Spec.windows_in_cycle 10000000 tcs'.
Proof.
  set (tcs := Ex.tas_stored Ex.wrap_pkts :: repeat Tas.tc_zero 7).
  set (tcs' := Tas.analyze_classes 10000000 0 tcs).
  assert (H1 : Forall (fun tc => Tas.window_count tc = 0) tcs)
    by (repeat constructor).
  assert (Hc : Tas.detect_cycle_time 10 tcs = 10000000)
    by (vm_compute; reflexivity).
  assert (H2 : Tas.main_analysis 10 tcs
               = Tas.Estimated 10000000 tcs' (Tas.build_gcl 10000000 tcs')).
  { unfold Tas.main_analysis. rewrite Hc. reflexivity. }
  split; [exact H1|]. split; [exact H2|].
  exact (proj1 (proj2 (proj2 (proj2
           (main_analysis_gcl 10 tcs tcs' 10000000
              (Tas.build_gcl 10000000 tcs') H1 H2))))).
Defined.
